(** * Docmost MCP gateway: a shallow embedding of [server.js], [docmostClient.js]
      and [config.js], and the properties of its specification.

    The gateway is a Node.js program.  Its pure parts become Rocq functions over a
    small model of JavaScript values; its effects (the [fetch] calls towards the
    Docmost backend) are threaded through an explicit world that records every
    request sent and scripts every response received.  The only loop of the
    program, the pagination loop of [listPages], runs on fuel.

    Logging, the HTTP listener and the handling of signals are outside the
    model: the handler is a function from an incoming request to the response
    it writes.

    Conventions.
    - A JavaScript string is a Rocq [string] holding its UTF-8 bytes.  A
      surrogate pair is the four bytes of its code point; a surrogate that
      stands alone is written on three bytes, as the other code points of its
      size are.
    - A JavaScript number is an integer [Z], read as the double nearest to it,
      which is itself up to [2^53].  The program tests numbers for truthiness,
      prints them, and increments a page counter, which counts the requests
      sent and stays below [2^53].
    - An object is the list of its own enumerable properties in enumeration order.
*)

From Stdlib Require Import String Ascii List ZArith NArith Bool Lia DecimalString.
Import ListNotations.
Set Warnings "-register-all".

Open Scope string_scope.
Open Scope Z_scope.

(* ================================================================== *)
(** * JavaScript values and the builtins the program calls            *)
(* ================================================================== *)

Module Js.

Inductive JsVal : Type :=
| JUndefined
| JNull
| JBool (b : bool)
| JNum (z : Z)
| JStr (s : string)
| JArr (l : list JsVal)
| JObj (m : list (string * JsVal)).

(** [Boolean(v)], and the test of [if (v)], [!v], [a || b]. *)
Definition truthy (v : JsVal) : bool :=
  match v with
  | JUndefined | JNull => false
  | JBool b => b
  | JNum z => negb (z =? 0)
  | JStr s => negb (s =? EmptyString)%string
  | JArr _ | JObj _ => true
  end.

(** [a || b] *)
Definition or (a b : JsVal) : JsVal := if truthy a then a else b.

Definition nullish (v : JsVal) : bool :=
  match v with JUndefined | JNull => true | _ => false end.

(** [typeof v === 'object'] *)
Definition typeof_object (v : JsVal) : bool :=
  match v with JNull | JArr _ | JObj _ => true | _ => false end.

(** Strict equality with a string literal, as in [tool === 'create_page'] and the
    [case] labels of a [switch]. *)
Definition is_str (v : JsVal) (lit : string) : bool :=
  match v with JStr s => (s =? lit)%string | _ => false end.

(** ** Own properties *)

Fixpoint lookup (k : string) (m : list (string * JsVal)) : option JsVal :=
  match m with
  | [] => None
  | (k', v) :: r => if (k =? k')%string then Some v else lookup k r
  end.

(** [Object.prototype.hasOwnProperty.call(v, k)] for a key that is neither an
    array index nor ["length"]. *)
Definition hasOwn (v : JsVal) (k : string) : bool :=
  match v with
  | JObj m => match lookup k m with Some _ => true | None => false end
  | _ => false
  end.

(** [v?.k], and [v.k] or a destructuring [{ k } = v] when [v] is known not to be
    null or undefined.  The keys the program reads ([tool], [params], [jsonrpc],
    [method], [id], [name], [arguments], [spaceId], [pageId], [query], [title],
    [content], [folderId], [payload], [items], [meta], [hasNextPage], [data],
    [headers]) are
    no property of a string, a number, a boolean or an array, nor of any
    prototype, so only an object can answer with something else than
    [undefined]. *)
Definition get (v : JsVal) (k : string) : JsVal :=
  match v with
  | JObj m => match lookup k m with Some x => x | None => JUndefined end
  | _ => JUndefined
  end.

(** ** Strings *)

Definition dquote : string := String "034" EmptyString.
Definition squote : string := String "039" EmptyString.
Definition backslash : string := String "092" EmptyString.

Definition lower_ascii (c : ascii) : ascii :=
  let n := nat_of_ascii c in
  if ((65 <=? n) && (n <=? 90))%nat then ascii_of_nat (n + 32) else c.

(** [s.toLowerCase()].  Only ASCII letters are folded: the program searches the
    folded text for needles built from the letters of [true], [yes], [on] and
    [<!doctype html], and no character outside ASCII folds to one of those
    letters (only [k] and [i] are images of such characters). *)
Fixpoint toLowerCase (s : string) : string :=
  match s with
  | EmptyString => EmptyString
  | String c r => String (lower_ascii c) (toLowerCase r)
  end.

(** [s.startsWith(p)] *)
Definition startsWith (s p : string) : bool := String.prefix p s.

(** [s.includes(needle)] *)
Fixpoint includes (s needle : string) : bool :=
  String.prefix needle s ||
  match s with
  | EmptyString => false
  | String _ r => includes r needle
  end.

(** [s.split(sep)] for a separator of one ASCII character. *)
Fixpoint split (sep : ascii) (s : string) : list string :=
  match s with
  | EmptyString => [EmptyString]
  | String c r =>
      if Ascii.eqb c sep then EmptyString :: split sep r
      else match split sep r with
           | [] => [String c EmptyString]
           | h :: t => String c h :: t
           end
  end.

Definition is_continuation (c : ascii) : bool :=
  let n := nat_of_ascii c in ((128 <=? n) && (n <? 192))%nat.

Fixpoint code_points_aux (s : string) : string * list string :=
  match s with
  | EmptyString => (EmptyString, [])
  | String c r =>
      let '(pending, acc) := code_points_aux r in
      if is_continuation c then (String c pending, acc)
      else (EmptyString, String c pending :: acc)
  end.

(** The characters a string yields when iterated ([...s]): its code points, each
    one a lead byte with the continuation bytes that follow it. *)
Definition code_points (s : string) : list string :=
  let '(pending, acc) := code_points_aux s in
  match pending with EmptyString => acc | _ => pending :: acc end.

(** The surrogate [x], between [0xD800] and [0xDFFF], as a string. *)
Definition surrogate (x : N) : string :=
  String (ascii_of_N 237)
    (String (ascii_of_N (128 + (x / 64) mod 64))
       (String (ascii_of_N (128 + x mod 64)) EmptyString)).

(** The UTF-16 code units of a code point: itself, or its two surrogates when
    it is written on four bytes. *)
Definition units_of (point : string) : list string :=
  match point with
  | String b0 (String b1 (String b2 (String b3 EmptyString))) =>
      if (240 <=? N_of_ascii b0)%N then
        let u := ((N_of_ascii b0 mod 8) * 262144 + (N_of_ascii b1 mod 64) * 4096
                  + (N_of_ascii b2 mod 64) * 64 + N_of_ascii b3 mod 64
                  - 65536)%N in
        [surrogate (55296 + u / 1024); surrogate (56320 + u mod 1024)]
      else [point]
  | _ => [point]
  end.

(** The characters a string holds at its indices ([s[0]], [s[1]], ...): its
    UTF-16 code units. *)
Definition code_units (s : string) : list string :=
  flat_map units_of (code_points s).

(** [s.length]: UTF-16 code units, one per code point and two for a code point
    written on four bytes. *)
Fixpoint length (s : string) : N :=
  match s with
  | EmptyString => 0%N
  | String c r =>
      let n := nat_of_ascii c in
      ((if is_continuation c then 0 else if (240 <=? n)%nat then 2 else 1)
       + length r)%N
  end.

(** [Buffer.byteLength(s)] *)
Definition byteLength (s : string) : Z := Z.of_nat (String.length s).

(** ** Numbers *)

(** The largest integer below which every integer is a double. *)
Definition safe : Z := 9007199254740992.

(** The double nearest to a positive integer, a tie going to the even
    mantissa.  A result of [2^1024] or more stands for [Infinity]. *)
Definition nearest_double (n : Z) : Z :=
  if n <=? safe then n
  else
    let e := Z.log2 n - 52 in
    let q := Z.shiftr n e in
    let r := n - Z.shiftl q e in
    let half := Z.shiftl 1 (e - 1) in
    Z.shiftl (if (half <? r) || ((r =? half) && Z.odd q) then q + 1 else q) e.

(** [Number.isFinite(n)] *)
Definition finite (z : Z) : bool :=
  nearest_double (Z.abs z) <? Z.shiftl 1 1024.

Definition digits (n : Z) : Decimal.uint := N.to_uint (Z.to_N n).

(** The integer with the fewest significant digits that the double [x], of [nd]
    digits, is the nearest double to, and the closest to [x] among those: tried
    with [k] significant digits, then with one more.  Seventeen digits tell
    any two doubles apart. *)
Fixpoint shortest (fuel : nat) (k nd x : Z) : Z :=
  match fuel with
  | O => x
  | S fuel' =>
      if nd <=? k then x
      else
        let p := 10 ^ (nd - k) in
        let below := (x / p) * p in
        let above := below + p in
        let b := nearest_double below =? x in
        let a := nearest_double above =? x in
        if b && a then
          if x - below <? above - x then below
          else if above - x <? x - below then above
          else if Z.even (x / p) then below else above
        else if b then below
        else if a then above
        else shortest fuel' (k + 1) nd x
  end.

Definition significand (d : Decimal.uint) : Decimal.uint :=
  Decimal.rev (Decimal.nzhead (Decimal.rev d)).

(** The exponent form of a numeral of more than 21 digits: [1e+21],
    [1.5e+22]. *)
Definition exponential (d : Decimal.uint) : string :=
  let e := "e+" ++ NilZero.string_of_uint (Nat.to_uint (Decimal.nb_digits d - 1)) in
  match NilEmpty.string_of_uint (significand d) with
  | EmptyString => "0"
  | String c EmptyString => String c e
  | String c r => String c ("." ++ r ++ e)
  end.

(** [String(n)] for a positive [n] above [safe]. *)
Definition large (n : Z) : string :=
  let x := nearest_double n in
  if Z.shiftl 1 1024 <=? x then "Infinity"
  else
    let v := digits (shortest 17 1 (Z.of_nat (Decimal.nb_digits (digits x))) x) in
    if (Decimal.nb_digits v <=? 21)%nat then NilZero.string_of_uint v
    else exponential v.

(** [String(n)] for the number an integer stands for: its decimal numeral up to
    [2^53]; above, the shortest numeral that reads back as the same double, in
    exponent form from 22 digits on. *)
Definition decimal (z : Z) : string :=
  if Z.abs z <=? safe then NilZero.string_of_int (Z.to_int z)
  else if z <? 0 then "-" ++ large (- z) else large z.

(** [String(v)] and [`${v}`] for a value parsed from JSON; [None] is the
    [TypeError] of an object that cannot be converted to a primitive value.  An
    own member [toString] hides [Object.prototype.toString], and no member of
    a parsed value is callable; the elements of an array are converted in
    turn. *)
Fixpoint ToString (v : JsVal) : option string :=
  match v with
  | JUndefined => Some "undefined"
  | JNull => Some "null"
  | JBool b => Some (if b then "true" else "false")
  | JNum z => Some (decimal z)
  | JStr s => Some s
  | JArr l =>
      option_map (String.concat ",")
        (fold_right (fun x acc =>
                       match match x with
                             | JUndefined | JNull => Some EmptyString
                             | _ => ToString x
                             end, acc with
                       | Some s, Some r => Some (s :: r)
                       | _, _ => None
                       end) (Some []) l)
  | JObj m =>
      match lookup "toString" m with
      | Some _ => None
      | None => Some "[object Object]"
      end
  end.

(** The text a template literal holds for a value that converts.  The errors
    [UnknownTool] and [UnknownMethod] below are thrown for such values only. *)
Definition template (v : JsVal) : string :=
  match ToString v with Some s => s | None => EmptyString end.

(** ** JSON.stringify *)

Definition hex_digit (n : nat) : string :=
  String.substring n 1 "0123456789abcdef".

Definition escape_char (c : ascii) : string :=
  let n := nat_of_ascii c in
  if (n =? 34)%nat then backslash ++ dquote
  else if (n =? 92)%nat then backslash ++ backslash
  else if (n =? 8)%nat then backslash ++ "b"
  else if (n =? 9)%nat then backslash ++ "t"
  else if (n =? 10)%nat then backslash ++ "n"
  else if (n =? 12)%nat then backslash ++ "f"
  else if (n =? 13)%nat then backslash ++ "r"
  else if (n <? 32)%nat then
    backslash ++ "u00" ++ hex_digit (n / 16) ++ hex_digit (n mod 16)
  else String c EmptyString.

(** The escape of the lone surrogate written [237], [c1], [c2]. *)
Definition escape_surrogate (c1 c2 : ascii) : string :=
  let x := ((nat_of_ascii c1 mod 64) * 64 + nat_of_ascii c2 mod 64)%nat in
  backslash ++ "ud" ++ hex_digit (x / 256) ++ hex_digit ((x / 16) mod 16)
  ++ hex_digit (x mod 16).

Fixpoint escape (s : string) : string :=
  match s with
  | EmptyString => EmptyString
  | String c r =>
      match r with
      | String c1 (String c2 r') =>
          if ((nat_of_ascii c =? 237) && (160 <=? nat_of_ascii c1)
              && (nat_of_ascii c1 <? 192))%nat
          then escape_surrogate c1 c2 ++ escape r'
          else escape_char c ++ escape r
      | _ => escape_char c ++ escape r
      end
  end.

Definition quote (s : string) : string := dquote ++ escape s ++ dquote.

(** [JSON.stringify(v)]; [None] is the [undefined] it returns for [undefined].
    A member whose value is [undefined] is left out of an object and printed as
    [null] in an array; so is a number that is not finite. *)
Fixpoint stringify (v : JsVal) : option string :=
  match v with
  | JUndefined => None
  | JNull => Some "null"
  | JBool b => Some (if b then "true" else "false")
  | JNum z => Some (if finite z then decimal z else "null")
  | JStr s => Some (quote s)
  | JArr l =>
      Some ("[" ++ String.concat ","
                     (map (fun x => match stringify x with
                                    | Some s => s
                                    | None => "null"
                                    end) l) ++ "]")
  | JObj m =>
      Some ("{" ++ String.concat ","
                     (flat_map (fun kv => match stringify (snd kv) with
                                          | Some s => [quote (fst kv) ++ ":" ++ s]
                                          | None => []
                                          end) m) ++ "}")
  end.

(** [JSON.stringify] of an object literal, which is always a string. *)
Definition stringify_object (m : list (string * JsVal)) : string :=
  match stringify (JObj m) with Some s => s | None => EmptyString end.

(** ** Object literals and spread *)

Definition is_digit (c : ascii) : bool :=
  let n := nat_of_ascii c in ((48 <=? n) && (n <=? 57))%nat.

(** An array index: the canonical numeral of an integer below [2^32 - 1]. *)
Definition array_index (k : string) : bool :=
  match k with
  | EmptyString => false
  | String c rest =>
      forallb is_digit (list_ascii_of_string k)
      && (negb (Ascii.eqb c "0") || (rest =? EmptyString)%string)
      && ((String.length k <? 10)%nat
          || ((String.length k =? 10)%nat && (k <=? "4294967294")%string))
  end.

Definition index_ltb (a b : string) : bool :=
  (String.length a <? String.length b)%nat
  || ((String.length a =? String.length b)%nat && (a <? b)%string).

Fixpoint replace (k : string) (v : JsVal) (m : list (string * JsVal))
  : list (string * JsVal) :=
  match m with
  | [] => []
  | (k', v') :: r =>
      if (k =? k')%string then (k, v) :: r else (k', v') :: replace k v r
  end.

Fixpoint insert_index (k : string) (v : JsVal) (m : list (string * JsVal))
  : list (string * JsVal) :=
  match m with
  | [] => [(k, v)]
  | (k', v') :: r =>
      if array_index k' && index_ltb k' k
      then (k', v') :: insert_index k v r
      else (k, v) :: m
  end.

(** Defining property [k] on an object: an existing property keeps its place and
    takes the new value; a new one is enumerated after the others, except that
    array indices come first, in increasing order. *)
Definition set (k : string) (v : JsVal) (m : list (string * JsVal))
  : list (string * JsVal) :=
  match lookup k m with
  | Some _ => replace k v m
  | None => if array_index k then insert_index k v m else m ++ [(k, v)]
  end.

Fixpoint indexed (i : nat) (l : list JsVal) : list (string * JsVal) :=
  match l with
  | [] => []
  | x :: r => (decimal (Z.of_nat i), x) :: indexed (S i) r
  end.

(** The own enumerable properties [{...v}] copies: the members of an object,
    the elements of an array, the code units of a string. *)
Definition own_properties (v : JsVal) : list (string * JsVal) :=
  match v with
  | JObj m => m
  | JArr l => indexed 0 l
  | JStr s => indexed 0 (map JStr (code_units s))
  | _ => []
  end.

(** [{ ...target, ...v }] *)
Definition spread (target : list (string * JsVal)) (v : JsVal)
  : list (string * JsVal) :=
  fold_left (fun acc kv => set (fst kv) (snd kv) acc) (own_properties v) target.

(** The elements [f(...v)] passes: those of an array, the characters of a
    string; anything else is not iterable. *)
Definition iterate (v : JsVal) : option (list JsVal) :=
  match v with
  | JArr l => Some l
  | JStr s => Some (map JStr (code_points s))
  | _ => None
  end.

End Js.

Import Js.

(* ================================================================== *)
(** * Errors                                                          *)
(* ================================================================== *)

(** Every [throw new Error(...)] of the program, and the failures the runtime
    raises on its behalf.  The program has a single error class; what tells two
    errors apart is the statement that threw them and the message they carry. *)
Inductive Thrown : Type :=
(* server.js, handleToolCall *)
| MissingTool
| ReadOnlyViolation
| UnknownTool (tool : JsVal)
(* server.js, handleJsonRpc *)
| InvalidJsonRpc
| UnknownMethod (method : JsVal)
(* server.js, parseJsonBody *)
| BodyTooLarge
| InvalidJsonBody
(* docmostClient.js *)
| BackendStatus (status : Z) (detail : string)
| HtmlInsteadOfJson
| SpaceIdRequired
| PageIdRequired
| QueryRequired
| CreateFieldsRequired
| UpdatePageIdRequired
| LoginFieldsRequired
| LoginStatus (status : Z) (detail : string)
| AuthCookieMissing
| AuthTokenEmpty
(* config.js *)
| BaseUrlMissing
| CredentialsMissing
(* raised by the runtime *)
| InvalidUrl
| FetchFailed (message : string)
| JsonSyntaxError (message : string)
| StreamError (message : string)
| NullishRead (target : JsVal) (key : string)
| NotIterable
| NotPrimitive.

(** [error.message].  The wording of the last three is V8's. *)
Definition message (e : Thrown) : string :=
  match e with
  | MissingTool => "El campo " ++ dquote ++ "tool" ++ dquote ++ " es obligatorio."
  | ReadOnlyViolation =>
      "El servidor está en modo READ_ONLY, no se permiten operaciones de escritura."
  | UnknownTool tool => "Herramienta desconocida: " ++ template tool
  | InvalidJsonRpc => "Formato JSON-RPC inválido."
  | UnknownMethod method => "Método JSON-RPC desconocido: " ++ template method
  | BodyTooLarge => "El cuerpo de la petición es demasiado grande."
  | InvalidJsonBody => "El cuerpo debe ser JSON válido."
  | BackendStatus status detail =>
      "Docmost devolvió " ++ decimal status ++ ": " ++ detail
  | HtmlInsteadOfJson =>
      "Docmost devolvió HTML en lugar de JSON. Revisa que la ruta API sea correcta."
  | SpaceIdRequired => "spaceId es obligatorio para listar páginas."
  | PageIdRequired => "pageId es obligatorio para obtener una página."
  | QueryRequired => "query es obligatorio para buscar."
  | CreateFieldsRequired =>
      "title, content y spaceId son obligatorios para crear una página."
  | UpdatePageIdRequired => "pageId es obligatorio para actualizar una página."
  | LoginFieldsRequired => "email y password son obligatorios para autenticarse."
  | LoginStatus status detail =>
      "Docmost devolvió " ++ decimal status ++ " al iniciar sesión: " ++ detail
  | AuthCookieMissing => "No se pudo obtener la cookie authToken desde Docmost."
  | AuthTokenEmpty => "No se pudo extraer el valor de authToken."
  | BaseUrlMissing =>
      "Define DOCMOST_BASE_URL para saber a qué instancia de Docmost apuntar."
  | CredentialsMissing =>
      "Define DOCMOST_API_TOKEN o DOCMOST_EMAIL y DOCMOST_PASSWORD para autenticar las llamadas hacia Docmost."
  | InvalidUrl => "Invalid URL"
  | FetchFailed m => m
  | JsonSyntaxError m => m
  | StreamError m => m
  | NullishRead target key =>
      "Cannot read properties of " ++ template target
      ++ " (reading " ++ squote ++ key ++ squote ++ ")"
  | NotIterable =>
      "Spread syntax requires ...iterable[Symbol.iterator] to be a function"
  | NotPrimitive => "Cannot convert object to primitive value"
  end.

(** The error taxonomy of the specification (section 7). *)
Inductive ErrorKind : Type :=
| ConfigError
| ValidationError
| PolicyError
| ProtocolError
| AuthError
| BackendError.

(** The class the specification gives to each failure of the program: missing
    configuration and an HTML payload are [ConfigError]; a missing or unknown
    tool name and a missing parameter are [ValidationError] (sections 4.1 and
    4.3); the read-only refusal is [PolicyError]; a malformed envelope or an
    unknown method is [ProtocolError]; a login that yields no token is
    [AuthError]; a failure status of the backend is [BackendError].  The
    failures of the runtime have no class. *)
Definition kind (e : Thrown) : option ErrorKind :=
  match e with
  | BaseUrlMissing | CredentialsMissing | HtmlInsteadOfJson => Some ConfigError
  | MissingTool | UnknownTool _
  | SpaceIdRequired | PageIdRequired | QueryRequired
  | CreateFieldsRequired | UpdatePageIdRequired | LoginFieldsRequired =>
      Some ValidationError
  | ReadOnlyViolation => Some PolicyError
  | InvalidJsonRpc | UnknownMethod _ | BodyTooLarge | InvalidJsonBody =>
      Some ProtocolError
  | AuthCookieMissing | AuthTokenEmpty => Some AuthError
  | BackendStatus _ _ | LoginStatus _ _ => Some BackendError
  | InvalidUrl | FetchFailed _ | JsonSyntaxError _ | StreamError _
  | NullishRead _ _ | NotIterable | NotPrimitive => None
  end.

Inductive Result (A : Type) : Type :=
| Ok (a : A)
| Raise (e : Thrown).
Arguments Ok {A} a.
Arguments Raise {A} e.

(** [v.k], which throws when [v] is null or undefined. *)
Definition member (v : JsVal) (k : string) : Result JsVal :=
  if nullish v then Raise (NullishRead v k) else Ok (get v k).

(* ================================================================== *)
(** * The runtime and the network                                     *)
(* ================================================================== *)

(** What the program takes from the runtime and the model does not compute. *)
Class Platform : Type := {
  (** [new URL(path, base).toString()]; [None] when the constructor throws. *)
  new_URL : string -> string -> option string;
  (** [Number(s)]; [None] for [NaN]. *)
  Number : string -> option Z
}.

(** The outcome of parsing a text as JSON: [JSON.parse(data)] and
    [response.json()]. *)
Inductive JsonBody : Type :=
| JsonValue (v : JsVal)
| JsonInvalid (message : string).

(** What [response.headers] exposes of the [Set-Cookie] headers: the list of
    [getSetCookie()] where the method exists, the joined header of
    [get('set-cookie')] elsewhere. *)
Inductive SetCookie : Type :=
| GetSetCookie (cookies : list string)
| JoinedSetCookie (header : option string).

(** A [Response] of [fetch], by what the program reads from it. *)
Record Response : Type := {
  status : Z;
  content_type : option string;   (* response.headers.get('content-type') *)
  text : string;                  (* await response.text() *)
  json : JsonBody;                (* await response.json() *)
  set_cookie : SetCookie
}.

(** [response.ok] *)
Definition ok (r : Response) : bool := (200 <=? status r) && (status r <=? 299).

(** A call [fetch(url, init)]. *)
Record Request : Type := {
  url : string;
  init : JsVal
}.

Inductive FetchOutcome : Type :=
| Responded (r : Response)
| Rejected (message : string).

(** The world outside the process: what the backend answers to the [n]-th
    request of the process, and the requests sent so far. *)
Record World : Type := {
  network : nat -> FetchOutcome;
  sent : list Request
}.

(** A computation returns, throws, or is still running when its fuel ends. *)
Inductive Outcome (A : Type) : Type :=
| Return (a : A) (w : World)
| Throw (e : Thrown) (w : World)
| Pending (w : World).
Arguments Return {A} a w.
Arguments Throw {A} e w.
Arguments Pending {A} w.

Definition M (A : Type) : Type := World -> Outcome A.

Definition ret {A} (a : A) : M A := fun w => Return a w.
Definition throw {A} (e : Thrown) : M A := fun w => Throw e w.
Definition bind {A B} (m : M A) (k : A -> M B) : M B :=
  fun w =>
    match m w with
    | Return a w' => k a w'
    | Throw e w' => Throw e w'
    | Pending w' => Pending w'
    end.
Definition lift {A} (r : Result A) : M A :=
  match r with Ok a => ret a | Raise e => throw e end.

(** [try { m } catch (error) { h(error) }] *)
Definition try_catch {A} (m : M A) (h : Thrown -> M A) : M A :=
  fun w =>
    match m w with
    | Throw e w' => h e w'
    | o => o
    end.

Declare Scope js_scope.
Delimit Scope js_scope with js.
Notation "x <- m ;; k" := (bind m (fun x => k))
  (at level 100, m at next level, right associativity) : js_scope.
Open Scope js_scope.

Definition world_of {A} (o : Outcome A) : World :=
  match o with Return _ w | Throw _ w | Pending w => w end.

(** [await fetch(url, init)]: the request is sent, and the network answers it by
    its rank among the requests of the process. *)
Definition fetch (req : Request) : M Response :=
  fun w =>
    let w' := {| network := network w; sent := sent w ++ [req] |} in
    match network w (List.length (sent w)) with
    | Responded r => Return r w'
    | Rejected m => Throw (FetchFailed m) w'
    end.

(** A string or [undefined] in a condition. *)
Definition present (s : option string) : bool :=
  match s with
  | Some s => negb (s =? EmptyString)%string
  | None => false
  end.

(* ================================================================== *)
(** * config.js                                                       *)
(* ================================================================== *)

Module Config.

Definition DEFAULT_PORT : Z := 3000.

(** [process.env] *)
Record Env : Type := {
  DOCMOST_BASE_URL : option string;
  DOCMOST_API_TOKEN : option string;
  DOCMOST_EMAIL : option string;
  DOCMOST_PASSWORD : option string;
  READ_ONLY : option string;
  PORT : option string
}.

Definition parseBoolean (value : option string) : bool :=
  match value with
  | None => false
  | Some s =>
      existsb (String.eqb (toLowerCase s)) ["true"; "1"; "yes"; "on"]
  end.

Record Credentials : Type := {
  email : string;
  password : string
}.

Record AppConfig : Type := {
  baseUrl : string;
  apiToken : option string;
  credentials : option Credentials;
  readOnly : bool;
  port : Z
}.

(** [s.replace(/\/$/, '')] *)
Fixpoint strip_trailing_slash (s : string) : string :=
  match s with
  | EmptyString => EmptyString
  | String c r =>
      if (Ascii.eqb c "/" && (r =? EmptyString)%string)%bool then EmptyString
      else String c (strip_trailing_slash r)
  end.

(** [Number(PORT) || DEFAULT_PORT] *)
Definition port_of {platform : Platform} (PORT : option string) : Z :=
  match PORT with
  | None => DEFAULT_PORT
  | Some s =>
      match Number s with
      | Some n => if n =? 0 then DEFAULT_PORT else n
      | None => DEFAULT_PORT
      end
  end.

Definition loadConfig {platform : Platform} (env : Env) : Result AppConfig :=
  if negb (present (DOCMOST_BASE_URL env)) then Raise BaseUrlMissing
  else
    let hasToken := present (DOCMOST_API_TOKEN env) in
    let hasCredentials :=
      present (DOCMOST_EMAIL env) && present (DOCMOST_PASSWORD env) in
    if negb hasToken && negb hasCredentials then Raise CredentialsMissing
    else
      Ok {| baseUrl :=
              strip_trailing_slash
                (match DOCMOST_BASE_URL env with Some s => s | None => EmptyString end);
            apiToken := if hasToken then DOCMOST_API_TOKEN env else None;
            credentials :=
              match DOCMOST_EMAIL env, DOCMOST_PASSWORD env with
              | Some e, Some p =>
                  if hasCredentials then Some {| email := e; password := p |}
                  else None
              | _, _ => None
              end;
            readOnly := parseBoolean (READ_ONLY env);
            port := port_of (PORT env) |}.

End Config.

(* ================================================================== *)
(** * docmostClient.js                                                *)
(* ================================================================== *)

Module DocmostClient.

(** The fields of a [DocmostClient]. *)
Record Client : Type := {
  baseUrl : string;
  apiToken : option string;
  authCookie : option string
}.

(** [new DocmostClient({ baseUrl, apiToken })] *)
Definition new (baseUrl : string) (apiToken : option string) : Client :=
  {| baseUrl := baseUrl; apiToken := apiToken; authCookie := None |}.

Definition str (s : option string) : string :=
  match s with Some s => s | None => "null" end.

(** The variables of the loop of [listPages]. *)
Record Pagination : Type := {
  items : list JsVal;
  page : Z;
  hasNext : bool;
  lastMeta : JsVal
}.

Section Methods.
Context {platform : Platform}.

Definition resolve (path base : string) : M string :=
  match new_URL path base with
  | Some u => ret u
  | None => throw InvalidUrl
  end.

(** [request(path, options)], called with an object literal for [options]. *)
Definition request (this : Client) (path : string)
    (options : list (string * JsVal)) : M JsVal :=
  url <- resolve path (baseUrl this);;
  let headers :=
    spread [("Content-Type", JStr "application/json")]
           (or (get (JObj options) "headers") (JObj [])) in
  let headers :=
    if present (apiToken this) then
      set "Authorization" (JStr ("Bearer " ++ str (apiToken this))) headers
    else if present (authCookie this) then
      set "Cookie" (JStr ("authToken=" ++ str (authCookie this))) headers
    else headers in
  response <-
    fetch {| url := url;
             init := JObj (set "headers" (JObj headers)
                             (spread [] (JObj options))) |};;
  let contentType :=
    match content_type response with Some s => s | None => EmptyString end in
  body <-
    (if includes contentType "application/json" then
       match json response with
       | JsonValue v => ret v
       | JsonInvalid m => throw (JsonSyntaxError m)
       end
     else ret (JStr (text response)));;
  if negb (ok response) then
    let message :=
      match body with
      | JStr s => s
      | _ => match stringify body with Some s => s | None => "undefined" end
      end in
    throw (BackendStatus (status response) message)
  else if includes contentType "text/html"
          || match body with
             | JStr s => includes (toLowerCase s) "<!doctype html"
             | _ => false
             end
  then throw HtmlInsteadOfJson
  else if truthy body && typeof_object body && hasOwn body "data"
  then ret (get body "data")
  else ret body.

Definition post (this : Client) (path : string) (body : JsVal) : M JsVal :=
  request this path
    [("method", JStr "POST");
     ("body", match stringify (or body (JObj [])) with
              | Some s => JStr s
              | None => JUndefined
              end)].

Definition listSpaces (this : Client) : M JsVal :=
  post this "/api/spaces" (JObj [("page", JNum 1); ("limit", JNum 50)]).

(** [while (hasNext) { ... }]: one unit of fuel per turn of the loop. *)
Fixpoint listPages_loop (fuel : nat) (this : Client) (spaceId : JsVal)
    (st : Pagination) : M Pagination :=
  if hasNext st then
    match fuel with
    | O => fun w => Pending w
    | S fuel' =>
        result <-
          post this "/api/pages/sidebar-pages"
            (JObj [("spaceId", spaceId); ("page", JNum (page st))]);;
        pageItems <-
          match iterate (or (get result "items") (JArr [])) with
          | Some l => ret l
          | None => throw NotIterable
          end;;
        let meta := or (get result "meta") JNull in
        listPages_loop fuel' this spaceId
          {| items := items st ++ pageItems;
             page := page st + 1;
             hasNext := truthy (get meta "hasNextPage");
             lastMeta := meta |}
    end
  else ret st.

Definition listPages (fuel : nat) (this : Client) (spaceId : JsVal) : M JsVal :=
  if negb (truthy spaceId) then throw SpaceIdRequired
  else
    st <- listPages_loop fuel this spaceId
            {| items := []; page := 1; hasNext := true; lastMeta := JNull |};;
    ret (JObj [("items", JArr (items st)); ("meta", lastMeta st)]).

Definition getPage (this : Client) (pageId : JsVal) : M JsVal :=
  if negb (truthy pageId) then throw PageIdRequired
  else post this "/api/pages/info" (JObj [("pageId", pageId)]).

Definition searchPages (this : Client) (query : JsVal) : M JsVal :=
  if negb (truthy query) then throw QueryRequired
  else post this "/api/search" (JObj [("query", query)]).

Definition createPage (this : Client) (payload : JsVal) : M JsVal :=
  let p := or payload (JObj []) in
  let title := get p "title" in
  let content := get p "content" in
  let spaceId := get p "spaceId" in
  let folderId := get p "folderId" in
  if negb (truthy title) || negb (truthy content) || negb (truthy spaceId)
  then throw CreateFieldsRequired
  else
    post this "/api/pages/create"
      (JObj [("title", title);
             ("content", content);
             ("spaceId", spaceId);
             ("parentPageId", or folderId JNull)]).

Definition updatePage (this : Client) (pageId payload : JsVal) : M JsVal :=
  if negb (truthy pageId) then throw UpdatePageIdRequired
  else
    post this "/api/pages/update"
      (JObj (spread [("pageId", pageId)] (or payload (JObj [])))).

(** [login(email, password)]: the token, and the client with its [authCookie]
    assigned. *)
Definition login (this : Client) (email password : string)
  : M (string * Client) :=
  if (email =? EmptyString)%string || (password =? EmptyString)%string
  then throw LoginFieldsRequired
  else
    url <- resolve "/api/auth/login" (baseUrl this);;
    response <-
      fetch {| url := url;
               init := JObj [("method", JStr "POST");
                             ("headers",
                              JObj [("Content-Type", JStr "application/json")]);
                             ("body",
                              JStr (stringify_object
                                      [("email", JStr email);
                                       ("password", JStr password)]))] |};;
    let contentType :=
      match content_type response with Some s => s | None => EmptyString end in
    body <-
      (if includes contentType "application/json" then
         match json response with
         | JsonValue v => ret v
         | JsonInvalid m => throw (JsonSyntaxError m)
         end
       else ret (JStr (text response)));;
    if negb (ok response) then
      let message :=
        match body with
        | JStr s => s
        | _ => match stringify body with Some s => s | None => "undefined" end
        end in
      throw (LoginStatus (status response) message)
    else
      let cookies :=
        match set_cookie response with
        | GetSetCookie l => l
        | JoinedSetCookie h => if present h then [str h] else []
        end in
      match find (fun cookie => startsWith cookie "authToken=") cookies with
      | None => throw AuthCookieMissing
      | Some authCookie =>
          if (authCookie =? EmptyString)%string then throw AuthCookieMissing
          else
            match nth_error (split "=" (hd EmptyString (split ";" authCookie))) 1 with
            | Some token =>
                if (token =? EmptyString)%string then throw AuthTokenEmpty
                else
                  ret (token,
                       {| baseUrl := baseUrl this;
                          apiToken := apiToken this;
                          authCookie := Some token |})
            | None => throw AuthTokenEmpty
            end
      end.

End Methods.

End DocmostClient.

(* ================================================================== *)
(** * server.js                                                       *)
(* ================================================================== *)

Module Server.

Import Config DocmostClient.

Definition descriptor (name description : string)
    (params : list (string * JsVal)) : JsVal :=
  JObj [("name", JStr name);
        ("description", JStr description);
        ("params", JObj params)].

Definition baseTools : list JsVal :=
  [ descriptor "list_spaces" "Devuelve los espacios disponibles en Docmost." [];
    descriptor "list_pages"
      "Lista páginas dentro de un espacio. Requiere spaceId."
      [("spaceId", JStr "string")];
    descriptor "get_page" "Obtiene una página por su id."
      [("pageId", JStr "string")];
    descriptor "search_pages" "Busca páginas por texto libre."
      [("query", JStr "string")];
    descriptor "create_page"
      "Crea una página nueva. Requiere title, content y spaceId."
      [("title", JStr "string"); ("content", JStr "string");
       ("spaceId", JStr "string"); ("folderId", JStr "string?")];
    descriptor "update_page"
      "Actualiza una página existente. Requiere pageId y los campos a modificar."
      [("pageId", JStr "string"); ("payload", JStr "object")] ].

(** [res.writeHead(statusCode, headers); res.end(body)] *)
Record ServerResponse : Type := {
  statusCode : Z;
  res_headers : list (string * string);
  res_body : string
}.

Definition json_headers (body : string) : list (string * string) :=
  [("Content-Type", "application/json");
   ("Content-Length", decimal (byteLength body));
   ("Access-Control-Allow-Origin", "*");
   ("Access-Control-Allow-Headers", "Content-Type, Authorization, Accept")].

Definition sendJson (statusCode : Z) (payload : list (string * JsVal))
  : ServerResponse :=
  let body := stringify_object payload in
  {| statusCode := statusCode; res_headers := json_headers body; res_body := body |}.

Definition sendJsonRpc (id : JsVal) (payload : list (string * JsVal))
  : ServerResponse :=
  let body :=
    stringify_object (spread [("jsonrpc", JStr "2.0"); ("id", id)] (JObj payload)) in
  {| statusCode := 200; res_headers := json_headers body; res_body := body |}.

Definition sendJsonRpcError (id : JsVal) (code : Z) (message : string)
  : ServerResponse :=
  sendJsonRpc id
    [("error", JObj [("code", JNum code); ("message", JStr message)])].

Definition notFound : ServerResponse :=
  sendJson 404 [("error", JStr "Ruta no encontrada")].

Definition methodNotAllowed : ServerResponse :=
  sendJson 405 [("error", JStr "Método no permitido")].

(** The body of an incoming request as its stream delivers it: an [error]
    event, or the chunks up to [end] with what [JSON.parse] makes of them. *)
Inductive BodyStream : Type :=
| BodyError (message : string)
| BodyEnd (data : string) (parsed : JsonBody).

Record IncomingMessage : Type := {
  req_method : string;
  req_url : string;
  req_headers : list (string * string);
  req_body : BodyStream
}.

Fixpoint header (name : string) (hs : list (string * string)) : option string :=
  match hs with
  | [] => None
  | (k, v) :: r => if (name =? k)%string then Some v else header name r
  end.

Definition parseJsonBody (req : IncomingMessage) : M JsVal :=
  match req_body req with
  | BodyError m => throw (StreamError m)
  | BodyEnd data parsed =>
      if (5000000 <? Js.length data)%N then throw BodyTooLarge
      else if (data =? EmptyString)%string then ret (JObj [])
      else match parsed with
           | JsonValue v => ret v
           | JsonInvalid _ => throw InvalidJsonBody
           end
  end.

(** The module variables [tools], [client] and [appConfig], as [bootstrap]
    leaves them; the request handler is created after they are assigned. *)
Record Globals : Type := {
  tools : list JsVal;
  client : Client;
  appConfig : AppConfig
}.

Section Handlers.
Context {platform : Platform}.

Definition handleToolCall (g : Globals) (fuel : nat) (body : JsVal) : M JsVal :=
  let b := or body (JObj []) in
  let tool := get b "tool" in
  let params :=
    match get b "params" with JUndefined => JObj [] | p => p end in
  if negb (truthy tool) then throw MissingTool
  else
    let isWriteTool := is_str tool "create_page" || is_str tool "update_page" in
    if readOnly (appConfig g) && isWriteTool then throw ReadOnlyViolation
    else if is_str tool "list_spaces" then listSpaces (client g)
    else if is_str tool "list_pages" then
      spaceId <- lift (member params "spaceId");;
      listPages fuel (client g) spaceId
    else if is_str tool "get_page" then
      pageId <- lift (member params "pageId");;
      getPage (client g) pageId
    else if is_str tool "search_pages" then
      query <- lift (member params "query");;
      searchPages (client g) query
    else if is_str tool "create_page" then
      title <- lift (member params "title");;
      content <- lift (member params "content");;
      spaceId <- lift (member params "spaceId");;
      folderId <- lift (member params "folderId");;
      createPage (client g)
        (JObj [("title", title); ("content", content);
               ("spaceId", spaceId); ("folderId", folderId)])
    else if is_str tool "update_page" then
      pageId <- lift (member params "pageId");;
      payload <- lift (member params "payload");;
      updatePage (client g) pageId payload
    else
      match ToString tool with
      | Some _ => throw (UnknownTool tool)
      | None => throw NotPrimitive
      end.

(** The object [{ id, result }] is returned as a pair. *)
Definition handleJsonRpc (g : Globals) (fuel : nat) (body : JsVal)
  : M (JsVal * JsVal) :=
  let b := or body (JObj []) in
  let jsonrpc := get b "jsonrpc" in
  let method := get b "method" in
  let id := get b "id" in
  let params := get b "params" in
  if negb (truthy jsonrpc) || negb (truthy method) then throw InvalidJsonRpc
  else if is_str method "initialize" then
    ret (id,
         JObj [("capabilities",
                JObj [("tools",
                       JObj [("list", JBool true); ("call", JBool true)])])])
  else if is_str method "list_tools" then
    ret (id, JObj [("tools", JArr (tools g))])
  else if is_str method "call_tool" then
    let tool := get params "name" in
    let toolParams := or (get params "arguments") (JObj []) in
    result <-
      handleToolCall g fuel (JObj [("tool", tool); ("params", toolParams)]);;
    ret (id, JObj [("content", result)])
  else
    match ToString method with
    | Some _ => throw (UnknownMethod method)
    | None => throw NotPrimitive
    end.

(** [bootstrap], up to the creation of the server. *)
Definition bootstrap (env : Env) : M Globals :=
  appConfig <- lift (loadConfig env);;
  let tools :=
    if readOnly appConfig then
      filter (fun tool =>
                negb (is_str (get tool "name") "create_page")
                && negb (is_str (get tool "name") "update_page"))
             baseTools
    else baseTools in
  let client := DocmostClient.new (Config.baseUrl appConfig)
                                  (Config.apiToken appConfig) in
  client <-
    match Config.credentials appConfig with
    | Some credentials =>
        if negb (present (Config.apiToken appConfig)) then
          r <- login client (email credentials) (password credentials);;
          ret (snd r)
        else ret client
    | None => ret client
    end;;
  ret {| tools := tools; client := client; appConfig := appConfig |}.

(** The [try]/[catch] block of the handlers of [POST /] and of [POST /mcp],
    [/mc] and [/m], which differ by the label they log. *)
Definition jsonRpcExchange (g : Globals) (fuel : nat) (req : IncomingMessage)
  : M ServerResponse :=
  try_catch
    (body <- parseJsonBody req;;
     rpc <- handleJsonRpc g fuel body;;
     ret (sendJsonRpc (fst rpc) [("result", snd rpc)]))
    (fun error => ret (sendJsonRpcError JNull (-32600) (message error))).

(** The [try]/[catch] block of the handler of [POST /mcp/tool-call]. *)
Definition toolCallExchange (g : Globals) (fuel : nat) (req : IncomingMessage)
  : M ServerResponse :=
  try_catch
    (body <- parseJsonBody req;;
     result <- handleToolCall g fuel body;;
     ret (sendJson 200 [("result", result)]))
    (fun error => ret (sendJson 400 [("error", JStr (message error))])).

(** The callback of [http.createServer]. *)
Definition handler (g : Globals) (fuel : nat) (req : IncomingMessage)
  : M ServerResponse :=
  let method := req_method req in
  let url := req_url req in
  if (method =? "OPTIONS")%string then
    ret {| statusCode := 204;
           res_headers :=
             [("Access-Control-Allow-Origin", "*");
              ("Access-Control-Allow-Methods", "GET,POST,OPTIONS");
              ("Access-Control-Allow-Headers",
               "Content-Type, Authorization, Accept")];
           res_body := EmptyString |}
  else
    let isWellKnown :=
      ((url =? "/.well-known/mcp") || (url =? "/mcp/.well-known/mcp"))%string
      && (method =? "GET")%string in
    if (url =? "/")%string && (method =? "GET")%string then
      ret (sendJson 200 [("message", JStr "Docmost MCP en ejecución");
                         ("tools", JArr (tools g))])
    else if (url =? "/")%string && (method =? "POST")%string then
      jsonRpcExchange g fuel req
    else if (url =? "/health")%string && (method =? "GET")%string then
      ret (sendJson 200 [("status", JStr "ok")])
    else if (url =? "/mcp/tools")%string && (method =? "GET")%string then
      ret (sendJson 200 [("tools", JArr (tools g))])
    else if (url =? "/mcp/tool-call")%string && (method =? "POST")%string then
      toolCallExchange g fuel req
    else if ((url =? "/mcp") || (url =? "/mc") || (url =? "/m"))%string
            && (method =? "POST")%string then
      jsonRpcExchange g fuel req
    else if isWellKnown then
      let proto :=
        if present (header "x-forwarded-proto" (req_headers req))
        then str (header "x-forwarded-proto" (req_headers req))
        else "http" in
      let host :=
        if present (header "host" (req_headers req))
        then str (header "host" (req_headers req))
        else "0.0.0.0:" ++ decimal (port (appConfig g)) in
      let base := proto ++ "://" ++ host in
      ret (sendJson 200
             [("protocol", JStr "mcp-http-1");
              ("endpoints",
               JObj [("tools", JStr (base ++ "/mcp/tools"));
                     ("call", JStr (base ++ "/mcp/tool-call"))])])
    else if negb (method =? "GET")%string && negb (method =? "POST")%string then
      ret methodNotAllowed
    else ret notFound.

End Handlers.

End Server.

(* ================================================================== *)
(** * Vocabulary of the specification                                 *)
(* ================================================================== *)

Import Config DocmostClient Server.

(** The headers of an outbound call as the specification words them: the
    content type, then a Bearer [Authorization] header when a static token is
    configured, else a [Cookie] header when a session token was derived, else
    nothing. *)
Definition credential_headers (c : Client) : list (string * JsVal) :=
  ("Content-Type", JStr "application/json") ::
  (if present (apiToken c) then
     [("Authorization", JStr ("Bearer " ++ str (apiToken c)))]
   else if present (authCookie c) then
     [("Cookie", JStr ("authToken=" ++ str (authCookie c)))]
   else []).

(** The text [post] puts in the [body] of its request. *)
Definition body_text (body : JsVal) : JsVal :=
  match stringify (or body (JObj [])) with
  | Some s => JStr s
  | None => JUndefined
  end.

(** The call [fetch(url, init)] that [post] makes for [body]. *)
Definition post_request (c : Client) (u : string) (body : JsVal) : Request :=
  {| url := u;
     init := JObj [("method", JStr "POST");
                   ("body", body_text body);
                   ("headers", JObj (credential_headers c))] |}.

(** A field is absent when the program's test [!field] holds: it is undefined,
    null or empty. *)
Definition absent (v : JsVal) : bool := negb (truthy v).

(** The field [k] of a destructured argument, [const { k } = payload || {}]. *)
Definition field (payload : JsVal) (k : string) : JsVal :=
  get (or payload (JObj [])) k.

(** The object [createPage] posts. *)
Definition create_body (title content spaceId parentPageId : JsVal) : JsVal :=
  JObj [("title", title); ("content", content); ("spaceId", spaceId);
        ("parentPageId", parentPageId)].

(** The world once one more request is sent. *)
Definition sending (w : World) (r : Request) : World :=
  {| network := network w; sent := sent w ++ [r] |}.

(** The test of [request] for an HTML payload, on the content type and on the
    body as it was read. *)
Definition html_signal (contentType : string) (body : JsVal) : bool :=
  includes contentType "text/html"
  || match body with
     | JStr s => includes (toLowerCase s) "<!doctype html"
     | _ => false
     end.

(** What [request] makes of a response. *)
Definition reading (r : Response) : Result JsVal :=
  let contentType :=
    match content_type r with Some s => s | None => EmptyString end in
  let read :=
    if includes contentType "application/json" then
      match json r with
      | JsonValue v => Ok v
      | JsonInvalid m => Raise (JsonSyntaxError m)
      end
    else Ok (JStr (text r)) in
  match read with
  | Raise e => Raise e
  | Ok body =>
      if negb (ok r) then
        Raise (BackendStatus (status r)
                 match body with
                 | JStr s => s
                 | _ => match stringify body with
                        | Some s => s
                        | None => "undefined"
                        end
                 end)
      else if html_signal contentType body then Raise HtmlInsteadOfJson
      else if truthy body && typeof_object body && hasOwn body "data"
      then Ok (get body "data")
      else Ok body
  end.

(** A page of the backend's paginated listing: its items and the members of
    its [meta] object. *)
Record BackendPage : Type := {
  bp_items : list JsVal;
  bp_meta : list (string * JsVal)
}.

Definition has_next (p : BackendPage) : bool :=
  truthy (get (JObj (bp_meta p)) "hasNextPage").

(** A response delivers a page when [request] reads it as a value whose
    [items] and [meta] are those of the page, whatever its content type and
    the other members of the value. *)
Definition delivers (r : Response) (p : BackendPage) : Prop :=
  exists v, reading r = Ok v
            /\ get v "items" = JArr (bp_items p)
            /\ get v "meta" = JObj (bp_meta p).

(** The network answers the request of rank [n] with page [p]. *)
Definition serves (w : World) (n : nat) (p : BackendPage) : Prop :=
  exists r, network w n = Responded r /\ delivers r p.

Definition page_json (wrapped : bool) (p : BackendPage) : JsVal :=
  let listing := JObj [("items", JArr (bp_items p)); ("meta", JObj (bp_meta p))] in
  if wrapped then JObj [("data", listing)] else listing.

(** A response that delivers a page: status 200, JSON, the listing bare or
    wrapped in a [data] member. *)
Definition page_response (wrapped : bool) (p : BackendPage) : Response :=
  {| status := 200;
     content_type := Some "application/json; charset=utf-8";
     text := match stringify (page_json wrapped p) with
             | Some s => s
             | None => EmptyString
             end;
     json := JsonValue (page_json wrapped p);
     set_cookie := GetSetCookie [] |}.

(** The requests of [listPages] for [n] pages in a row, the first one numbered
    [first]. *)
Fixpoint page_requests (c : Client) (u : string) (spaceId : JsVal)
    (first : Z) (n : nat) : list Request :=
  match n with
  | O => []
  | S k =>
      post_request c u (JObj [("spaceId", spaceId); ("page", JNum first)])
      :: page_requests c u spaceId (first + 1) k
  end.

(** A request that carries the credential of a client, and nothing else beside
    the content type. *)
Definition credentialed (c : Client) (r : Request) : Prop :=
  get (init r) "headers" = JObj (credential_headers c).

(** From [w] to [w']: the network is the same, and every request sent in
    between carries the credential of [c]. *)
Definition extends (c : Client) (w w' : World) : Prop :=
  network w' = network w
  /\ exists new, sent w' = (sent w ++ new)%list /\ Forall (credentialed c) new.

(** A computation is over when it returned or threw. *)
Definition finished {A} (o : Outcome A) : bool :=
  match o with Pending _ => false | _ => true end.

(** The tool names a registry advertises. *)
Definition advertised (registry : list JsVal) (tool : JsVal) : bool :=
  existsb (fun d => match tool with
                    | JStr s => is_str (get d "name") s
                    | _ => false
                    end) registry.

(** The two shapes of an envelope response. *)
Definition envelope_result (id result : JsVal) : JsVal :=
  JObj [("jsonrpc", JStr "2.0"); ("id", id); ("result", result)].

Definition envelope_error (id : JsVal) (code : Z) (msg : string) : JsVal :=
  JObj [("jsonrpc", JStr "2.0"); ("id", id);
        ("error", JObj [("code", JNum code); ("message", JStr msg)])].

(** A response carries a payload when its body is the payload's JSON text. *)
Definition carries (resp : ServerResponse) (payload : JsVal) : Prop :=
  stringify payload = Some (res_body resp).

(** The routes that speak the envelope shape. *)
Definition envelope_route (req : IncomingMessage) : bool :=
  (req_method req =? "POST")%string
  && ((req_url req =? "/") || (req_url req =? "/mcp")
      || (req_url req =? "/mc") || (req_url req =? "/m"))%string.

(** No two members of an object share a key. *)
Definition distinct_keys (m : list (string * JsVal)) : Prop :=
  NoDup (map fst m).

(** ** Vocabulary of the code's own properties *)

(** [response.headers.get('content-type') || ''] *)
Definition content_type_of (r : Response) : string :=
  match content_type r with Some s => s | None => EmptyString end.

(** The body of a response is read as [v]: parsed from JSON when the content
    type announces JSON, taken as text otherwise. *)
Definition body_read (r : Response) (v : JsVal) : Prop :=
  if includes (content_type_of r) "application/json"
  then json r = JsonValue v
  else v = JStr (text r).

(** The body of a response cannot be read: the content type announces JSON and
    the text does not parse, the parser failing with message [m]. *)
Definition body_unreadable (r : Response) (m : string) : Prop :=
  includes (content_type_of r) "application/json" = true
  /\ json r = JsonInvalid m.

(** The text a failure message quotes for a body. *)
Definition detail (body : JsVal) : string :=
  match body with
  | JStr s => s
  | _ => match stringify body with Some s => s | None => "undefined" end
  end.

(** The parameters of a direct call, [const { params = {} } = body || {}]. *)
Definition params_of (body : JsVal) : JsVal :=
  match field body "params" with JUndefined => JObj [] | p => p end.

(** From [w], an outcome has sent at most one request more. *)
Definition at_most_one_request {A} (w : World) (o : Outcome A) : Prop :=
  exists new, sent (world_of o) = (sent w ++ new)%list
              /\ (List.length new <= 1)%nat.

(** The ways the dispatcher turns a call down by its tool name alone: the name
    is missing, excluded or unknown, the last one with the runtime's error when
    the unknown name cannot be written in the message. *)
Definition refusal (e : Thrown) : bool :=
  match e with
  | MissingTool | ReadOnlyViolation | UnknownTool _ | NotPrimitive => true
  | _ => false
  end.

(** A computation that never throws a refusal. *)
Definition no_refusal {A} (m : M A) : Prop :=
  forall w e w', m w = Throw e w' -> refusal e = false.

(** The request of rank [n] fails with [e]: the network rejects it, or answers
    with a response that [request] turns down. *)
Definition fails_with (w : World) (n : nat) (e : Thrown) : Prop :=
  (exists m, network w n = Rejected m /\ e = FetchFailed m)
  \/ (exists r, network w n = Responded r /\ reading r = Raise e).

(** The prefix of a string up to its first occurrence of a character. *)
Fixpoint until (c : ascii) (s : string) : string :=
  match s with
  | EmptyString => EmptyString
  | String a r => if Ascii.eqb a c then EmptyString else String a (until c r)
  end.

(** The cookies [login] searches, as the response exposes them. *)
Definition cookies_of (r : Response) : list string :=
  match set_cookie r with
  | GetSetCookie l => l
  | JoinedSetCookie h => if present h then [str h] else []
  end.

(** The request [login] sends. *)
Definition login_request (u email password : string) : Request :=
  {| url := u;
     init := JObj [("method", JStr "POST");
                   ("headers", JObj [("Content-Type", JStr "application/json")]);
                   ("body",
                    JStr (stringify_object
                            [("email", JStr email); ("password", JStr password)]))] |}.

(** The outcome of an envelope call, from that of the dispatcher: the result
    is wrapped as [{ id, result: { content } }], a failure is passed on. *)
Definition wrap_content (id : JsVal) (o : Outcome JsVal) : Outcome (JsVal * JsVal) :=
  match o with
  | Return r w => Return (id, JObj [("content", r)]) w
  | Throw e w => Throw e w
  | Pending w => Pending w
  end.

(** The capability descriptor [initialize] returns. *)
Definition capabilities : JsVal :=
  JObj [("capabilities",
         JObj [("tools", JObj [("list", JBool true); ("call", JBool true)])])].

(** The paths the handler serves for [GET] and for [POST]. *)
Definition get_paths : list string :=
  ["/"; "/health"; "/mcp/tools"; "/.well-known/mcp"; "/mcp/.well-known/mcp"].

Definition post_paths : list string :=
  ["/"; "/mcp/tool-call"; "/mcp"; "/mc"; "/m"].

Definition one_of (s : string) (l : list string) : bool :=
  existsb (String.eqb s) l.

(** A text of [n] ASCII letters. *)
Definition filler (n : N) : string :=
  N.iter n (String "a") EmptyString.

(** A header of an incoming request, or a default when it is missing or
    empty: [req.headers[name] || fallback]. *)
Definition header_or (name fallback : string) (req : IncomingMessage) : string :=
  if present (header name (req_headers req))
  then str (header name (req_headers req))
  else fallback.

(** The discovery document for a base URL. *)
Definition discovery (base : string) : list (string * JsVal) :=
  [("protocol", JStr "mcp-http-1");
   ("endpoints",
    JObj [("tools", JStr (base ++ "/mcp/tools"));
          ("call", JStr (base ++ "/mcp/tool-call"))])].

(* ================================================================== *)
(** * Scenarios                                                       *)
(* ================================================================== *)

Module Scenario.

(** A runtime for one backend, [https://docs.example.com]: an absolute path
    resolved against this origin is appended to it, and any other base is
    taken as unparsable.  The one numeral it converts is that of port 8080. *)
Definition node : Platform :=
  {| new_URL := fun path base =>
       if (base =? "https://docs.example.com")%string then Some (base ++ path)
       else None;
     Number := fun s => if (s =? "8080")%string then Some 8080 else None |}.

Definition with_token : Client :=
  {| baseUrl := "https://docs.example.com";
     apiToken := Some "secret";
     authCookie := None |}.

(** A world where nothing was sent yet. *)
Definition world (answers : nat -> FetchOutcome) : World :=
  {| network := answers; sent := [] |}.

(** A backend that gives the same answer to every request. *)
Definition always (r : Response) : World := world (fun _ => Responded r).

Definition html_page : string := "<!DOCTYPE html><html><body>Not Found</body></html>".

(** An HTML document served with a success status. *)
Definition html_200 : Response :=
  {| status := 200;
     content_type := Some "text/html; charset=utf-8";
     text := html_page;
     json := JsonInvalid "Unexpected token < in JSON at position 0";
     set_cookie := GetSetCookie [] |}.

(** The same document served with a failure status. *)
Definition html_500 : Response :=
  {| status := 500;
     content_type := Some "text/html; charset=utf-8";
     text := html_page;
     json := JsonInvalid "Unexpected token < in JSON at position 0";
     set_cookie := GetSetCookie [] |}.

(** The same document announced as JSON. *)
Definition html_as_json : Response :=
  {| status := 200;
     content_type := Some "application/json";
     text := html_page;
     json := JsonInvalid "Unexpected token < in JSON at position 0";
     set_cookie := GetSetCookie [] |}.

(** A JSON document whose value is a string that holds the document. *)
Definition html_in_json_string : Response :=
  {| status := 200;
     content_type := Some "application/json";
     text := html_page;
     json := JsonValue (JStr html_page);
     set_cookie := GetSetCookie [] |}.

(** The two pages of the specification's example. *)
Definition first_page : BackendPage :=
  {| bp_items := [JStr "a"; JStr "b"];
     bp_meta := [("hasNextPage", JBool true)] |}.

Definition second_page : BackendPage :=
  {| bp_items := [JStr "c"];
     bp_meta := [("hasNextPage", JBool false)] |}.

Definition two_pages : World :=
  world (fun n => match n with
                  | O => Responded (page_response true first_page)
                  | _ => Responded (page_response false second_page)
                  end).

(** A backend that always announces one more page. *)
Definition endless : World :=
  world (fun _ => Responded (page_response true first_page)).

Definition config (read_only : bool) : AppConfig :=
  {| Config.baseUrl := "https://docs.example.com";
     Config.apiToken := Some "secret";
     credentials := None;
     readOnly := read_only;
     port := 3000 |}.

Definition env (read_only : option string) : Env :=
  {| DOCMOST_BASE_URL := Some "https://docs.example.com/";
     DOCMOST_API_TOKEN := Some "secret";
     DOCMOST_EMAIL := None;
     DOCMOST_PASSWORD := None;
     READ_ONLY := read_only;
     PORT := None |}.

(** A configuration by email and password, and the answer to its login. *)
Definition env_login : Env :=
  {| DOCMOST_BASE_URL := Some "https://docs.example.com";
     DOCMOST_API_TOKEN := None;
     DOCMOST_EMAIL := Some "bot@example.com";
     DOCMOST_PASSWORD := Some "hunter2";
     READ_ONLY := None;
     PORT := Some "8080" |}.

Definition login_response : Response :=
  {| status := 200;
     content_type := Some "application/json";
     text := EmptyString;
     json := JsonValue (JObj [("success", JBool true)]);
     set_cookie := GetSetCookie ["authToken=abc123; Path=/; HttpOnly"] |}.

(** The module variables after [bootstrap] in read-only mode. *)
Definition read_only_globals : Globals :=
  {| tools := firstn 4 baseTools; client := with_token; appConfig := config true |}.

Definition writable_globals : Globals :=
  {| tools := baseTools; client := with_token; appConfig := config false |}.

(** The module variables after [bootstrap] under [env_login]. *)
Definition login_globals : Globals :=
  {| tools := baseTools;
     client := {| baseUrl := "https://docs.example.com";
                  apiToken := None;
                  authCookie := Some "abc123" |};
     appConfig := {| Config.baseUrl := "https://docs.example.com";
                     Config.apiToken := None;
                     credentials := Some {| email := "bot@example.com";
                                            password := "hunter2" |};
                     readOnly := false;
                     port := 8080 |} |}.

Definition valid_page : JsVal :=
  JObj [("title", JStr "Notes"); ("content", JStr "Hello");
        ("spaceId", JStr "s1")].

Definition tool_call (tool : string) (params : JsVal)
  : list (string * JsVal) :=
  [("tool", JStr tool); ("params", params)].

Definition post_json (url : string) (m : list (string * JsVal))
  : IncomingMessage :=
  {| req_method := "POST";
     req_url := url;
     req_headers := [("content-type", "application/json")];
     req_body := BodyEnd (stringify_object m) (JsonValue (JObj m)) |}.

(** An envelope request for a method the gateway does not know, with id 7. *)
Definition unknown_method : list (string * JsVal) :=
  [("jsonrpc", JStr "2.0"); ("method", JStr "nope"); ("id", JNum 7)].

Definition list_tools : list (string * JsVal) :=
  [("jsonrpc", JStr "2.0"); ("method", JStr "list_tools"); ("id", JNum 1)].

(** A JSON response with a success status. *)
Definition json_200 (v : JsVal) : Response :=
  {| status := 200;
     content_type := Some "application/json";
     text := EmptyString;
     json := JsonValue v;
     set_cookie := GetSetCookie [] |}.

(** A JSON response with status 404. *)
Definition json_404 (v : JsVal) : Response :=
  {| status := 404;
     content_type := Some "application/json";
     text := EmptyString;
     json := JsonValue v;
     set_cookie := GetSetCookie [] |}.

(** The HTML document announced as JSON, under any status. *)
Definition html_announced_as_json (status : Z) : Response :=
  {| status := status;
     content_type := Some "application/json";
     text := html_page;
     json := JsonInvalid "Unexpected token < in JSON at position 0";
     set_cookie := GetSetCookie [] |}.

(** A backend that serves one page announcing a next one, then breaks down. *)
Definition breaks_on_second_page : World :=
  world (fun n => match n with
                  | O => Responded (page_response true first_page)
                  | _ => Responded html_500
                  end).

Definition without_token : Client :=
  {| baseUrl := "https://docs.example.com";
     apiToken := None;
     authCookie := None |}.

(** A login answer whose cookie value holds an equals sign. *)
Definition padded_cookie : Response :=
  {| status := 200;
     content_type := Some "application/json";
     text := EmptyString;
     json := JsonValue (JObj [("success", JBool true)]);
     set_cookie := GetSetCookie ["theme=dark"; "authToken=YWJj=; Path=/"] |}.

(** A login answer read through the joined header, the token not first. *)
Definition joined_cookies : Response :=
  {| status := 200;
     content_type := Some "application/json";
     text := EmptyString;
     json := JsonValue (JObj [("success", JBool true)]);
     set_cookie := JoinedSetCookie (Some "theme=dark, authToken=abc123; Path=/") |}.

(** A login turned down by the backend. *)
Definition login_refused : Response :=
  {| status := 401;
     content_type := Some "application/json";
     text := EmptyString;
     json := JsonValue (JObj [("message", JStr "Bad credentials")]);
     set_cookie := GetSetCookie [] |}.


Definition get_page_call : JsVal :=
  JObj (tool_call "get_page" (JObj [("pageId", JStr "p1")])).

Definition call_tool_envelope : JsVal :=
  JObj [("jsonrpc", JStr "2.0"); ("method", JStr "call_tool"); ("id", JNum 3);
        ("params", JObj [("name", JStr "get_page");
                         ("arguments", JObj [("pageId", JStr "p1")])])].

Definition no_method : list (string * JsVal) :=
  [("jsonrpc", JStr "2.0"); ("id", JNum 4)].

(** An envelope whose method is an object that cannot be written as text. *)
Definition unprintable_method : list (string * JsVal) :=
  [("jsonrpc", JStr "2.0"); ("method", JObj [("toString", JNum 1)]);
   ("id", JNum 5)].

Definition bare (method url : string) (body : BodyStream) : IncomingMessage :=
  {| req_method := method; req_url := url; req_headers := []; req_body := body |}.

Definition no_body : BodyStream :=
  BodyEnd EmptyString (JsonInvalid "Unexpected end of JSON input").

(** A body of 5,000,001 letters. *)
Definition oversize : BodyStream :=
  BodyEnd (filler 5000001) (JsonInvalid "Unexpected token a in JSON at position 0").

Definition not_json : BodyStream :=
  BodyEnd "{tool" (JsonInvalid "Unexpected token t in JSON at position 1").

(** A discovery request that came through a proxy. *)
Definition proxied_discovery : IncomingMessage :=
  {| req_method := "GET";
     req_url := "/mcp/.well-known/mcp";
     req_headers := [("host", "gw.example.com"); ("x-forwarded-proto", "https")];
     req_body := no_body |}.


End Scenario.

(* ================================================================== *)
(** * Properties                                                      *)
(* ================================================================== *)

(** ** Objects *)

Lemma lookup_replace (k k' : string) (v : JsVal) (m : list (string * JsVal)) :
  lookup k (replace k' v m) =
    if (k =? k')%string
    then match lookup k' m with Some _ => Some v | None => None end
    else lookup k m.
Proof.
  induction m as [|[k0 v0] m IH]; simpl.
  - destruct (k =? k')%string; reflexivity.
  - destruct (k' =? k0)%string eqn:E0; simpl.
    + apply String.eqb_eq in E0; subst k0.
      destruct (k =? k')%string; reflexivity.
    + rewrite IH.
      destruct (k =? k0)%string eqn:E1; [|reflexivity].
      apply String.eqb_eq in E1; subst k0.
      destruct (k =? k')%string eqn:E2; [|reflexivity].
      apply String.eqb_eq in E2; subst k'.
      rewrite String.eqb_refl in E0; discriminate.
Qed.

Lemma lookup_insert_index (k k' : string) (v : JsVal) (m : list (string * JsVal)) :
  lookup k' m = None ->
  lookup k (insert_index k' v m) = if (k =? k')%string then Some v else lookup k m.
Proof.
  induction m as [|[k0 v0] m IH]; simpl; intros Hn.
  - reflexivity.
  - destruct (k' =? k0)%string eqn:E0; [discriminate|].
    destruct (array_index k0 && index_ltb k0 k'); simpl.
    + rewrite (IH Hn).
      destruct (k =? k0)%string eqn:E1; [|reflexivity].
      apply String.eqb_eq in E1; subst k0.
      destruct (k =? k')%string eqn:E2; [|reflexivity].
      apply String.eqb_eq in E2; subst k'.
      rewrite String.eqb_refl in E0; discriminate.
    + reflexivity.
Qed.

Lemma lookup_app (k : string) (m1 m2 : list (string * JsVal)) :
  lookup k (m1 ++ m2) =
    match lookup k m1 with Some x => Some x | None => lookup k m2 end.
Proof.
  induction m1 as [|[k0 v0] m1 IH]; simpl; [reflexivity|].
  destruct (k =? k0)%string; [reflexivity|exact IH].
Qed.

(** Reading a property after defining one. *)
Lemma lookup_set (k k' : string) (v : JsVal) (m : list (string * JsVal)) :
  lookup k (set k' v m) = if (k =? k')%string then Some v else lookup k m.
Proof.
  unfold set. destruct (lookup k' m) eqn:E.
  - rewrite lookup_replace, E. reflexivity.
  - destruct (array_index k').
    + apply lookup_insert_index; exact E.
    + rewrite lookup_app. simpl.
      destruct (k =? k')%string eqn:E1.
      * apply String.eqb_eq in E1; subst k'. rewrite E. reflexivity.
      * destruct (lookup k m); reflexivity.
Qed.

Lemma lookup_fold_set_absent (k : string) (props target : list (string * JsVal)) :
  lookup k props = None ->
  lookup k (fold_left (fun acc kv => set (fst kv) (snd kv) acc) props target)
  = lookup k target.
Proof.
  revert target. induction props as [|[k0 v0] props IH]; simpl; intros target Hn.
  - reflexivity.
  - destruct (k =? k0)%string eqn:E; [discriminate|].
    rewrite (IH _ Hn), lookup_set, E. reflexivity.
Qed.

Lemma lookup_not_in (k : string) (m : list (string * JsVal)) :
  ~ In k (map fst m) -> lookup k m = None.
Proof.
  induction m as [|[k0 v0] m IH]; simpl; intros Hn; [reflexivity|].
  destruct (k =? k0)%string eqn:E.
  - apply String.eqb_eq in E. subst. exfalso. apply Hn. left; reflexivity.
  - apply IH. intros Hin. apply Hn. right; exact Hin.
Qed.

Lemma lookup_fold_set_present (k : string) (v : JsVal)
    (props target : list (string * JsVal)) :
  NoDup (map fst props) ->
  lookup k props = Some v ->
  lookup k (fold_left (fun acc kv => set (fst kv) (snd kv) acc) props target)
  = Some v.
Proof.
  revert target. induction props as [|[k0 v0] props IH]; simpl; intros target Hd Hl.
  - discriminate.
  - inversion Hd as [|? ? Hnin Hd']; subst.
    destruct (k =? k0)%string eqn:E.
    + apply String.eqb_eq in E; subst k0. injection Hl as ->.
      rewrite lookup_fold_set_absent by (apply lookup_not_in; exact Hnin).
      rewrite lookup_set, String.eqb_refl. reflexivity.
    + apply IH; assumption.
Qed.

(** The members of an array or of a string are numbered: none is named by a
    key that is not a numeral. *)
Lemma lookup_indexed (k : string) (l : list JsVal) (i : nat) :
  (forall z, decimal z <> k) -> lookup k (indexed i l) = None.
Proof.
  intros Hk. revert i. induction l as [|x l IH]; simpl; intros i; [reflexivity|].
  destruct (k =? decimal (Z.of_nat i))%string eqn:E.
  - apply String.eqb_eq in E. exfalso. apply (Hk (Z.of_nat i)). symmetry; exact E.
  - apply IH.
Qed.

Lemma numeral_head (d : Decimal.uint) (c : ascii) (r : string) :
  NilEmpty.string_of_uint d = String c r -> c <> "p"%char.
Proof.
  destruct d; simpl; intros [= <- _]; discriminate.
Qed.

Lemma large_head (n : Z) (r : string) : large n <> String "p" r.
Proof.
  unfold large. destruct (Z.shiftl 1 1024 <=? nearest_double n); [discriminate|].
  set (v := digits _). destruct (Decimal.nb_digits v <=? 21)%nat.
  - destruct v; discriminate.
  - unfold exponential.
    destruct (NilEmpty.string_of_uint (significand v)) as [|c [|c' t]] eqn:E;
      [discriminate| |];
      intros [= -> _]; exact (numeral_head _ _ _ E eq_refl).
Qed.

Lemma decimal_not_pageId (z : Z) : decimal z <> "pageId".
Proof.
  unfold decimal. destruct (Z.abs z <=? safe).
  - destruct (Z.to_int z) as [d|d]; destruct d; discriminate.
  - destruct (z <? 0); [discriminate|apply large_head].
Qed.

(** ** The monad *)

Lemma extends_refl (c : Client) (w : World) : extends c w w.
Proof.
  split; [reflexivity|]. exists []. split; [symmetry; apply app_nil_r|constructor].
Qed.

Lemma extends_trans (c : Client) (w1 w2 w3 : World) :
  extends c w1 w2 -> extends c w2 w3 -> extends c w1 w3.
Proof.
  intros [Hn1 [n1 [Hs1 Hf1]]] [Hn2 [n2 [Hs2 Hf2]]]. split.
  - rewrite Hn2. exact Hn1.
  - exists (n1 ++ n2)%list. split.
    + rewrite Hs2, Hs1. symmetry. apply app_assoc.
    + apply Forall_app. split; assumption.
Qed.

Lemma extends_bind {A B} (c : Client) (m : M A) (k : A -> M B) (w : World) :
  extends c w (world_of (m w)) ->
  (forall a w1, extends c w1 (world_of (k a w1))) ->
  extends c w (world_of (bind m k w)).
Proof.
  intros Hm Hk. unfold bind. destruct (m w) as [a w1|e w1|w1]; simpl in *.
  - eapply extends_trans; [exact Hm|apply Hk].
  - exact Hm.
  - exact Hm.
Qed.

Lemma extends_lift {A} (c : Client) (r : Result A) (w : World) :
  extends c w (world_of (lift r w)).
Proof. destruct r; apply extends_refl. Qed.

Lemma extends_try_catch {A} (c : Client) (m : M A) (h : Thrown -> M A) (w : World) :
  extends c w (world_of (m w)) ->
  (forall e w1, extends c w1 (world_of (h e w1))) ->
  extends c w (world_of (try_catch m h w)).
Proof.
  intros Hm Hh. unfold try_catch. destruct (m w) as [a w1|e w1|w1]; simpl in *.
  - exact Hm.
  - eapply extends_trans; [exact Hm|apply Hh].
  - exact Hm.
Qed.

Section Properties.
Context {platform : Platform}.

(** ** The client *)

(** One call of [post], step by step: the request leaves with the credential of
    the client, and the answer of the network is read. *)
Lemma post_run (c : Client) (path u : string) (body : JsVal) (w : World) :
  new_URL path (baseUrl c) = Some u ->
  post c path body w =
    match network w (List.length (sent w)) with
    | Rejected m => Throw (FetchFailed m) (sending w (post_request c u body))
    | Responded r =>
        match reading r with
        | Ok v => Return v (sending w (post_request c u body))
        | Raise e => Throw e (sending w (post_request c u body))
        end
    end.
Proof.
  intros Hu.
  unfold post, request, resolve, bind. rewrite Hu. unfold ret at 1.
  fold (body_text body).
  match goal with
  | |- context [fetch ?r] => assert (Hreq : r = post_request c u body)
  end.
  { unfold post_request, credential_headers.
    destruct (present (apiToken c)); [reflexivity|].
    destruct (present (authCookie c)); reflexivity. }
  rewrite Hreq. unfold fetch. fold (sending w (post_request c u body)).
  destruct (network w (List.length (sent w))) as [r|m]; [|reflexivity].
  unfold reading, html_signal.
  destruct (includes _ "application/json").
  - destruct (json r); [|reflexivity]. unfold ret.
    destruct (negb (ok r)); [reflexivity|].
    destruct (includes _ "text/html" || _); [reflexivity|].
    destruct (truthy v && typeof_object v && hasOwn v "data"); reflexivity.
  - unfold ret.
    destruct (negb (ok r)); [reflexivity|].
    destruct (includes _ "text/html" || _); [reflexivity|].
    destruct (truthy _ && typeof_object _ && hasOwn _ "data"); reflexivity.
Qed.

Lemma post_invalid_url (c : Client) (path : string) (body : JsVal) (w : World) :
  new_URL path (baseUrl c) = None ->
  post c path body w = Throw InvalidUrl w.
Proof.
  intros Hu. unfold post, request, resolve, bind. rewrite Hu. reflexivity.
Qed.

Lemma post_request_credentialed (c : Client) (u : string) (body : JsVal) :
  credentialed c (post_request c u body).
Proof. reflexivity. Qed.

Lemma extends_sending (c : Client) (u : string) (body : JsVal) (w : World) :
  extends c w (sending w (post_request c u body)).
Proof.
  split; [reflexivity|]. exists [post_request c u body]. split; [reflexivity|].
  constructor; [apply post_request_credentialed|constructor].
Qed.

Lemma post_extends (c : Client) (path : string) (body : JsVal) (w : World) :
  extends c w (world_of (post c path body w)).
Proof.
  destruct (new_URL path (baseUrl c)) as [u|] eqn:Hu.
  - rewrite (post_run c path u body w Hu).
    destruct (network w (List.length (sent w))) as [r|m]; simpl.
    + destruct (reading r); apply extends_sending.
    + apply extends_sending.
  - rewrite (post_invalid_url c path body w Hu). apply extends_refl.
Qed.

Lemma page_response_delivers (wrapped : bool) (p : BackendPage) :
  delivers (page_response wrapped p) p.
Proof.
  exists (JObj [("items", JArr (bp_items p)); ("meta", JObj (bp_meta p))]).
  destruct p as [xs mm], wrapped; repeat split.
Qed.

(** ** The pagination loop *)

(** One turn of the loop on a page the backend delivers. *)
Lemma loop_turn (fuel : nat) (c : Client) (u : string) (spaceId : JsVal)
    (st : Pagination) (w : World) (p : BackendPage) :
  new_URL "/api/pages/sidebar-pages" (baseUrl c) = Some u ->
  hasNext st = true ->
  serves w (List.length (sent w)) p ->
  listPages_loop (S fuel) c spaceId st w
  = listPages_loop fuel c spaceId
      {| items := items st ++ bp_items p;
         page := page st + 1;
         hasNext := has_next p;
         lastMeta := JObj (bp_meta p) |}
      (sending w
         (post_request c u (JObj [("spaceId", spaceId); ("page", JNum (page st))]))).
Proof.
  intros Hu Hn (r & Hnet & v & Hread & Hitems & Hmeta).
  simpl. rewrite Hn. unfold bind at 1.
  rewrite (post_run c _ u _ w Hu), Hnet, Hread.
  unfold bind. rewrite Hitems, Hmeta. reflexivity.
Qed.

(** The loop over pages that all announce a next one but the last. *)
Lemma loop_pages (c : Client) (u : string) (spaceId : JsVal) :
  new_URL "/api/pages/sidebar-pages" (baseUrl c) = Some u ->
  forall (pages : list BackendPage) (last : BackendPage) (fuel : nat)
         (st : Pagination) (w : World),
    hasNext st = true ->
    Forall (fun p => has_next p = true) pages ->
    has_next last = false ->
    (forall i p, nth_error (pages ++ [last]) i = Some p ->
                 serves w (List.length (sent w) + i) p) ->
    (List.length pages < fuel)%nat ->
    listPages_loop fuel c spaceId st w
    = Return {| items := items st ++ flat_map bp_items (pages ++ [last]);
                page := page st + Z.of_nat (S (List.length pages));
                hasNext := false;
                lastMeta := JObj (bp_meta last) |}
             {| network := network w;
                sent := sent w ++ page_requests c u spaceId (page st)
                                    (S (List.length pages)) |}.
Proof.
  intros Hu pages. induction pages as [|p pages IH];
    intros last fuel st w Hn Hall Hlast Hnet Hfuel.
  - destruct fuel as [|fuel]; [simpl in Hfuel; lia|].
    rewrite (loop_turn fuel c u spaceId st w last Hu Hn).
    2:{ specialize (Hnet O last eq_refl). rewrite Nat.add_0_r in Hnet. exact Hnet. }
    rewrite Hlast. destruct fuel; simpl; rewrite app_nil_r; reflexivity.
  - destruct fuel as [|fuel]; [simpl in Hfuel; lia|].
    inversion Hall as [|? ? Hp Hall']; subst.
    rewrite (loop_turn fuel c u spaceId st w p Hu Hn).
    2:{ specialize (Hnet O p eq_refl). rewrite Nat.add_0_r in Hnet. exact Hnet. }
    rewrite (IH last fuel); simpl; try assumption.
    + f_equal.
      * f_equal; [rewrite <- app_assoc; reflexivity|lia].
      * f_equal. rewrite <- app_assoc. reflexivity.
    + intros i q Hq. rewrite length_app. simpl.
      replace (List.length (sent w) + 1 + i)%nat
        with (List.length (sent w) + S i)%nat by lia.
      apply Hnet. exact Hq.
    + simpl in Hfuel. lia.
Qed.

(** The loop over pages that all announce a next one: it is still running when
    the fuel ends, one request per unit of fuel later. *)
Lemma loop_more (c : Client) (u : string) (spaceId : JsVal) :
  new_URL "/api/pages/sidebar-pages" (baseUrl c) = Some u ->
  forall (fuel : nat) (st : Pagination) (w : World),
    hasNext st = true ->
    (forall i, (i < fuel)%nat ->
       exists p, serves w (List.length (sent w) + i) p
                 /\ has_next p = true) ->
    listPages_loop fuel c spaceId st w
    = Pending {| network := network w;
                 sent := sent w ++ page_requests c u spaceId (page st) fuel |}.
Proof.
  intros Hu fuel. induction fuel as [|fuel IH]; intros st w Hn Hnet.
  - simpl. rewrite Hn, app_nil_r. destruct w; reflexivity.
  - destruct (Hnet O) as [p [Hp Hmore]]; [lia|]. rewrite Nat.add_0_r in Hp.
    rewrite (loop_turn fuel c u spaceId st w p Hu Hn Hp).
    rewrite IH.
    + simpl. rewrite <- app_assoc. reflexivity.
    + exact Hmore.
    + intros i Hi. simpl. rewrite length_app. simpl.
      replace (List.length (sent w) + 1 + i)%nat
        with (List.length (sent w) + S i)%nat by lia.
      apply Hnet. lia.
Qed.

Lemma length_page_requests (c : Client) (u : string) (spaceId : JsVal)
    (first : Z) (n : nat) :
  List.length (page_requests c u spaceId first n) = n.
Proof.
  revert first. induction n as [|n IH]; intros first; simpl; [reflexivity|].
  rewrite IH. reflexivity.
Qed.

Lemma listPages_more (c : Client) (u : string) (spaceId : JsVal) (w : World) :
  truthy spaceId = true ->
  new_URL "/api/pages/sidebar-pages" (baseUrl c) = Some u ->
  forall fuel : nat,
    (forall i, (i < fuel)%nat ->
       exists p, serves w (List.length (sent w) + i) p
                 /\ has_next p = true) ->
    listPages fuel c spaceId w
    = Pending {| network := network w;
                 sent := sent w ++ page_requests c u spaceId 1 fuel |}.
Proof.
  intros Hs Hu fuel Hnet. unfold listPages. rewrite Hs. simpl. unfold bind.
  rewrite (loop_more c u spaceId Hu fuel
             {| items := []; page := 1; hasNext := true; lastMeta := JNull |}
             w eq_refl Hnet). reflexivity.
Qed.

Lemma listPages_pages (c : Client) (u : string) (spaceId : JsVal)
    (pages : list BackendPage) (last : BackendPage) (w : World) (fuel : nat) :
  truthy spaceId = true ->
  new_URL "/api/pages/sidebar-pages" (baseUrl c) = Some u ->
  Forall (fun p => has_next p = true) pages ->
  has_next last = false ->
  (forall i p, nth_error (pages ++ [last]) i = Some p ->
               serves w (List.length (sent w) + i) p) ->
  (List.length pages < fuel)%nat ->
  listPages fuel c spaceId w
  = Return (JObj [("items", JArr (flat_map bp_items (pages ++ [last])));
                  ("meta", JObj (bp_meta last))])
           {| network := network w;
              sent := sent w ++ page_requests c u spaceId 1 (S (List.length pages)) |}.
Proof.
  intros Hs Hu Hall Hlast Hnet Hfuel. unfold listPages. rewrite Hs. simpl. unfold bind.
  rewrite (loop_pages c u spaceId Hu pages last fuel
             {| items := []; page := 1; hasNext := true; lastMeta := JNull |}
             w eq_refl Hall Hlast Hnet Hfuel).
  reflexivity.
Qed.

(** One call of [request], whatever its options. *)
Lemma request_run (c : Client) (path u : string) (options : list (string * JsVal))
    (w : World) :
  new_URL path (baseUrl c) = Some u ->
  exists req,
    request c path options w =
      match network w (List.length (sent w)) with
      | Rejected m => Throw (FetchFailed m) (sending w req)
      | Responded r =>
          match reading r with
          | Ok v => Return v (sending w req)
          | Raise e => Throw e (sending w req)
          end
      end.
Proof.
  intros Hu.
  unfold request, resolve, bind. rewrite Hu. unfold ret at 1.
  match goal with |- context [fetch ?r] => exists r end.
  unfold fetch, sending.
  destruct (network w (List.length (sent w))) as [r|m]; [|reflexivity].
  unfold reading, html_signal.
  destruct (includes _ "application/json").
  - destruct (json r); [|reflexivity]. unfold ret.
    destruct (negb (ok r)); [reflexivity|].
    destruct (includes _ "text/html" || _); [reflexivity|].
    destruct (truthy v && typeof_object v && hasOwn v "data"); reflexivity.
  - unfold ret.
    destruct (negb (ok r)); [reflexivity|].
    destruct (includes _ "text/html" || _); [reflexivity|].
    destruct (truthy _ && typeof_object _ && hasOwn _ "data"); reflexivity.
Qed.

(** ** The claims on the client *)

(** C1, amended.  For a response with a success status: when its content type
    does not announce JSON and it signals HTML (its content type contains
    [text/html], or its text contains the doctype marker in any letter case),
    [request] fails with the HTML error, of class [ConfigError], whatever
    [response.json()] would have made of the body, which is never called; when
    its content type announces JSON, the body is parsed first, and [request]
    fails with the same error when the parse succeeds and the content type also
    contains [text/html] or the parsed value is a string holding the marker.
    Whatever the status, a body that is announced as JSON and does not parse
    makes [request] fail with the parser's [SyntaxError], which has no class.
    A response with a failure status whose body is read, as text or as JSON
    that parses, fails with the status error, of class [BackendError], which
    quotes the status and the body, HTML or not. *)
Theorem request_html_config_error (c : Client) (path u : string)
    (options : list (string * JsVal)) (w : World)
    (st : Z) (ct : option string) (txt : string) (sc : SetCookie) :
  new_URL path (baseUrl c) = Some u ->
  let ctype := match ct with Some s => s | None => EmptyString end in
  let answer (j : JsonBody) :=
    network w (List.length (sent w))
    = Responded {| status := st; content_type := ct; text := txt;
                   json := j; set_cookie := sc |} in
  (200 <= st <= 299 ->
   (includes ctype "application/json" = false ->
    includes ctype "text/html" = true
    \/ includes (toLowerCase txt) "<!doctype html" = true ->
    forall j : JsonBody,
      answer j ->
      exists w', request c path options w = Throw HtmlInsteadOfJson w'
                 /\ kind HtmlInsteadOfJson = Some ConfigError)
   /\
   (includes ctype "application/json" = true ->
    forall v : JsVal,
      html_signal ctype v = true ->
      answer (JsonValue v) ->
      exists w', request c path options w = Throw HtmlInsteadOfJson w'
                 /\ kind HtmlInsteadOfJson = Some ConfigError))
  /\
  (includes ctype "application/json" = true ->
   forall m : string,
     answer (JsonInvalid m) ->
     exists w', request c path options w = Throw (JsonSyntaxError m) w'
                /\ kind (JsonSyntaxError m) = None)
  /\
  (~ 200 <= st <= 299 ->
   (includes ctype "application/json" = false ->
    forall j : JsonBody,
      answer j ->
      exists w', request c path options w = Throw (BackendStatus st txt) w'
                 /\ kind (BackendStatus st txt) = Some BackendError)
   /\
   (includes ctype "application/json" = true ->
    forall v : JsVal,
      answer (JsonValue v) ->
      exists w', request c path options w = Throw (BackendStatus st (detail v)) w'
                 /\ kind (BackendStatus st (detail v)) = Some BackendError)).
Proof.
  intros Hu ctype answer. unfold answer.
  destruct (request_run c path u options w Hu) as [req Hreq].
  split; [|split].
  - intros Hst.
    assert (Hok : forall j, ok {| status := st; content_type := ct; text := txt;
                                  json := j; set_cookie := sc |} = true).
    { intros j. unfold ok. simpl.
      apply andb_true_intro. split; apply Z.leb_le; lia. }
    split.
    + intros Hjson Hhtml j Hnet. exists (sending w req). split; [|reflexivity].
      rewrite Hreq, Hnet. unfold reading, html_signal. simpl content_type.
      fold ctype. rewrite Hjson, (Hok j). simpl negb. cbv iota. simpl text.
      destruct Hhtml as [H1|H1]; rewrite H1; [reflexivity|].
      rewrite orb_true_r. reflexivity.
    + intros Hjson v Hsig Hnet. exists (sending w req). split; [|reflexivity].
      rewrite Hreq, Hnet. unfold reading. simpl content_type. fold ctype.
      rewrite Hjson. simpl json. cbv iota. rewrite (Hok (JsonValue v)).
      simpl negb. cbv iota. rewrite Hsig. reflexivity.
  - intros Hjson m Hnet. exists (sending w req). split; [|reflexivity].
    rewrite Hreq, Hnet. unfold reading. simpl content_type. fold ctype.
    rewrite Hjson. reflexivity.
  - intros Hst.
    assert (Hok : forall j, ok {| status := st; content_type := ct; text := txt;
                                  json := j; set_cookie := sc |} = false).
    { intros j. unfold ok. simpl.
      destruct (200 <=? st) eqn:H1; [|reflexivity].
      destruct (st <=? 299) eqn:H2; [|reflexivity].
      exfalso. apply Hst. split; apply Z.leb_le; assumption. }
    split.
    + intros Hjson j Hnet. exists (sending w req). split; [|reflexivity].
      rewrite Hreq, Hnet. unfold reading. simpl content_type. fold ctype.
      rewrite Hjson, (Hok j). reflexivity.
    + intros Hjson v Hnet. exists (sending w req). split; [|reflexivity].
      rewrite Hreq, Hnet. unfold reading. simpl content_type. fold ctype.
      rewrite Hjson. simpl json. cbv iota. rewrite (Hok (JsonValue v)).
      reflexivity.
Qed.

(** C3, amended.  The loop of [listPages] has no bound of its own.  Against a
    backend whose pages all announce a next one it is still running after any
    number of turns, one request sent per turn; it ends, after [n + 1] turns,
    when the page of rank [n] is the first to announce none. *)
Theorem listPages_ends_only_on_last_page (c : Client) (u : string)
    (spaceId : JsVal) (w : World) :
  truthy spaceId = true ->
  new_URL "/api/pages/sidebar-pages" (baseUrl c) = Some u ->
  ((forall i, exists p,
       serves w (List.length (sent w) + i) p
       /\ has_next p = true) ->
   forall fuel : nat,
     finished (listPages fuel c spaceId w) = false
     /\ List.length (sent (world_of (listPages fuel c spaceId w)))
        = (List.length (sent w) + fuel)%nat)
  /\
  (forall (pages : list BackendPage) (last : BackendPage),
     Forall (fun p => has_next p = true) pages ->
     has_next last = false ->
     (forall i p, nth_error (pages ++ [last]) i = Some p ->
        serves w (List.length (sent w) + i) p) ->
     forall fuel : nat,
       finished (listPages fuel c spaceId w)
       = (List.length pages <? fuel)%nat).
Proof.
  intros Hs Hu. split.
  - intros Hnet fuel.
    rewrite (listPages_more c u spaceId w Hs Hu fuel (fun i _ => Hnet i)).
    simpl. rewrite length_app, length_page_requests. split; reflexivity.
  - intros pages last Hall Hlast Hnet fuel.
    destruct (List.length pages <? fuel)%nat eqn:Hf.
    + apply Nat.ltb_lt in Hf.
      rewrite (listPages_pages c u spaceId pages last w fuel Hs Hu Hall Hlast Hnet Hf).
      reflexivity.
    + apply Nat.ltb_ge in Hf.
      rewrite (listPages_more c u spaceId w Hs Hu fuel); [reflexivity|].
      intros i Hi.
      assert (Hi' : (i < List.length pages)%nat) by lia.
      destruct (nth_error pages i) as [p|] eqn:Hp.
      * exists p. split.
        -- apply Hnet. rewrite nth_error_app1 by exact Hi'. exact Hp.
        -- rewrite Forall_forall in Hall. apply Hall.
           eapply nth_error_In; exact Hp.
      * apply nth_error_None in Hp. lia.
Qed.

(** C4.  For a non-empty [spaceId] and backend pages of which the last one is
    the first to announce no next page, [listPages] requests the pages one by
    one, numbered from 1, up to and including that last page, and returns the
    items of all of them in order together with the metadata of the last. *)
Theorem listPages_accumulates (c : Client) (u : string) (spaceId : JsVal)
    (pages : list BackendPage) (last : BackendPage) (w : World) (fuel : nat) :
  truthy spaceId = true ->
  new_URL "/api/pages/sidebar-pages" (baseUrl c) = Some u ->
  Forall (fun p => has_next p = true) pages ->
  has_next last = false ->
  (forall i p, nth_error (pages ++ [last]) i = Some p ->
               serves w (List.length (sent w) + i) p) ->
  (List.length pages < fuel)%nat ->
  listPages fuel c spaceId w
  = Return (JObj [("items", JArr (flat_map bp_items (pages ++ [last])));
                  ("meta", JObj (bp_meta last))])
           {| network := network w;
              sent := sent w ++ page_requests c u spaceId 1 (S (List.length pages)) |}.
Proof. exact (listPages_pages c u spaceId pages last w fuel). Qed.

Lemma sent_post (c : Client) (path u : string) (body : JsVal) (w : World) :
  new_URL path (baseUrl c) = Some u ->
  sent (world_of (post c path body w)) = (sent w ++ [post_request c u body])%list.
Proof.
  intros Hu. rewrite (post_run c path u body w Hu).
  destruct (network w (List.length (sent w))) as [r|m]; [|reflexivity].
  destruct (reading r); reflexivity.
Qed.

(** C8.  [createPage] fails with the validation error, and sends nothing, when
    [title], [content] or [spaceId] is absent; otherwise it sends one request
    to [/api/pages/create] whose body is the JSON text of
    [{ title, content, spaceId, parentPageId }], where [parentPageId] is [null]
    when [folderId] is absent and is the given [folderId] when one is
    supplied. *)
Theorem createPage_parentPageId (c : Client) (payload : JsVal) (w : World) :
  (absent (field payload "title") || absent (field payload "content")
   || absent (field payload "spaceId") = true ->
   createPage c payload w = Throw CreateFieldsRequired w
   /\ kind CreateFieldsRequired = Some ValidationError)
  /\
  (absent (field payload "title") || absent (field payload "content")
   || absent (field payload "spaceId") = false ->
   forall u, new_URL "/api/pages/create" (baseUrl c) = Some u ->
     sent (world_of (createPage c payload w))
     = (sent w ++ [post_request c u
                     (create_body (field payload "title")
                                  (field payload "content")
                                  (field payload "spaceId")
                                  (if absent (field payload "folderId")
                                   then JNull
                                   else field payload "folderId"))])%list).
Proof.
  unfold absent, field. split.
  - intros H. unfold createPage. rewrite H. split; reflexivity.
  - intros H u Hu. unfold createPage. rewrite H.
    replace (if negb (truthy (get (or payload (JObj [])) "folderId"))
             then JNull else get (or payload (JObj [])) "folderId")
      with (or (get (or payload (JObj [])) "folderId") JNull).
    + apply sent_post; exact Hu.
    + unfold or at 1. destruct (truthy (get (or payload (JObj [])) "folderId"));
        reflexivity.
Qed.

(** C9.  [updatePage(pageId, payload)] sends one request to [/api/pages/update]
    whose body is the JSON text of [{ pageId, ...payload }]: a [pageId] member
    of the payload overrides the argument, and without one the [pageId] of the
    body is the argument. *)
Theorem updatePage_pageId_override (c : Client) (pageId payload : JsVal)
    (w : World) (u : string) :
  truthy pageId = true ->
  new_URL "/api/pages/update" (baseUrl c) = Some u ->
  exists body,
    sent (world_of (updatePage c pageId payload w))
    = (sent w ++ [post_request c u (JObj body)])%list
    /\ (forall m v, payload = JObj m -> distinct_keys m ->
                    lookup "pageId" m = Some v ->
                    lookup "pageId" body = Some v)
    /\ (hasOwn payload "pageId" = false -> lookup "pageId" body = Some pageId).
Proof.
  intros Hp Hu.
  exists (spread [("pageId", pageId)] (or payload (JObj []))).
  split; [|split].
  - unfold updatePage. rewrite Hp. simpl. apply sent_post; exact Hu.
  - intros m v -> Hd Hl. unfold or, spread. simpl.
    apply lookup_fold_set_present; assumption.
  - intros Hown. unfold spread.
    rewrite lookup_fold_set_absent; [reflexivity|].
    unfold or. destruct (truthy payload); [|reflexivity].
    destruct payload as [| |b|z|s|l|m]; simpl; try reflexivity.
    + apply lookup_indexed. intros z Hz. exact (decimal_not_pageId z Hz).
    + apply lookup_indexed. intros z Hz. exact (decimal_not_pageId z Hz).
    + simpl in Hown. destruct (lookup "pageId" m); [discriminate|reflexivity].
Qed.

(** ** The dispatcher *)

Lemma read_only_refusal (g : Globals) (fuel : nat) (body : JsVal) (w : World)
    (name : string) :
  readOnly (appConfig g) = true ->
  get (or body (JObj [])) "tool" = JStr name ->
  name = "create_page" \/ name = "update_page" ->
  handleToolCall g fuel body w = Throw ReadOnlyViolation w.
Proof.
  intros Hro Htool Hname. unfold handleToolCall. rewrite Htool, Hro.
  destruct Hname as [-> | ->]; reflexivity.
Qed.

Lemma not_advertised (tool : JsVal) :
  advertised baseTools tool = false ->
  is_str tool "list_spaces" = false /\ is_str tool "list_pages" = false
  /\ is_str tool "get_page" = false /\ is_str tool "search_pages" = false
  /\ is_str tool "create_page" = false /\ is_str tool "update_page" = false.
Proof.
  destruct tool as [| |b|z|s|l|m]; try (intros _; repeat split; reflexivity).
  unfold advertised, baseTools, descriptor. simpl. intros H.
  repeat (apply orb_false_elim in H; destruct H as [? H]).
  rewrite !(String.eqb_sym s). repeat split; assumption.
Qed.

Lemma unknown_tool_refusal (g : Globals) (fuel : nat) (body : JsVal) (w : World) :
  truthy (get (or body (JObj [])) "tool") = true ->
  advertised baseTools (get (or body (JObj [])) "tool") = false ->
  handleToolCall g fuel body w
  = Throw (match ToString (get (or body (JObj [])) "tool") with
           | Some _ => UnknownTool (get (or body (JObj [])) "tool")
           | None => NotPrimitive
           end) w.
Proof.
  intros Ht Hadv. unfold handleToolCall. rewrite Ht.
  destruct (not_advertised _ Hadv) as (H1 & H2 & H3 & H4 & H5 & H6).
  rewrite H1, H2, H3, H4, H5, H6. simpl. rewrite andb_false_r.
  destruct (ToString (get (or body (JObj [])) "tool")); reflexivity.
Qed.

(** C5.  In read-only mode a call of [create_page] or [update_page] fails with
    the read-only error, of class [PolicyError], whatever the rest of the body:
    the parameters are not read (not even a [null] in their place is noticed)
    and the world is left as it was, no request sent. *)
Theorem read_only_blocks_writes (g : Globals) (fuel : nat) (body : JsVal)
    (w : World) (name : string) :
  readOnly (appConfig g) = true ->
  get (or body (JObj [])) "tool" = JStr name ->
  name = "create_page" \/ name = "update_page" ->
  handleToolCall g fuel body w = Throw ReadOnlyViolation w
  /\ kind ReadOnlyViolation = Some PolicyError.
Proof.
  intros Hro Htool Hname. split; [|reflexivity].
  exact (read_only_refusal g fuel body w name Hro Htool Hname).
Qed.

(** C6, amended.  A call whose tool name is given and is none of the six names
    of the base registry sends nothing and fails: with the unknown-tool error,
    of class [ValidationError], whose message names the tool, for every name
    that can be written in a message (a string is written as it is); with the
    runtime's [TypeError], which has no class, for a name that cannot (an
    object with a member [toString], or an array that holds one).  The two
    mutating names, which read-only mode takes out of the advertised registry,
    fail in that mode with the read-only error, of class [PolicyError],
    instead. *)
Theorem unknown_tool_validation_error (g : Globals) (fuel : nat) (body : JsVal)
    (w : World) :
  (truthy (get (or body (JObj [])) "tool") = true ->
   advertised baseTools (get (or body (JObj [])) "tool") = false ->
   (forall name, ToString (get (or body (JObj [])) "tool") = Some name ->
      handleToolCall g fuel body w
      = Throw (UnknownTool (get (or body (JObj [])) "tool")) w
      /\ kind (UnknownTool (get (or body (JObj [])) "tool"))
         = Some ValidationError
      /\ message (UnknownTool (get (or body (JObj [])) "tool"))
         = "Herramienta desconocida: " ++ name)
   /\ (ToString (get (or body (JObj [])) "tool") = None ->
       handleToolCall g fuel body w = Throw NotPrimitive w
       /\ kind NotPrimitive = None
       /\ message NotPrimitive = "Cannot convert object to primitive value"))
  /\
  (readOnly (appConfig g) = true ->
   forall name, get (or body (JObj [])) "tool" = JStr name ->
     name = "create_page" \/ name = "update_page" ->
     handleToolCall g fuel body w = Throw ReadOnlyViolation w
     /\ kind ReadOnlyViolation = Some PolicyError).
Proof.
  split.
  - intros Ht Hadv.
    pose proof (unknown_tool_refusal g fuel body w Ht Hadv) as Hrun.
    split.
    + intros name Hname. rewrite Hname in Hrun.
      split; [exact Hrun|split; [reflexivity|]].
      unfold message, template. rewrite Hname. reflexivity.
    + intros Hname. rewrite Hname in Hrun.
      split; [exact Hrun|split; reflexivity].
  - intros Hro name Htool Hname. split; [|reflexivity].
    exact (read_only_refusal g fuel body w name Hro Htool Hname).
Qed.

(** ** The protocol adapter *)

Lemma handleJsonRpc_id (g : Globals) (fuel : nat) (body : JsVal) (w w' : World)
    (id result : JsVal) :
  handleJsonRpc g fuel body w = Return (id, result) w' ->
  id = get (or body (JObj [])) "id".
Proof.
  unfold handleJsonRpc.
  destruct (negb (truthy (get (or body (JObj [])) "jsonrpc"))
            || negb (truthy (get (or body (JObj [])) "method")));
    [discriminate|].
  destruct (is_str _ "initialize"); [intros [= <- _ _]; reflexivity|].
  destruct (is_str _ "list_tools"); [intros [= <- _ _]; reflexivity|].
  destruct (is_str _ "call_tool"); [|destruct (ToString _); discriminate].
  unfold bind. destruct (handleToolCall _ _ _ _); try discriminate.
  intros [= <- _ _]; reflexivity.
Qed.

Lemma handler_envelope (g : Globals) (fuel : nat) (req : IncomingMessage) :
  envelope_route req = true ->
  handler g fuel req = jsonRpcExchange g fuel req.
Proof.
  unfold envelope_route. intros H.
  apply andb_prop in H. destruct H as [Hm Hu].
  apply String.eqb_eq in Hm.
  unfold handler. rewrite Hm.
  repeat (apply orb_prop in Hu; destruct Hu as [Hu|Hu]);
    apply String.eqb_eq in Hu; rewrite Hu; reflexivity.
Qed.

Lemma handler_tool_call (g : Globals) (fuel : nat) (req : IncomingMessage) :
  req_method req = "POST" ->
  req_url req = "/mcp/tool-call" ->
  handler g fuel req = toolCallExchange g fuel req.
Proof. intros Hm Hu. unfold handler. rewrite Hm, Hu. reflexivity. Qed.

Lemma parseJsonBody_world (req : IncomingMessage) (w w' : World) (body : JsVal) :
  parseJsonBody req w = Return body w' -> w' = w.
Proof.
  unfold parseJsonBody. destruct (req_body req) as [m|data parsed]; [discriminate|].
  destruct (5000000 <? Js.length data)%N; [discriminate|].
  destruct (data =? EmptyString)%string; [intros [= _ <-]; reflexivity|].
  destruct parsed; [intros [= _ <-]; reflexivity|discriminate].
Qed.

Lemma jsonRpcExchange_run (g : Globals) (fuel : nat) (req : IncomingMessage)
    (w : World) :
  jsonRpcExchange g fuel req w =
    match bind (parseJsonBody req) (handleJsonRpc g fuel) w with
    | Return rpc w' => Return (sendJsonRpc (fst rpc) [("result", snd rpc)]) w'
    | Throw e w' => Return (sendJsonRpcError JNull (-32600) (message e)) w'
    | Pending w' => Pending w'
    end.
Proof.
  unfold jsonRpcExchange, try_catch, bind.
  destruct (parseJsonBody req w) as [body w1|e w1|w1]; try reflexivity.
  destruct (handleJsonRpc g fuel body w1) as [rpc w2|e w2|w2]; reflexivity.
Qed.

Lemma toolCallExchange_run (g : Globals) (fuel : nat) (req : IncomingMessage)
    (w : World) :
  toolCallExchange g fuel req w =
    match bind (parseJsonBody req) (handleToolCall g fuel) w with
    | Return result w' => Return (sendJson 200 [("result", result)]) w'
    | Throw e w' => Return (sendJson 400 [("error", JStr (message e))]) w'
    | Pending w' => Pending w'
    end.
Proof.
  unfold toolCallExchange, try_catch, bind.
  destruct (parseJsonBody req w) as [body w1|e w1|w1]; try reflexivity.
  destruct (handleToolCall g fuel body w1) as [r w2|e w2|w2]; reflexivity.
Qed.

(** C2, amended.  On an envelope route, when the call succeeds the response
    has the shape [{jsonrpc, id, result}] and its [id] is the [id] member of the
    request body; when the call fails, at whatever stage, the response has the
    shape [{jsonrpc, id, error: {code, message}}] with the fixed code -32600
    and an [id] that is always [null], the request's own [id] being dropped. *)
Theorem envelope_response_shape (g : Globals) (fuel : nat)
    (req : IncomingMessage) (w : World) :
  envelope_route req = true ->
  match bind (parseJsonBody req) (handleJsonRpc g fuel) w with
  | Return (id, result) w' =>
      exists body resp,
        parseJsonBody req w = Return body w
        /\ id = get (or body (JObj [])) "id"
        /\ handler g fuel req w = Return resp w'
        /\ carries resp (envelope_result id result)
  | Throw e w' =>
      exists resp,
        handler g fuel req w = Return resp w'
        /\ carries resp (envelope_error JNull (-32600) (message e))
  | Pending w' => handler g fuel req w = Pending w'
  end.
Proof.
  intros Hroute. rewrite (handler_envelope g fuel req Hroute), jsonRpcExchange_run.
  destruct (bind (parseJsonBody req) (handleJsonRpc g fuel) w)
    as [[id result] w'|e w'|w'] eqn:Hrun.
  - unfold bind in Hrun.
    destruct (parseJsonBody req w) as [body w1|e1 w1|w1] eqn:Hparse;
      try discriminate.
    pose proof (parseJsonBody_world req w w1 body Hparse) as ->.
    exists body, (sendJsonRpc id [("result", result)]).
    repeat split.
    exact (handleJsonRpc_id g fuel body w w' id result Hrun).
  - exists (sendJsonRpcError JNull (-32600) (message e)). split; reflexivity.
  - reflexivity.
Qed.

(** C10.  On an envelope route the handler never throws, and every response
    it sends has status 200, errors included; on the tool-call route a failed
    call is answered with status 400 and a successful one with status 200. *)
Theorem envelope_status_200_direct_failure_400 (g : Globals) (fuel : nat)
    (req : IncomingMessage) (w : World) :
  (envelope_route req = true ->
   match bind (parseJsonBody req) (handleJsonRpc g fuel) w with
   | Return rpc w' =>
       exists resp, handler g fuel req w = Return resp w'
                    /\ statusCode resp = 200
   | Throw e w' =>
       exists resp, handler g fuel req w = Return resp w'
                    /\ statusCode resp = 200
   | Pending w' => handler g fuel req w = Pending w'
   end)
  /\
  (req_method req = "POST" -> req_url req = "/mcp/tool-call" ->
   match bind (parseJsonBody req) (handleToolCall g fuel) w with
   | Return result w' =>
       exists resp, handler g fuel req w = Return resp w'
                    /\ statusCode resp = 200
                    /\ carries resp (JObj [("result", result)])
   | Throw e w' =>
       exists resp, handler g fuel req w = Return resp w'
                    /\ statusCode resp = 400
                    /\ carries resp (JObj [("error", JStr (message e))])
   | Pending w' => handler g fuel req w = Pending w'
   end).
Proof.
  split.
  - intros Hroute.
    rewrite (handler_envelope g fuel req Hroute), jsonRpcExchange_run.
    destruct (bind (parseJsonBody req) (handleJsonRpc g fuel) w)
      as [rpc w'|e w'|w']; [| |reflexivity];
      eexists; split; reflexivity.
  - intros Hm Hu.
    rewrite (handler_tool_call g fuel req Hm Hu), toolCallExchange_run.
    destruct (bind (parseJsonBody req) (handleToolCall g fuel) w)
      as [r w'|e w'|w']; [| |reflexivity];
      eexists; repeat split; reflexivity.
Qed.

(** ** Credentials *)

Lemma listPages_loop_extends (c : Client) (spaceId : JsVal) (fuel : nat) :
  forall (st : Pagination) (w : World),
    extends c w (world_of (listPages_loop fuel c spaceId st w)).
Proof.
  induction fuel as [|fuel IH]; intros st w; simpl.
  - destruct (hasNext st); apply extends_refl.
  - destruct (hasNext st); [|apply extends_refl].
    apply extends_bind; [apply post_extends|].
    intros result w1. apply extends_bind.
    + destruct (iterate _); apply extends_refl.
    + intros pageItems w2. apply IH.
Qed.

Lemma listPages_extends (c : Client) (fuel : nat) (spaceId : JsVal) (w : World) :
  extends c w (world_of (listPages fuel c spaceId w)).
Proof.
  unfold listPages. destruct (negb (truthy spaceId)); [apply extends_refl|].
  apply extends_bind; [apply listPages_loop_extends|].
  intros st w1. apply extends_refl.
Qed.

Lemma getPage_extends (c : Client) (pageId : JsVal) (w : World) :
  extends c w (world_of (getPage c pageId w)).
Proof.
  unfold getPage. destruct (negb (truthy pageId));
    [apply extends_refl|apply post_extends].
Qed.

Lemma searchPages_extends (c : Client) (query : JsVal) (w : World) :
  extends c w (world_of (searchPages c query w)).
Proof.
  unfold searchPages. destruct (negb (truthy query));
    [apply extends_refl|apply post_extends].
Qed.

Lemma createPage_extends (c : Client) (payload : JsVal) (w : World) :
  extends c w (world_of (createPage c payload w)).
Proof.
  unfold createPage. destruct (_ || _); [apply extends_refl|apply post_extends].
Qed.

Lemma updatePage_extends (c : Client) (pageId payload : JsVal) (w : World) :
  extends c w (world_of (updatePage c pageId payload w)).
Proof.
  unfold updatePage. destruct (negb (truthy pageId));
    [apply extends_refl|apply post_extends].
Qed.

Ltac extends_step :=
  first
    [ apply extends_refl
    | apply extends_lift
    | apply post_extends
    | apply listPages_extends
    | apply getPage_extends
    | apply searchPages_extends
    | apply createPage_extends
    | apply updatePage_extends
    | apply extends_bind; [|intros ? ?] ].

Lemma handleToolCall_extends (g : Globals) (fuel : nat) (body : JsVal) (w : World) :
  extends (client g) w (world_of (handleToolCall g fuel body w)).
Proof.
  unfold handleToolCall, listSpaces.
  repeat match goal with
         | |- context [if ?b then _ else _] => destruct b
         end;
    repeat extends_step.
Qed.

Lemma handleJsonRpc_extends (g : Globals) (fuel : nat) (body : JsVal) (w : World) :
  extends (client g) w (world_of (handleJsonRpc g fuel body w)).
Proof.
  unfold handleJsonRpc.
  repeat match goal with
         | |- context [if ?b then _ else _] => destruct b
         end;
    try apply extends_refl.
  apply extends_bind; [apply handleToolCall_extends|].
  intros a w1. apply extends_refl.
Qed.

Lemma parseJsonBody_extends (c : Client) (req : IncomingMessage) (w : World) :
  extends c w (world_of (parseJsonBody req w)).
Proof.
  unfold parseJsonBody. destruct (req_body req) as [m|data parsed];
    [apply extends_refl|].
  destruct (5000000 <? Js.length data)%N; [apply extends_refl|].
  destruct (data =? EmptyString)%string; [apply extends_refl|].
  destruct parsed; apply extends_refl.
Qed.

(** Every request the handler sends carries the credential of the client. *)
Lemma handler_extends (g : Globals) (fuel : nat) (req : IncomingMessage)
    (w : World) :
  extends (client g) w (world_of (handler g fuel req w)).
Proof.
  assert (Hrpc : extends (client g) w (world_of (jsonRpcExchange g fuel req w))).
  { unfold jsonRpcExchange. apply extends_try_catch.
    - apply extends_bind; [apply parseJsonBody_extends|].
      intros body w1. apply extends_bind; [apply handleJsonRpc_extends|].
      intros rpc w2. apply extends_refl.
    - intros e w1. apply extends_refl. }
  assert (Htool : extends (client g) w (world_of (toolCallExchange g fuel req w))).
  { unfold toolCallExchange. apply extends_try_catch.
    - apply extends_bind; [apply parseJsonBody_extends|].
      intros body w1. apply extends_bind; [apply handleToolCall_extends|].
      intros r w2. apply extends_refl.
    - intros e w1. apply extends_refl. }
  unfold handler.
  repeat match goal with
         | |- context [if ?b then _ else _] => destruct b
         end;
    first [exact Hrpc | exact Htool | apply extends_refl].
Qed.

(** What [login] leaves behind when it returns: one request without any
    credential, and a client that differs by its non-empty session token. *)
Lemma login_returns (c c' : Client) (email password token : string)
    (w w' : World) :
  login c email password w = Return (token, c') w' ->
  c' = {| baseUrl := baseUrl c; apiToken := apiToken c; authCookie := Some token |}
  /\ token <> EmptyString
  /\ network w' = network w
  /\ exists r, sent w' = (sent w ++ [r])%list
               /\ get (init r) "headers"
                  = JObj [("Content-Type", JStr "application/json")].
Proof.
  unfold login.
  destruct ((email =? EmptyString)%string || (password =? EmptyString)%string);
    [discriminate|].
  unfold resolve, bind.
  destruct (new_URL "/api/auth/login" (baseUrl c)) as [u|]; [|discriminate].
  unfold ret at 1. unfold fetch.
  destruct (network w (List.length (sent w))) as [r|m]; [|discriminate].
  match goal with
  | |- context [{| network := network w; sent := ?s |}] =>
      set (w1' := {| network := network w; sent := s |})
  end.
  assert (Hend :
    forall o : Outcome (string * Client),
      (forall t cl w2, o = Return (t, cl) w2 ->
         cl = {| baseUrl := baseUrl c; apiToken := apiToken c; authCookie := Some t |}
         /\ t <> EmptyString /\ w2 = w1') ->
      o = Return (token, c') w' ->
      c' = {| baseUrl := baseUrl c; apiToken := apiToken c; authCookie := Some token |}
      /\ token <> EmptyString
      /\ network w' = network w
      /\ exists r0, sent w' = (sent w ++ [r0])%list
                    /\ get (init r0) "headers"
                       = JObj [("Content-Type", JStr "application/json")]).
  { intros o Ho Heq. destruct (Ho _ _ _ Heq) as (Hc & Ht & Hw).
    subst w'. repeat split; try assumption.
    eexists. split; reflexivity. }
  apply Hend. intros t cl w2.
  destruct (includes _ "application/json").
  - destruct (json r); [|discriminate]. unfold ret.
    destruct (negb (ok r)); [discriminate|].
    destruct (find _ _) as [cookie|]; [|discriminate].
    destruct (cookie =? EmptyString)%string; [discriminate|].
    destruct (nth_error _ 1) as [tk|]; [|discriminate].
    destruct (tk =? EmptyString)%string eqn:E; [discriminate|].
    intros [= <- <- <-]. repeat split.
    intros ->. discriminate.
  - unfold ret.
    destruct (negb (ok r)); [discriminate|].
    destruct (find _ _) as [cookie|]; [|discriminate].
    destruct (cookie =? EmptyString)%string; [discriminate|].
    destruct (nth_error _ 1) as [tk|]; [|discriminate].
    destruct (tk =? EmptyString)%string eqn:E; [discriminate|].
    intros [= <- <- <-]. repeat split.
    intros ->. discriminate.
Qed.

Lemma present_true (s : option string) :
  present s = true -> exists t, s = Some t /\ t <> EmptyString.
Proof.
  destruct s as [t|]; simpl; [|discriminate].
  intros H. exists t. split; [reflexivity|]. intros ->. discriminate.
Qed.

(** What [bootstrap] leaves behind when it returns. *)
Lemma bootstrap_returns (env : Env) (w w0 : World) (g : Globals) :
  bootstrap env w = Return g w0 ->
  if present (DOCMOST_API_TOKEN env) then
    sent w0 = sent w
    /\ apiToken (client g) = DOCMOST_API_TOKEN env
    /\ authCookie (client g) = None
  else
    apiToken (client g) = None
    /\ present (authCookie (client g)) = true
    /\ exists r, sent w0 = (sent w ++ [r])%list
                 /\ get (init r) "headers"
                    = JObj [("Content-Type", JStr "application/json")].
Proof.
  unfold bootstrap, bind at 1, loadConfig.
  destruct (negb (present (DOCMOST_BASE_URL env))); [discriminate|].
  destruct (present (DOCMOST_API_TOKEN env)) eqn:Htok.
  - simpl. rewrite Htok. simpl. unfold bind.
    destruct (DOCMOST_EMAIL env) as [e|];
      [destruct (DOCMOST_PASSWORD env) as [p|];
       [destruct (present (Some e) && present (Some p))|]|];
      simpl; intros [= <- <-]; repeat split.
  - simpl.
    destruct (present (DOCMOST_EMAIL env) && present (DOCMOST_PASSWORD env))
      eqn:Hcred; [|discriminate].
    simpl. apply andb_prop in Hcred. destruct Hcred as [He Hp].
    destruct (present_true _ He) as (e & -> & _).
    destruct (present_true _ Hp) as (p & -> & _).
    simpl. unfold bind.
    destruct (login _ e p w) as [[t cl] w1|e1 w1|w1] eqn:Hlogin;
      try discriminate.
    simpl. intros [= <- <-]. simpl.
    destruct (login_returns _ _ _ _ _ _ _ Hlogin) as (-> & Ht & _ & Hr).
    simpl. repeat split; [|exact Hr].
    destruct (t =? EmptyString)%string eqn:E; [|reflexivity].
    apply String.eqb_eq in E. contradiction.
Qed.

(** C7.  Once [bootstrap] has returned, the credential is settled: with a
    static token configured, no login took place and every request carries
    the Bearer header and no cookie; without one, exactly one login request
    was sent, itself without credential, and every request carries the cookie
    of the derived session token and no Bearer header.  Every request the
    handler sends afterwards, for any inbound request, carries the headers the
    precedence gives for the client, which handling never changes. *)
Theorem outbound_credential_fixed_at_startup (env : Env) (w w0 : World)
    (g : Globals) :
  bootstrap env w = Return g w0 ->
  (if present (DOCMOST_API_TOKEN env) then
     sent w0 = sent w
     /\ authCookie (client g) = None
     /\ credential_headers (client g)
        = [("Content-Type", JStr "application/json");
           ("Authorization", JStr ("Bearer " ++ str (DOCMOST_API_TOKEN env)))]
   else
     (exists r, sent w0 = (sent w ++ [r])%list
                /\ get (init r) "headers"
                   = JObj [("Content-Type", JStr "application/json")])
     /\ exists token,
          authCookie (client g) = Some token
          /\ credential_headers (client g)
             = [("Content-Type", JStr "application/json");
                ("Cookie", JStr ("authToken=" ++ token))])
  /\
  forall (fuel : nat) (req : IncomingMessage) (w1 : World),
    exists new,
      sent (world_of (handler g fuel req w1)) = (sent w1 ++ new)%list
      /\ Forall (fun r => get (init r) "headers"
                          = JObj (credential_headers (client g))) new.
Proof.
  intros Hboot. split.
  - pose proof (bootstrap_returns env w w0 g Hboot) as H.
    destruct (present (DOCMOST_API_TOKEN env)) eqn:Htok.
    + destruct H as (Hs & Ha & Hc). split; [exact Hs|]. split; [exact Hc|].
      unfold credential_headers. rewrite Ha, Htok. reflexivity.
    + destruct H as (Ha & Hc & Hr). split; [exact Hr|].
      destruct (present_true _ Hc) as (t & Ht & _). exists t.
      split; [exact Ht|].
      unfold credential_headers. rewrite Ha. simpl. rewrite Hc, Ht. reflexivity.
  - intros fuel req w1.
    destruct (handler_extends g fuel req w1) as [_ [new [Hs Hf]]].
    exists new. split; [exact Hs|exact Hf].
Qed.

End Properties.

(* ================================================================== *)
(** * The claims on the scenarios                                     *)
(* ================================================================== *)

Import Scenario.

(** C1, amended, on an HTML page served as [text/html] and on one served as a
    JSON string, both with status 200; on the page announced as JSON, with
    status 200 and with status 500; on the page served as [text/html] with
    status 500 and on a JSON answer with status 404. *)
Lemma request_html_config_error_witness :
  (exists w',
     request (platform := node) with_token "/api/spaces" []
       (always html_200) = Throw HtmlInsteadOfJson w'
     /\ kind HtmlInsteadOfJson = Some ConfigError)
  /\
  (exists w',
     request (platform := node) with_token "/api/spaces" []
       (always html_in_json_string) = Throw HtmlInsteadOfJson w'
     /\ kind HtmlInsteadOfJson = Some ConfigError)
  /\
  (exists w',
     request (platform := node) with_token "/api/spaces" []
       (always (html_announced_as_json 200))
     = Throw (JsonSyntaxError "Unexpected token < in JSON at position 0") w'
     /\ kind (JsonSyntaxError "Unexpected token < in JSON at position 0") = None)
  /\
  (exists w',
     request (platform := node) with_token "/api/spaces" []
       (always (html_announced_as_json 500))
     = Throw (JsonSyntaxError "Unexpected token < in JSON at position 0") w'
     /\ kind (JsonSyntaxError "Unexpected token < in JSON at position 0") = None)
  /\
  (exists w',
     request (platform := node) with_token "/api/spaces" []
       (always html_500) = Throw (BackendStatus 500 html_page) w'
     /\ kind (BackendStatus 500 html_page) = Some BackendError)
  /\
  (exists w',
     request (platform := node) with_token "/api/spaces" []
       (always (json_404 (JObj [("message", JStr "Not Found")])))
     = Throw (BackendStatus 404
                (detail (JObj [("message", JStr "Not Found")]))) w'
     /\ kind (BackendStatus 404 (detail (JObj [("message", JStr "Not Found")])))
        = Some BackendError).
Proof.
  assert (Hin : 200 <= 200 <= 299) by lia.
  assert (H500 : ~ 200 <= 500 <= 299) by lia.
  assert (H404 : ~ 200 <= 404 <= 299) by lia.
  repeat split.
  - exact (proj1 (proj1 (request_html_config_error (platform := node) with_token
                           "/api/spaces" "https://docs.example.com/api/spaces" []
                           (always html_200) 200
                           (Some "text/html; charset=utf-8")
                           html_page (GetSetCookie []) eq_refl) Hin)
                 eq_refl (or_introl eq_refl) _ eq_refl).
  - exact (proj2 (proj1 (request_html_config_error (platform := node) with_token
                           "/api/spaces" "https://docs.example.com/api/spaces" []
                           (always html_in_json_string) 200
                           (Some "application/json")
                           html_page (GetSetCookie []) eq_refl) Hin)
                 eq_refl (JStr html_page) eq_refl eq_refl).
  - exact (proj1 (proj2 (request_html_config_error (platform := node) with_token
                           "/api/spaces" "https://docs.example.com/api/spaces" []
                           (always (html_announced_as_json 200)) 200
                           (Some "application/json")
                           html_page (GetSetCookie []) eq_refl))
                 eq_refl _ eq_refl).
  - exact (proj1 (proj2 (request_html_config_error (platform := node) with_token
                           "/api/spaces" "https://docs.example.com/api/spaces" []
                           (always (html_announced_as_json 500)) 500
                           (Some "application/json")
                           html_page (GetSetCookie []) eq_refl))
                 eq_refl _ eq_refl).
  - exact (proj1 (proj2 (proj2 (request_html_config_error (platform := node)
                                  with_token
                                  "/api/spaces"
                                  "https://docs.example.com/api/spaces" []
                                  (always html_500) 500
                                  (Some "text/html; charset=utf-8")
                                  html_page (GetSetCookie []) eq_refl)) H500)
                 eq_refl _ eq_refl).
  - exact (proj2 (proj2 (proj2 (request_html_config_error (platform := node)
                                  with_token
                                  "/api/spaces"
                                  "https://docs.example.com/api/spaces" []
                                  (always (json_404
                                             (JObj [("message", JStr "Not Found")])))
                                  404 (Some "application/json")
                                  EmptyString (GetSetCookie []) eq_refl)) H404)
                 eq_refl _ eq_refl).
Defined.

(** C1 as stated fails.  An HTML document served with status 500 makes
    [request] fail with the status error, of class [BackendError]; an HTML
    document announced as JSON is handed to [response.json()], whose syntax
    error is what [request] throws. *)
Lemma html_response_not_always_config_error :
  (exists w',
     request (platform := node) with_token "/api/spaces" [] (always html_500)
     = Throw (BackendStatus 500 html_page) w')
  /\ kind (BackendStatus 500 html_page) = Some BackendError
  /\ (exists w',
        request (platform := node) with_token "/api/spaces" []
          (always html_as_json)
        = Throw (JsonSyntaxError "Unexpected token < in JSON at position 0") w')
  /\ kind (JsonSyntaxError "Unexpected token < in JSON at position 0") = None.
Proof.
  split; [eexists; vm_compute; reflexivity|]. split; [reflexivity|].
  split; [eexists; vm_compute; reflexivity|reflexivity].
Qed.

Lemma endless_more :
  forall i, exists p,
    serves endless (List.length (sent endless) + i) p /\ has_next p = true.
Proof.
  intros i. exists first_page. split; [|reflexivity].
  exists (page_response true first_page). split; [reflexivity|].
  apply page_response_delivers.
Qed.

Lemma two_pages_served :
  forall i p, nth_error ([first_page] ++ [second_page]) i = Some p ->
    serves two_pages (List.length (sent two_pages) + i) p.
Proof.
  intros [|[|i]] p; simpl.
  - intros [= <-]. exists (page_response true first_page).
    split; [reflexivity|apply page_response_delivers].
  - intros [= <-]. exists (page_response false second_page).
    split; [reflexivity|apply page_response_delivers].
  - destruct i; discriminate.
Qed.

(** C3, amended, on the endless backend after five turns and on the backend
    of two pages. *)
Lemma listPages_ends_only_on_last_page_witness :
  (finished (listPages (platform := node) 5 with_token (JStr "s1") endless) = false
   /\ List.length
        (sent (world_of (listPages (platform := node) 5 with_token (JStr "s1") endless)))
      = 5%nat)
  /\ finished (listPages (platform := node) 2 with_token (JStr "s1") two_pages) = true.
Proof.
  split.
  - exact (proj1 (listPages_ends_only_on_last_page (platform := node) with_token
                    "https://docs.example.com/api/pages/sidebar-pages"
                    (JStr "s1") endless eq_refl eq_refl)
                 endless_more 5%nat).
  - exact (proj2 (listPages_ends_only_on_last_page (platform := node) with_token
                    "https://docs.example.com/api/pages/sidebar-pages"
                    (JStr "s1") two_pages eq_refl eq_refl)
                 [first_page] second_page
                 (Forall_cons first_page (eq_refl : has_next first_page = true) (Forall_nil _)) eq_refl
                 two_pages_served 2%nat).
Defined.

(** C3 as stated fails.  Against the backend that always announces one more
    page, no amount of fuel lets [listPages] return or throw. *)
Lemma listPages_endless_never_finishes :
  ~ exists fuel,
      finished (listPages (platform := node) fuel with_token (JStr "s1") endless)
      = true.
Proof.
  intros [fuel H].
  rewrite (listPages_more (platform := node) with_token
             "https://docs.example.com/api/pages/sidebar-pages"
             (JStr "s1") endless eq_refl eq_refl fuel
             (fun i _ => endless_more i)) in H.
  discriminate H.
Qed.

(** C4 on the example of the specification: the pages [a, b] and [c] give the
    items [a, b, c], in two requests. *)
Lemma listPages_accumulates_witness :
  exists w',
    listPages (platform := node) 2 with_token (JStr "s1") two_pages
    = Return (JObj [("items", JArr [JStr "a"; JStr "b"; JStr "c"]);
                    ("meta", JObj [("hasNextPage", JBool false)])]) w'
    /\ List.length (sent w') = 2%nat.
Proof.
  eexists. split.
  - exact (listPages_accumulates (platform := node) with_token
             "https://docs.example.com/api/pages/sidebar-pages" (JStr "s1")
             [first_page] second_page two_pages 2%nat eq_refl eq_refl
             (Forall_cons first_page (eq_refl : has_next first_page = true) (Forall_nil _)) eq_refl
             two_pages_served (le_n 2)).
  - reflexivity.
Defined.

(** C5 on a valid [create_page] call and on an [update_page] call whose
    parameters are [null]. *)
Lemma read_only_blocks_writes_witness :
  (handleToolCall (platform := node) read_only_globals 0
     (JObj (tool_call "create_page" valid_page)) (always html_200)
   = Throw ReadOnlyViolation (always html_200)
   /\ kind ReadOnlyViolation = Some PolicyError)
  /\
  (handleToolCall (platform := node) read_only_globals 0
     (JObj (tool_call "update_page" JNull)) (always html_200)
   = Throw ReadOnlyViolation (always html_200)
   /\ kind ReadOnlyViolation = Some PolicyError).
Proof.
  split.
  - exact (read_only_blocks_writes (platform := node) read_only_globals 0
             (JObj (tool_call "create_page" valid_page)) (always html_200)
             "create_page" eq_refl eq_refl (or_introl eq_refl)).
  - exact (read_only_blocks_writes (platform := node) read_only_globals 0
             (JObj (tool_call "update_page" JNull)) (always html_200)
             "update_page" eq_refl eq_refl (or_intror eq_refl)).
Defined.

(** C6, amended, on the unknown name [delete_page], on the name
    [{"toString": 1}] and on [update_page] in read-only mode. *)
Lemma unknown_tool_validation_error_witness :
  (handleToolCall (platform := node) writable_globals 0
     (JObj (tool_call "delete_page" valid_page)) (always html_200)
   = Throw (UnknownTool (JStr "delete_page")) (always html_200)
   /\ kind (UnknownTool (JStr "delete_page")) = Some ValidationError
   /\ message (UnknownTool (JStr "delete_page"))
      = "Herramienta desconocida: delete_page")
  /\
  (handleToolCall (platform := node) writable_globals 0
     (JObj [("tool", JObj [("toString", JNum 1)])]) (always html_200)
   = Throw NotPrimitive (always html_200)
   /\ kind NotPrimitive = None
   /\ message NotPrimitive = "Cannot convert object to primitive value")
  /\
  (handleToolCall (platform := node) read_only_globals 0
     (JObj (tool_call "update_page" valid_page)) (always html_200)
   = Throw ReadOnlyViolation (always html_200)
   /\ kind ReadOnlyViolation = Some PolicyError).
Proof.
  split; [|split].
  - exact (proj1 (proj1 (unknown_tool_validation_error (platform := node)
                           writable_globals 0
                           (JObj (tool_call "delete_page" valid_page))
                           (always html_200))
                        eq_refl eq_refl)
                 "delete_page" eq_refl).
  - exact (proj2 (proj1 (unknown_tool_validation_error (platform := node)
                           writable_globals 0
                           (JObj [("tool", JObj [("toString", JNum 1)])])
                           (always html_200))
                        eq_refl eq_refl)
                 eq_refl).
  - exact (proj2 (unknown_tool_validation_error (platform := node)
                    read_only_globals 0
                    (JObj (tool_call "update_page" valid_page)) (always html_200))
                 eq_refl "update_page" eq_refl (or_intror eq_refl)).
Defined.

(** C6 as stated fails.  Read-only mode, as [bootstrap] sets it up, takes
    [create_page] out of the advertised registry; a call of it then fails with
    the read-only error, of class [PolicyError], whose message does not name
    the tool. *)
Lemma excluded_tool_is_policy_error :
  bootstrap (platform := node) (env (Some "true")) (always html_200)
  = Return read_only_globals (always html_200)
  /\ advertised (tools read_only_globals) (JStr "create_page") = false
  /\ handleToolCall (platform := node) read_only_globals 0
       (JObj (tool_call "create_page" valid_page)) (always html_200)
     = Throw ReadOnlyViolation (always html_200)
  /\ kind ReadOnlyViolation = Some PolicyError
  /\ includes (message ReadOnlyViolation) "create_page" = false.
Proof. repeat split; vm_compute; reflexivity. Qed.

(** C8 without a title, without a [folderId], and with the [folderId] [f1]. *)
Lemma createPage_parentPageId_witness :
  (createPage (platform := node) with_token
     (JObj [("content", JStr "Hello"); ("spaceId", JStr "s1")]) (always html_200)
   = Throw CreateFieldsRequired (always html_200)
   /\ kind CreateFieldsRequired = Some ValidationError)
  /\
  sent (world_of (createPage (platform := node) with_token valid_page
                    (always html_200)))
  = [post_request with_token "https://docs.example.com/api/pages/create"
       (create_body (JStr "Notes") (JStr "Hello") (JStr "s1") JNull)]
  /\
  sent (world_of (createPage (platform := node) with_token
                    (JObj [("title", JStr "Notes"); ("content", JStr "Hello");
                           ("spaceId", JStr "s1"); ("folderId", JStr "f1")])
                    (always html_200)))
  = [post_request with_token "https://docs.example.com/api/pages/create"
       (create_body (JStr "Notes") (JStr "Hello") (JStr "s1") (JStr "f1"))].
Proof.
  split; [|split].
  - exact (proj1 (createPage_parentPageId (platform := node) with_token
                    (JObj [("content", JStr "Hello"); ("spaceId", JStr "s1")])
                    (always html_200))
                 eq_refl).
  - exact (proj2 (createPage_parentPageId (platform := node) with_token
                    valid_page (always html_200))
                 eq_refl "https://docs.example.com/api/pages/create" eq_refl).
  - exact (proj2 (createPage_parentPageId (platform := node) with_token
                    (JObj [("title", JStr "Notes"); ("content", JStr "Hello");
                           ("spaceId", JStr "s1"); ("folderId", JStr "f1")])
                    (always html_200))
                 eq_refl "https://docs.example.com/api/pages/create" eq_refl).
Defined.

(** C9 on a payload that has a [pageId] member and on one that has none. *)
Lemma updatePage_pageId_override_witness :
  (exists body,
     sent (world_of (updatePage (platform := node) with_token (JStr "p1")
                       (JObj [("title", JStr "New"); ("pageId", JStr "p2")])
                       (always html_200)))
     = [post_request with_token "https://docs.example.com/api/pages/update"
          (JObj body)]
     /\ lookup "pageId" body = Some (JStr "p2"))
  /\
  (exists body,
     sent (world_of (updatePage (platform := node) with_token (JStr "p1")
                       (JObj [("title", JStr "New")]) (always html_200)))
     = [post_request with_token "https://docs.example.com/api/pages/update"
          (JObj body)]
     /\ lookup "pageId" body = Some (JStr "p1")).
Proof.
  split.
  - destruct (updatePage_pageId_override (platform := node) with_token (JStr "p1")
                (JObj [("title", JStr "New"); ("pageId", JStr "p2")])
                (always html_200) "https://docs.example.com/api/pages/update"
                eq_refl eq_refl) as [body [Hsent [Hover _]]].
    exists body. split; [exact Hsent|].
    apply (Hover _ (JStr "p2") eq_refl); [|reflexivity].
    unfold distinct_keys. simpl.
    constructor; [|constructor; [|constructor]].
    + intros [H|[]]. discriminate H.
    + intros [].
  - destruct (updatePage_pageId_override (platform := node) with_token (JStr "p1")
                (JObj [("title", JStr "New")])
                (always html_200) "https://docs.example.com/api/pages/update"
                eq_refl eq_refl) as [body [Hsent [_ Hkeep]]].
    exists body. split; [exact Hsent|].
    apply Hkeep. reflexivity.
Defined.

(** C2, amended, on a [list_tools] request with id 1 and on an unknown
    method. *)
Lemma envelope_response_shape_witness :
  (exists body resp,
     parseJsonBody (post_json "/" list_tools) (always html_200)
     = Return body (always html_200)
     /\ JNum 1 = get (or body (JObj [])) "id"
     /\ handler (platform := node) writable_globals 0 (post_json "/" list_tools)
          (always html_200)
        = Return resp (always html_200)
     /\ carries resp (envelope_result (JNum 1) (JObj [("tools", JArr baseTools)])))
  /\
  (exists resp,
     handler (platform := node) writable_globals 0 (post_json "/mcp" unknown_method)
       (always html_200)
     = Return resp (always html_200)
     /\ carries resp
          (envelope_error JNull (-32600) (message (UnknownMethod (JStr "nope"))))).
Proof.
  split.
  - exact (envelope_response_shape (platform := node) writable_globals 0
             (post_json "/" list_tools) (always html_200) eq_refl).
  - exact (envelope_response_shape (platform := node) writable_globals 0
             (post_json "/mcp" unknown_method) (always html_200) eq_refl).
Defined.

(** C2 as stated fails.  The request carries the id 7 and names a method the
    gateway does not know; the response is the error envelope with a [null]
    id, and is not an error envelope with the id 7, whatever its code and
    message. *)
Lemma envelope_error_drops_id :
  exists resp,
    handler (platform := node) writable_globals 0 (post_json "/" unknown_method)
      (always html_200)
    = Return resp (always html_200)
    /\ get (JObj unknown_method) "id" = JNum 7
    /\ carries resp
         (envelope_error JNull (-32600) "Método JSON-RPC desconocido: nope")
    /\ forall code msg, ~ carries resp (envelope_error (JNum 7) code msg).
Proof.
  eexists. split; [vm_compute; reflexivity|].
  split; [reflexivity|]. split; [vm_compute; reflexivity|].
  intros code msg H. unfold carries in H.
  cbv -[decimal finite] in H.
  change (finite 7) with true in H. change (decimal 7) with "7" in H.
  cbv -[decimal finite] in H.
  discriminate H.
Qed.

(** C10 on a failed envelope call and on a failed direct call. *)
Lemma envelope_status_200_direct_failure_400_witness :
  (exists resp,
     handler (platform := node) writable_globals 0 (post_json "/m" unknown_method)
       (always html_200)
     = Return resp (always html_200)
     /\ statusCode resp = 200)
  /\
  (exists resp,
     handler (platform := node) writable_globals 0
       (post_json "/mcp/tool-call" (tool_call "delete_page" valid_page))
       (always html_200)
     = Return resp (always html_200)
     /\ statusCode resp = 400
     /\ carries resp
          (JObj [("error", JStr (message (UnknownTool (JStr "delete_page"))))])).
Proof.
  split.
  - exact (proj1 (envelope_status_200_direct_failure_400 (platform := node)
                    writable_globals 0 (post_json "/m" unknown_method)
                    (always html_200))
                 eq_refl).
  - exact (proj2 (envelope_status_200_direct_failure_400 (platform := node)
                    writable_globals 0
                    (post_json "/mcp/tool-call" (tool_call "delete_page" valid_page))
                    (always html_200))
                 eq_refl eq_refl).
Defined.

Lemma bootstrap_with_token :
  bootstrap (platform := node) (env None) (always html_200)
  = Return writable_globals (always html_200).
Proof. vm_compute. reflexivity. Qed.

Lemma bootstrap_with_login :
  bootstrap (platform := node) env_login (always login_response)
  = Return login_globals
      (world_of (bootstrap (platform := node) env_login (always login_response))).
Proof. vm_compute. reflexivity. Qed.

(** C7 on a configuration with a static token and on one with an email and a
    password. *)
Lemma outbound_credential_fixed_at_startup_witness :
  ((sent (always html_200) = sent (always html_200)
    /\ authCookie (client writable_globals) = None
    /\ credential_headers (client writable_globals)
       = [("Content-Type", JStr "application/json");
          ("Authorization", JStr "Bearer secret")])
   /\
   forall (fuel : nat) (req : IncomingMessage) (w1 : World),
     exists new,
       sent (world_of (handler (platform := node) writable_globals fuel req w1))
       = (sent w1 ++ new)%list
       /\ Forall (fun r => get (init r) "headers"
                           = JObj (credential_headers (client writable_globals))) new)
  /\
  ((exists r,
      sent (world_of (bootstrap (platform := node) env_login (always login_response)))
      = (sent (always login_response) ++ [r])%list
      /\ get (init r) "headers" = JObj [("Content-Type", JStr "application/json")])
   /\ exists token,
        authCookie (client login_globals) = Some token
        /\ credential_headers (client login_globals)
           = [("Content-Type", JStr "application/json");
              ("Cookie", JStr ("authToken=" ++ token))]).
Proof.
  split.
  - exact (outbound_credential_fixed_at_startup (platform := node) (env None)
             (always html_200) (always html_200) writable_globals
             bootstrap_with_token).
  - exact (proj1 (outbound_credential_fixed_at_startup (platform := node) env_login
                    (always login_response) _ login_globals
                    bootstrap_with_login)).
Defined.

(* ================================================================== *)
(** * Further properties of the code                                  *)
(* ================================================================== *)

Section Coverage.
Context {platform : Platform}.

Lemma unwrap_test (v : JsVal) :
  truthy v && typeof_object v && hasOwn v "data" = hasOwn v "data".
Proof. destruct v; simpl; rewrite ?andb_false_r; reflexivity. Qed.

Lemma reading_ok (r : Response) (v : JsVal) :
  body_read r v ->
  reading r =
    if negb (ok r) then Raise (BackendStatus (status r) (detail v))
    else if html_signal (content_type_of r) v then Raise HtmlInsteadOfJson
    else if hasOwn v "data" then Ok (get v "data")
    else Ok v.
Proof.
  unfold body_read, reading, content_type_of, detail.
  destruct (includes _ "application/json").
  - intros ->. rewrite unwrap_test. reflexivity.
  - intros ->. rewrite unwrap_test. reflexivity.
Qed.

(** The body of a response is read or cannot be read. *)
Lemma body_read_or_unreadable (r : Response) :
  (exists v, body_read r v) \/ (exists m, body_unreadable r m).
Proof.
  unfold body_read, body_unreadable.
  destruct (includes (content_type_of r) "application/json").
  - destruct (json r) as [v|m].
    + left. exists v. reflexivity.
    + right. exists m. split; reflexivity.
  - left. exists (JStr (text r)). reflexivity.
Qed.

Lemma reading_unreadable (r : Response) (m : string) :
  body_unreadable r m -> reading r = Raise (JsonSyntaxError m).
Proof.
  unfold body_unreadable, reading, content_type_of. intros [-> ->]. reflexivity.
Qed.

(** X1.  A response with a success status whose body is read, as text or as
    JSON that parses, and does not signal HTML gives [request] its result: the
    [data] member of the body when the body is an object that has one (be it
    [null]), the whole body otherwise, a text body included.  A body that
    cannot be read, announced as JSON and not parsing, makes [request] throw
    the parser's error instead.  Every body is of one kind or the other, and
    one request was sent. *)
Theorem request_unwraps_data (c : Client) (path u : string)
    (options : list (string * JsVal)) (w : World) (r : Response) :
  new_URL path (baseUrl c) = Some u ->
  network w (List.length (sent w)) = Responded r ->
  ok r = true ->
  exists req,
    (forall v, body_read r v ->
       html_signal (content_type_of r) v = false ->
       request c path options w
       = Return (if hasOwn v "data" then get v "data" else v) (sending w req))
    /\
    (forall m, body_unreadable r m ->
       request c path options w = Throw (JsonSyntaxError m) (sending w req))
    /\
    ((exists v, body_read r v) \/ (exists m, body_unreadable r m)).
Proof.
  intros Hu Hnet Hok.
  destruct (request_run c path u options w Hu) as [req Hreq].
  exists req. split; [|split].
  - intros v Hread Hhtml.
    rewrite Hreq, Hnet, (reading_ok r v Hread), Hok, Hhtml. simpl.
    destruct (hasOwn v "data"); reflexivity.
  - intros m Hm. rewrite Hreq, Hnet, (reading_unreadable r m Hm). reflexivity.
  - apply body_read_or_unreadable.
Qed.

(** X2.  A response with a failure status whose body is read makes [request]
    fail with the status error, of class [BackendError], which quotes the
    status and the body: the text as it is, a JSON value in its JSON text.  The
    body is not looked at any further: no HTML test, no unwrapping.  A body
    that cannot be read makes [request] throw the parser's error, which has no
    class, before the status is looked at.  Every body is of one kind or the
    other, and one request was sent. *)
Theorem request_failure_status (c : Client) (path u : string)
    (options : list (string * JsVal)) (w : World) (r : Response) :
  new_URL path (baseUrl c) = Some u ->
  network w (List.length (sent w)) = Responded r ->
  ok r = false ->
  exists req,
    (forall v, body_read r v ->
       request c path options w
       = Throw (BackendStatus (status r) (detail v)) (sending w req)
       /\ kind (BackendStatus (status r) (detail v)) = Some BackendError
       /\ message (BackendStatus (status r) (detail v))
          = "Docmost devolvió " ++ decimal (status r) ++ ": " ++ detail v)
    /\
    (forall m, body_unreadable r m ->
       request c path options w = Throw (JsonSyntaxError m) (sending w req)
       /\ kind (JsonSyntaxError m) = None)
    /\
    ((exists v, body_read r v) \/ (exists m, body_unreadable r m)).
Proof.
  intros Hu Hnet Hok.
  destruct (request_run c path u options w Hu) as [req Hreq].
  exists req. split; [|split].
  - intros v Hread. split; [|split; reflexivity].
    rewrite Hreq, Hnet, (reading_ok r v Hread), Hok. reflexivity.
  - intros m Hm. split; [|reflexivity].
    rewrite Hreq, Hnet, (reading_unreadable r m Hm). reflexivity.
  - apply body_read_or_unreadable.
Qed.


(** ** The dispatcher *)


(** X4.  What the single-call tools send.  [list_spaces] posts
    [{ page: 1, limit: 50 }] to [/api/spaces] whatever its parameters, even
    [null]; [get_page] posts [{ pageId }] to [/api/pages/info] and
    [search_pages] posts [{ query }] to [/api/search], each exactly once, with
    the credential of the client. *)
Theorem single_call_requests (g : Globals) (fuel : nat) (body : JsVal)
    (w : World) (u : string) :
  (field body "tool" = JStr "list_spaces" ->
   new_URL "/api/spaces" (baseUrl (client g)) = Some u ->
   sent (world_of (handleToolCall g fuel body w))
   = (sent w ++ [post_request (client g) u
                   (JObj [("page", JNum 1); ("limit", JNum 50)])])%list)
  /\
  (field body "tool" = JStr "get_page" ->
   absent (get (params_of body) "pageId") = false ->
   new_URL "/api/pages/info" (baseUrl (client g)) = Some u ->
   sent (world_of (handleToolCall g fuel body w))
   = (sent w ++ [post_request (client g) u
                   (JObj [("pageId", get (params_of body) "pageId")])])%list)
  /\
  (field body "tool" = JStr "search_pages" ->
   absent (get (params_of body) "query") = false ->
   new_URL "/api/search" (baseUrl (client g)) = Some u ->
   sent (world_of (handleToolCall g fuel body w))
   = (sent w ++ [post_request (client g) u
                   (JObj [("query", get (params_of body) "query")])])%list).
Proof.
  unfold params_of, field, absent. repeat split.
  - intros Ht Hu. unfold handleToolCall, listSpaces. rewrite Ht. simpl.
    rewrite andb_false_r. apply sent_post; exact Hu.
  - intros Ht Ha Hu.
    assert (Hp : nullish (match get (or body (JObj [])) "params" with
                          | JUndefined => JObj []
                          | p => p
                          end) = false).
    { destruct (match get (or body (JObj [])) "params" with
                | JUndefined => JObj []
                | p => p
                end); try reflexivity; discriminate Ha. }
    unfold handleToolCall, member, getPage. rewrite Ht, Hp. simpl.
    rewrite andb_false_r. simpl. unfold bind. simpl. rewrite Ha.
    apply sent_post; exact Hu.
  - intros Ht Ha Hu.
    assert (Hp : nullish (match get (or body (JObj [])) "params" with
                          | JUndefined => JObj []
                          | p => p
                          end) = false).
    { destruct (match get (or body (JObj [])) "params" with
                | JUndefined => JObj []
                | p => p
                end); try reflexivity; discriminate Ha. }
    unfold handleToolCall, member, searchPages. rewrite Ht, Hp. simpl.
    rewrite andb_false_r. simpl. unfold bind. simpl. rewrite Ha.
    apply sent_post; exact Hu.
Qed.

Lemma at_most_one_same {A} (w : World) (o : Outcome A) :
  world_of o = w -> at_most_one_request w o.
Proof.
  intros H. exists []. rewrite H. split; [symmetry; apply app_nil_r|simpl; lia].
Qed.

Lemma post_at_most_one (c : Client) (path : string) (body : JsVal) (w : World) :
  at_most_one_request w (post c path body w).
Proof.
  destruct (new_URL path (baseUrl c)) as [u|] eqn:Hu.
  - exists [post_request c u body]. split; [apply sent_post; exact Hu|simpl; lia].
  - rewrite (post_invalid_url c path body w Hu). apply at_most_one_same. reflexivity.
Qed.

Lemma at_most_one_after_lift {A B} (r : Result A) (k : A -> M B) (w : World) :
  (forall a, at_most_one_request w (k a w)) ->
  at_most_one_request w (bind (lift r) k w).
Proof.
  intros Hk. destruct r as [a|e]; simpl.
  - apply Hk.
  - apply at_most_one_same. reflexivity.
Qed.

Ltac one_request :=
  first
    [ apply post_at_most_one
    | apply at_most_one_same; reflexivity
    | apply at_most_one_after_lift; intros ?
    | match goal with
      | |- context [if ?b then _ else _] => destruct b
      end ].

(** X5.  No tool but [list_pages] ever sends more than one request: a call is
    one round trip at most, and a failure of the backend is not retried. *)
Theorem no_retry (g : Globals) (fuel : nat) (body : JsVal) (w : World) :
  is_str (field body "tool") "list_pages" = false ->
  at_most_one_request w (handleToolCall g fuel body w).
Proof.
  unfold field. intros Hlist.
  unfold handleToolCall, listSpaces, getPage, searchPages, createPage, updatePage.
  rewrite Hlist.
  repeat match goal with
         | |- context [if ?b then _ else _] => destruct b
         end;
    repeat one_request.
Qed.


(** ** The registry and the dispatcher *)

Lemma bootstrap_tools (env : Env) (w0 w1 : World) (g : Globals) :
  bootstrap env w0 = Return g w1 ->
  tools g = if readOnly (appConfig g) then firstn 4 baseTools else baseTools.
Proof.
  unfold bootstrap, bind at 1.
  destruct (loadConfig env) as [cfg|e]; [|discriminate].
  simpl. unfold bind.
  match goal with
  | |- context [match ?m w0 with _ => _ end] => destruct (m w0) as [c w2|e w2|w2]
  end; try discriminate.
  intros [= <- _]. simpl. destruct (readOnly cfg); reflexivity.
Qed.

Lemma advertised_base (s : string) :
  advertised baseTools (JStr s)
  = (("list_spaces" =? s) || (("list_pages" =? s) || (("get_page" =? s)
     || (("search_pages" =? s) || (("create_page" =? s)
     || (("update_page" =? s) || false))))))%string.
Proof. reflexivity. Qed.

Lemma advertised_read_only (s : string) :
  advertised (firstn 4 baseTools) (JStr s)
  = (("list_spaces" =? s) || (("list_pages" =? s) || (("get_page" =? s)
     || (("search_pages" =? s) || false))))%string.
Proof. reflexivity. Qed.

Lemma no_refusal_post (c : Client) (path : string) (body : JsVal) :
  no_refusal (post c path body).
Proof.
  intros w e w'. destruct (new_URL path (baseUrl c)) as [u|] eqn:Hu.
  - rewrite (post_run c path u body w Hu).
    destruct (network w (List.length (sent w))) as [r|m];
      [|intros [= <- _]; reflexivity].
    destruct (reading r) as [v|e0] eqn:Hr; [discriminate|].
    intros [= <- _]. revert Hr. unfold reading.
    destruct (includes _ "application/json").
    + destruct (json r); [|intros [= <-]; reflexivity].
      destruct (negb (ok r)); [intros [= <-]; reflexivity|].
      destruct (html_signal _ _); [intros [= <-]; reflexivity|].
      destruct (_ && _); discriminate.
    + destruct (negb (ok r)); [intros [= <-]; reflexivity|].
      destruct (html_signal _ _); [intros [= <-]; reflexivity|].
      destruct (_ && _); discriminate.
  - rewrite (post_invalid_url c path body w Hu). intros [= <- _]. reflexivity.
Qed.

Lemma no_refusal_bind {A B} (m : M A) (k : A -> M B) :
  no_refusal m -> (forall a, no_refusal (k a)) -> no_refusal (bind m k).
Proof.
  intros Hm Hk w e w'. unfold bind.
  destruct (m w) as [a w1|e1 w1|w1] eqn:Hmw.
  - apply Hk.
  - intros [= <- _]. exact (Hm w e1 w1 Hmw).
  - discriminate.
Qed.

Lemma no_refusal_member (v : JsVal) (k : string) : no_refusal (lift (member v k)).
Proof.
  intros w e w'. unfold member. destruct (nullish v); simpl.
  - intros [= <- _]. reflexivity.
  - discriminate.
Qed.

Lemma no_refusal_throw {A} (e : Thrown) :
  refusal e = false -> no_refusal (@throw A e).
Proof. intros He w e' w'. intros [= <- _]. exact He. Qed.

Lemma no_refusal_ret {A} (a : A) : no_refusal (ret a).
Proof. intros w e w'. discriminate. Qed.

Lemma no_refusal_loop (c : Client) (spaceId : JsVal) (fuel : nat) :
  forall st, no_refusal (listPages_loop fuel c spaceId st).
Proof.
  induction fuel as [|fuel IH]; intros st; simpl.
  - destruct (hasNext st); [intros w e w'; discriminate|apply no_refusal_ret].
  - destruct (hasNext st); [|apply no_refusal_ret].
    apply no_refusal_bind; [apply no_refusal_post|]. intros result.
    apply no_refusal_bind.
    + destruct (iterate _);
        [apply no_refusal_ret|apply no_refusal_throw; reflexivity].
    + intros pageItems. apply IH.
Qed.

Ltac no_refusal_step :=
  first
    [ apply no_refusal_post
    | apply no_refusal_member
    | apply no_refusal_ret
    | apply no_refusal_throw; reflexivity
    | apply no_refusal_loop
    | apply no_refusal_bind; [|intros ?]
    | match goal with
      | |- context [if ?b then _ else _] => destruct b
      end ].

(** X7.  After [bootstrap], the advertised registry and the dispatcher agree.
    A call of a tool that is not advertised (no name, an unknown name, a
    mutating tool in read-only mode) is turned down on its name alone, with
    nothing sent to the backend; a call of an advertised tool is never turned
    down on its name, in either mode. *)
Theorem registry_matches_dispatcher (env : Env) (w0 w1 : World) (g : Globals) :
  bootstrap env w0 = Return g w1 ->
  forall (fuel : nat) (body : JsVal) (w : World),
    (advertised (tools g) (field body "tool") = false ->
     exists e, handleToolCall g fuel body w = Throw e w /\ refusal e = true)
    /\
    (advertised (tools g) (field body "tool") = true ->
     forall e w', handleToolCall g fuel body w = Throw e w' -> refusal e = false).
Proof.
  intros Hboot fuel body w. unfold field.
  rewrite (bootstrap_tools env w0 w1 g Hboot).
  set (tool := get (or body (JObj [])) "tool").
  destruct (readOnly (appConfig g)) eqn:Hro.
  - (* read-only *)
    split.
    + intros Hadv. destruct (truthy tool) eqn:Ht.
      * destruct (advertised baseTools tool) eqn:Hbase.
        -- exists ReadOnlyViolation. split; [|reflexivity].
           destruct tool as [| |b|z|s|l|m] eqn:Etool; try discriminate Hbase.
           unfold tool in Etool.
           rewrite advertised_read_only in Hadv.
           rewrite advertised_base in Hbase.
           repeat (apply orb_false_elim in Hadv; destruct Hadv as [? Hadv]).
           repeat match goal with
                  | H : (_ =? s)%string = false |- _ =>
                      rewrite H in Hbase; clear H
                  end.
           rewrite !orb_false_l, orb_false_r in Hbase.
           apply (read_only_refusal g fuel body w s Hro Etool).
           apply orb_prop in Hbase. destruct Hbase as [H|H];
             apply String.eqb_eq in H; [left|right]; symmetry; exact H.
        -- eexists. split; [exact (unknown_tool_refusal g fuel body w Ht Hbase)|].
           destruct (ToString _); reflexivity.
      * exists MissingTool. split; [|reflexivity].
        unfold handleToolCall. fold tool. rewrite Ht. reflexivity.
    + intros Hadv.
      destruct tool as [| |b|z|s|l|m] eqn:Etool; try discriminate Hadv.
      unfold tool in Etool.
      rewrite advertised_read_only, orb_false_r in Hadv.
      unfold handleToolCall, listSpaces, listPages, getPage, searchPages.
      rewrite Etool, Hro.
      repeat (apply orb_prop in Hadv; destruct Hadv as [Hadv|Hadv]);
        apply String.eqb_eq in Hadv; subst s; simpl;
        match goal with
        | |- forall e w', ?m w = Throw e w' -> _ =>
            assert (Hm : no_refusal m) by (repeat no_refusal_step);
            intros e w'; apply Hm
        end.
  - (* all six tools are advertised *)
    split.
    + intros Hadv. destruct (truthy tool) eqn:Ht.
      * eexists. split; [exact (unknown_tool_refusal g fuel body w Ht Hadv)|].
        destruct (ToString _); reflexivity.
      * exists MissingTool. split; [|reflexivity].
        unfold handleToolCall. fold tool. rewrite Ht. reflexivity.
    + intros Hadv.
      destruct tool as [| |b|z|s|l|m] eqn:Etool; try discriminate Hadv.
      unfold tool in Etool.
      rewrite advertised_base, orb_false_r in Hadv.
      unfold handleToolCall, listSpaces, listPages, getPage, searchPages,
        createPage, updatePage.
      rewrite Etool, Hro.
      repeat (apply orb_prop in Hadv; destruct Hadv as [Hadv|Hadv]);
        apply String.eqb_eq in Hadv; subst s; simpl;
        match goal with
        | |- forall e w', ?m w = Throw e w' -> _ =>
            assert (Hm : no_refusal m) by (repeat no_refusal_step);
            intros e w'; apply Hm
        end.
Qed.

(** ** More on the pagination loop *)

Lemma loop_turn_failure (fuel : nat) (c : Client) (u : string) (spaceId : JsVal)
    (st : Pagination) (w : World) (e : Thrown) :
  new_URL "/api/pages/sidebar-pages" (baseUrl c) = Some u ->
  hasNext st = true ->
  fails_with w (List.length (sent w)) e ->
  listPages_loop (S fuel) c spaceId st w
  = Throw e
      (sending w
         (post_request c u (JObj [("spaceId", spaceId); ("page", JNum (page st))]))).
Proof.
  intros Hu Hn Hfail. simpl. rewrite Hn. unfold bind at 1.
  rewrite (post_run c _ u _ w Hu).
  destruct Hfail as [(m & Hnet & ->)|(r & Hnet & Hread)]; rewrite Hnet.
  - reflexivity.
  - rewrite Hread. reflexivity.
Qed.

Lemma loop_failure (c : Client) (u : string) (spaceId : JsVal) (e : Thrown) :
  new_URL "/api/pages/sidebar-pages" (baseUrl c) = Some u ->
  forall (pages : list BackendPage) (fuel : nat) (st : Pagination) (w : World),
    hasNext st = true ->
    Forall (fun p => has_next p = true) pages ->
    (forall i p, nth_error pages i = Some p ->
                 serves w (List.length (sent w) + i) p) ->
    fails_with w (List.length (sent w) + List.length pages) e ->
    (List.length pages < fuel)%nat ->
    listPages_loop fuel c spaceId st w
    = Throw e {| network := network w;
                 sent := sent w ++ page_requests c u spaceId (page st)
                                     (S (List.length pages)) |}.
Proof.
  intros Hu pages. induction pages as [|p pages IH];
    intros fuel st w Hn Hall Hnet Hfail Hfuel.
  - destruct fuel as [|fuel]; [simpl in Hfuel; lia|].
    simpl in Hfail. rewrite Nat.add_0_r in Hfail.
    rewrite (loop_turn_failure fuel c u spaceId st w e Hu Hn Hfail).
    reflexivity.
  - destruct fuel as [|fuel]; [simpl in Hfuel; lia|].
    inversion Hall as [|? ? Hp Hall']; subst.
    rewrite (loop_turn fuel c u spaceId st w p Hu Hn).
    2:{ specialize (Hnet O p eq_refl). rewrite Nat.add_0_r in Hnet. exact Hnet. }
    rewrite (IH fuel); simpl; try assumption.
    + f_equal. f_equal. rewrite <- app_assoc. reflexivity.
    + intros i q Hq. rewrite length_app. simpl.
      replace (List.length (sent w) + 1 + i)%nat
        with (List.length (sent w) + S i)%nat by lia.
      apply Hnet. exact Hq.
    + rewrite length_app. simpl. simpl in Hfail.
      replace (List.length (sent w) + 1 + List.length pages)%nat
        with (List.length (sent w) + S (List.length pages))%nat by lia.
      exact Hfail.
    + simpl in Hfuel. lia.
Qed.

(** X8.  When a request of the pagination fails, after any number of pages
    that each announced a next one, [listPages] throws that failure: the items
    gathered so far are dropped, and no request follows the failed one. *)
Theorem listPages_failure_propagates (c : Client) (u : string) (spaceId : JsVal)
    (pages : list BackendPage) (e : Thrown) (w : World) (fuel : nat) :
  truthy spaceId = true ->
  new_URL "/api/pages/sidebar-pages" (baseUrl c) = Some u ->
  Forall (fun p => has_next p = true) pages ->
  (forall i p, nth_error pages i = Some p ->
               serves w (List.length (sent w) + i) p) ->
  fails_with w (List.length (sent w) + List.length pages) e ->
  (List.length pages < fuel)%nat ->
  listPages fuel c spaceId w
  = Throw e {| network := network w;
               sent := sent w ++ page_requests c u spaceId 1
                                   (S (List.length pages)) |}.
Proof.
  intros Hs Hu Hall Hnet Hfail Hfuel. unfold listPages. rewrite Hs. simpl.
  unfold bind.
  rewrite (loop_failure c u spaceId e Hu pages fuel
             {| items := []; page := 1; hasNext := true; lastMeta := JNull |}
             w eq_refl Hall Hnet Hfail Hfuel).
  reflexivity.
Qed.

(** X9.  A first answer that has neither [items] nor [meta] (a [null], a text,
    a number, an array, an object without them) ends the pagination at once:
    [listPages] returns an empty listing with a [null] meta, after one
    request, and raises no error. *)
Theorem listPages_shapeless_answer (c : Client) (u : string) (spaceId : JsVal)
    (w : World) (r : Response) (v : JsVal) (fuel : nat) :
  truthy spaceId = true ->
  new_URL "/api/pages/sidebar-pages" (baseUrl c) = Some u ->
  network w (List.length (sent w)) = Responded r ->
  reading r = Ok v ->
  absent (get v "items") = true ->
  absent (get v "meta") = true ->
  listPages (S fuel) c spaceId w
  = Return (JObj [("items", JArr []); ("meta", JNull)])
      (sending w (post_request c u (JObj [("spaceId", spaceId); ("page", JNum 1)]))).
Proof.
  unfold absent. intros Hs Hu Hnet Hread Hi Hm.
  apply negb_true_iff in Hi. apply negb_true_iff in Hm.
  unfold listPages. rewrite Hs. simpl. unfold bind at 1. unfold bind at 1.
  rewrite (post_run c _ u _ w Hu), Hnet, Hread.
  unfold bind, or. rewrite Hi, Hm. simpl.
  destruct fuel; reflexivity.
Qed.

(** X10.  An answer whose [items] is given and is neither an array nor a
    string (an object, a number, [true]) makes [listPages] fail with the type
    error of the runtime for a value that cannot be spread. *)
Theorem listPages_items_not_iterable (c : Client) (u : string) (spaceId : JsVal)
    (w : World) (r : Response) (v : JsVal) (fuel : nat) :
  truthy spaceId = true ->
  new_URL "/api/pages/sidebar-pages" (baseUrl c) = Some u ->
  network w (List.length (sent w)) = Responded r ->
  reading r = Ok v ->
  truthy (get v "items") = true ->
  iterate (get v "items") = None ->
  listPages (S fuel) c spaceId w
  = Throw NotIterable
      (sending w (post_request c u (JObj [("spaceId", spaceId); ("page", JNum 1)]))).
Proof.
  intros Hs Hu Hnet Hread Hi Hit.
  unfold listPages. rewrite Hs. simpl. unfold bind at 1. unfold bind at 1.
  rewrite (post_run c _ u _ w Hu), Hnet, Hread.
  unfold bind, or. rewrite Hi, Hit. reflexivity.
Qed.

(** ** More on [updatePage] *)

(** X11.  [updatePage] merges the payload into the body: every member of an
    object payload is a member of the body with the same value, and the body
    has no other member than those and [pageId]. *)
Theorem updatePage_merges_payload (c : Client) (pageId : JsVal)
    (m : list (string * JsVal)) (w : World) (u : string) :
  truthy pageId = true ->
  new_URL "/api/pages/update" (baseUrl c) = Some u ->
  distinct_keys m ->
  exists body,
    sent (world_of (updatePage c pageId (JObj m) w))
    = (sent w ++ [post_request c u (JObj body)])%list
    /\ (forall k v, lookup k m = Some v -> lookup k body = Some v)
    /\ (forall k, lookup k m = None ->
                  lookup k body
                  = if (k =? "pageId")%string then Some pageId else None).
Proof.
  intros Hp Hu Hd.
  exists (spread [("pageId", pageId)] (JObj m)).
  split; [|split].
  - unfold updatePage. rewrite Hp. simpl. apply sent_post; exact Hu.
  - intros k v Hl. unfold spread. simpl.
    apply lookup_fold_set_present; assumption.
  - intros k Hl. unfold spread. simpl.
    rewrite lookup_fold_set_absent by exact Hl. reflexivity.
Qed.

(** ** [login] *)

Lemma split_head (c : ascii) (s : string) :
  exists t, split c s = until c s :: t.
Proof.
  induction s as [|a r [t IH]]; simpl.
  - exists []. reflexivity.
  - destruct (Ascii.eqb a c).
    + eexists. reflexivity.
    + rewrite IH. eexists. reflexivity.
Qed.

Lemma token_segment (v : string) :
  nth_error (split "=" (hd EmptyString (split ";" ("authToken=" ++ v)))) 1
  = Some (until "=" (until ";" v)).
Proof.
  destruct (split_head ";" ("authToken=" ++ v)) as [t Ht]. rewrite Ht.
  simpl hd. simpl until.
  destruct (split_head "=" (until ";" v)) as [t' Ht'].
  simpl. rewrite Ht'. reflexivity.
Qed.

Lemma login_run (c : Client) (email password u : string) (w : World)
    (r : Response) (b : JsVal) :
  email <> EmptyString -> password <> EmptyString ->
  new_URL "/api/auth/login" (baseUrl c) = Some u ->
  network w (List.length (sent w)) = Responded r ->
  body_read r b ->
  login c email password w
  = (if negb (ok r) then throw (LoginStatus (status r) (detail b))
     else match find (fun cookie => startsWith cookie "authToken=") (cookies_of r) with
          | None => throw AuthCookieMissing
          | Some authCookie =>
              if (authCookie =? EmptyString)%string then throw AuthCookieMissing
              else match nth_error
                           (split "=" (hd EmptyString (split ";" authCookie))) 1 with
                   | Some token =>
                       if (token =? EmptyString)%string then throw AuthTokenEmpty
                       else ret (token,
                                 {| baseUrl := baseUrl c;
                                    apiToken := apiToken c;
                                    authCookie := Some token |})
                   | None => throw AuthTokenEmpty
                   end
          end)
      (sending w (login_request u email password)).
Proof.
  intros He Hp Hu Hnet Hread. unfold login.
  apply String.eqb_neq in He. apply String.eqb_neq in Hp. rewrite He, Hp. simpl.
  unfold resolve, bind. rewrite Hu. unfold ret at 1. unfold fetch. rewrite Hnet.
  fold (login_request u email password).
  fold (sending w (login_request u email password)).
  unfold body_read, content_type_of in Hread. fold (cookies_of r).
  destruct (includes _ "application/json").
  - rewrite Hread. reflexivity.
  - rewrite Hread. reflexivity.
Qed.

(** X12.  From the first cookie that starts with [authToken=], [login] takes
    what stands between that prefix and the next semicolon or equals sign: a
    value that holds an equals sign is cut there.  A non-empty token is
    returned and stored in the client; an empty one is the token error.  The
    one request sent carries no credential. *)
Theorem login_token_segment (c : Client) (email password u : string) (w : World)
    (r : Response) (b : JsVal) (v : string) :
  email <> EmptyString -> password <> EmptyString ->
  new_URL "/api/auth/login" (baseUrl c) = Some u ->
  network w (List.length (sent w)) = Responded r ->
  body_read r b ->
  ok r = true ->
  find (fun cookie => startsWith cookie "authToken=") (cookies_of r)
  = Some ("authToken=" ++ v) ->
  login c email password w
  = if (until "=" (until ";" v) =? EmptyString)%string
    then Throw AuthTokenEmpty (sending w (login_request u email password))
    else Return (until "=" (until ";" v),
                 {| baseUrl := baseUrl c;
                    apiToken := apiToken c;
                    authCookie := Some (until "=" (until ";" v)) |})
           (sending w (login_request u email password)).
Proof.
  intros He Hp Hu Hnet Hread Hok Hfind.
  rewrite (login_run c email password u w r b He Hp Hu Hnet Hread).
  rewrite Hok, Hfind. simpl negb. cbv iota.
  replace (("authToken=" ++ v =? EmptyString)%string) with false by reflexivity.
  rewrite token_segment.
  destruct (until "=" (until ";" v) =? EmptyString)%string; reflexivity.
Qed.

(** [login] on an answer whose body cannot be read. *)
Lemma login_unreadable (c : Client) (email password u : string) (w : World)
    (r : Response) (m : string) :
  email <> EmptyString -> password <> EmptyString ->
  new_URL "/api/auth/login" (baseUrl c) = Some u ->
  network w (List.length (sent w)) = Responded r ->
  body_unreadable r m ->
  login c email password w
  = Throw (JsonSyntaxError m) (sending w (login_request u email password)).
Proof.
  intros He Hp Hu Hnet [Hjson Hm]. unfold login.
  apply String.eqb_neq in He. apply String.eqb_neq in Hp. rewrite He, Hp. simpl.
  unfold resolve, bind. rewrite Hu. unfold ret at 1. unfold fetch. rewrite Hnet.
  fold (login_request u email password).
  fold (sending w (login_request u email password)).
  unfold content_type_of in Hjson. rewrite Hjson, Hm. reflexivity.
Qed.

(** X13.  How [login] fails, the client left as it was each time: without an
    email or a password it sends nothing; an answer whose body cannot be read,
    announced as JSON and not parsing, is the parser's error, whatever its
    status and its cookies; with a body that is read, a failure status of the
    backend is the status error, quoting the body, and a success without any
    cookie that starts with [authToken=] is the cookie error, of class
    [AuthError].  Every body is read or cannot be read. *)
Theorem login_failure_modes (c : Client) (email password : string) (w : World) :
  (email = EmptyString \/ password = EmptyString ->
   login c email password w = Throw LoginFieldsRequired w)
  /\
  (email <> EmptyString -> password <> EmptyString ->
   forall u r,
     new_URL "/api/auth/login" (baseUrl c) = Some u ->
     network w (List.length (sent w)) = Responded r ->
     (forall m, body_unreadable r m ->
        login c email password w
        = Throw (JsonSyntaxError m) (sending w (login_request u email password))
        /\ kind (JsonSyntaxError m) = None)
     /\
     (forall b, body_read r b ->
        (ok r = false ->
         login c email password w
         = Throw (LoginStatus (status r) (detail b))
             (sending w (login_request u email password))
         /\ kind (LoginStatus (status r) (detail b)) = Some BackendError)
        /\
        (ok r = true ->
         find (fun cookie => startsWith cookie "authToken=") (cookies_of r) = None ->
         login c email password w
         = Throw AuthCookieMissing (sending w (login_request u email password))
         /\ kind AuthCookieMissing = Some AuthError))
     /\
     ((exists b, body_read r b) \/ (exists m, body_unreadable r m))).
Proof.
  split.
  - intros [-> | ->]; unfold login; simpl; rewrite ?orb_true_r; reflexivity.
  - intros He Hp u r Hu Hnet. split; [|split].
    + intros m Hm. split; [|reflexivity].
      exact (login_unreadable c email password u w r m He Hp Hu Hnet Hm).
    + intros b Hread.
      rewrite (login_run c email password u w r b He Hp Hu Hnet Hread).
      split.
      * intros Hok. rewrite Hok. split; reflexivity.
      * intros Hok Hfind. rewrite Hok, Hfind. split; reflexivity.
    + apply body_read_or_unreadable.
Qed.

(** X14.  Once [login] has returned a token to a client that has no static
    token, every later [post] of that client carries the cookie of that token
    and no Bearer header; with a static token the Bearer header stays and the
    cookie is not sent. *)
Theorem login_then_cookie (c c' : Client) (email password token : string)
    (w w1 : World) :
  login c email password w = Return (token, c') w1 ->
  forall (path u : string) (body : JsVal) (w2 : World),
    new_URL path (baseUrl c') = Some u ->
    exists req,
      sent (world_of (post c' path body w2)) = (sent w2 ++ [req])%list
      /\ get (init req) "headers"
         = JObj (("Content-Type", JStr "application/json")
                 :: if present (apiToken c)
                    then [("Authorization", JStr ("Bearer " ++ str (apiToken c)))]
                    else [("Cookie", JStr ("authToken=" ++ token))]).
Proof.
  intros Hlogin path u body w2 Hu.
  destruct (login_returns c c' email password token w w1 Hlogin)
    as (Hc & Ht & _ & _).
  exists (post_request c' u body). split; [apply sent_post; exact Hu|].
  rewrite Hc. unfold post_request, credential_headers. simpl.
  destruct (present (apiToken c)); [reflexivity|].
  apply String.eqb_neq in Ht. rewrite Ht. reflexivity.
Qed.

(** ** [loadConfig] *)

(** X15.  [loadConfig] takes at most one slash off the end of the base URL: a
    URL that ends with a slash loses exactly that one, any other is kept as
    it is. *)
Theorem strip_trailing_slash_once :
  (forall t, strip_trailing_slash (t ++ "/") = t)
  /\ (forall s, (forall t, s <> t ++ "/") -> strip_trailing_slash s = s).
Proof.
  split.
  - induction t as [|c t IH]; simpl.
    + reflexivity.
    + destruct (t ++ "/")%string eqn:E.
      * destruct t; discriminate E.
      * rewrite andb_false_r. rewrite IH. reflexivity.
  - induction s as [|c r IH]; intros Hs; simpl.
    + reflexivity.
    + destruct (Ascii.eqb c "/" && (r =? EmptyString)%string) eqn:E.
      * apply andb_prop in E. destruct E as [Ec Er].
        apply Ascii.eqb_eq in Ec. apply String.eqb_eq in Er. subst.
        exfalso. apply (Hs EmptyString). reflexivity.
      * rewrite IH; [reflexivity|].
        intros t Ht. apply (Hs (String c t)). rewrite Ht. reflexivity.
Qed.

(** X16.  What a configuration that [loadConfig] accepts always holds: a base
    URL that was given, stripped; a static token that is either [null] or the
    non-empty one given; credentials that, when present, are the non-empty
    email and password given; at least one of the two; and a port that is
    never 0.  What it rejects, it rejects with one of its two errors, of class
    [ConfigError]. *)
Theorem loadConfig_invariants (env : Env) :
  match loadConfig env with
  | Ok cfg =>
      (exists url, DOCMOST_BASE_URL env = Some url /\ url <> EmptyString
                   /\ Config.baseUrl cfg = strip_trailing_slash url)
      /\ (Config.apiToken cfg = None
          \/ (present (Config.apiToken cfg) = true
              /\ Config.apiToken cfg = DOCMOST_API_TOKEN env))
      /\ (forall cr, credentials cfg = Some cr ->
            email cr <> EmptyString /\ password cr <> EmptyString
            /\ DOCMOST_EMAIL env = Some (email cr)
            /\ DOCMOST_PASSWORD env = Some (password cr))
      /\ (present (Config.apiToken cfg) = true \/ credentials cfg <> None)
      /\ port cfg <> 0
      /\ readOnly cfg = parseBoolean (READ_ONLY env)
  | Raise e =>
      (e = BaseUrlMissing \/ e = CredentialsMissing)
      /\ kind e = Some ConfigError
  end.
Proof.
  unfold loadConfig.
  destruct (present (DOCMOST_BASE_URL env)) eqn:Hb; simpl;
    [|split; [left; reflexivity|reflexivity]].
  destruct (present (DOCMOST_API_TOKEN env)) eqn:Ht; simpl.
  - repeat split.
    + destruct (present_true _ Hb) as (url & Hurl & Hne).
      exists url. rewrite Hurl. repeat split; assumption.
    + right. split; [exact Ht|reflexivity].
    + destruct (DOCMOST_EMAIL env) as [e|]; [|discriminate].
      destruct (DOCMOST_PASSWORD env) as [p|]; [|discriminate].
      destruct (present (Some e) && present (Some p)) eqn:Hc; [|discriminate].
      injection H as <-. simpl. apply andb_prop in Hc. destruct Hc as [He _].
      destruct (present_true _ He) as (e' & [= <-] & Hne). exact Hne.
    + destruct (DOCMOST_EMAIL env) as [e|]; [|discriminate].
      destruct (DOCMOST_PASSWORD env) as [p|]; [|discriminate].
      destruct (present (Some e) && present (Some p)) eqn:Hc; [|discriminate].
      injection H as <-. simpl. apply andb_prop in Hc. destruct Hc as [_ Hp].
      destruct (present_true _ Hp) as (p' & [= <-] & Hne). exact Hne.
    + destruct (DOCMOST_EMAIL env) as [e|]; [|discriminate].
      destruct (DOCMOST_PASSWORD env) as [p|]; [|discriminate].
      destruct (present (Some e) && present (Some p)); [|discriminate].
      injection H as <-. reflexivity.
    + destruct (DOCMOST_EMAIL env) as [e|]; [|discriminate].
      destruct (DOCMOST_PASSWORD env) as [p|]; [|discriminate].
      destruct (present (Some e) && present (Some p)); [|discriminate].
      injection H as <-. reflexivity.
    + left. exact Ht.
    + unfold port_of, DEFAULT_PORT. destruct (PORT env) as [s|]; [|discriminate].
      destruct (Number s) as [n|]; [|discriminate].
      destruct (n =? 0) eqn:E; [discriminate|]. apply Z.eqb_neq. exact E.
  - destruct (present (DOCMOST_EMAIL env) && present (DOCMOST_PASSWORD env))
      eqn:Hc; simpl; [|split; [right; reflexivity|reflexivity]].
    apply andb_prop in Hc. destruct Hc as [He Hp].
    destruct (present_true _ He) as (e & Hee & Hene).
    destruct (present_true _ Hp) as (p & Hpe & Hpne).
    rewrite Hee, Hpe. simpl.
    repeat split.
    + destruct (present_true _ Hb) as (url & Hurl & Hne).
      exists url. rewrite Hurl. repeat split; assumption.
    + left. reflexivity.
    + injection H as <-. exact Hene.
    + injection H as <-. exact Hpne.
    + injection H as <-. reflexivity.
    + injection H as <-. reflexivity.
    + right. discriminate.
    + unfold port_of, DEFAULT_PORT. destruct (PORT env) as [s|]; [|discriminate].
      destruct (Number s) as [n|]; [|discriminate].
      destruct (n =? 0) eqn:E; [discriminate|]. apply Z.eqb_neq. exact E.
Qed.

(** ** The two shapes of a call *)

(** X17.  The envelope method [call_tool] and the direct shape reach the same
    dispatcher: with arguments that are given and not empty, or not given at
    all, the envelope call does what the direct call of the same tool with the
    same parameters does (same requests, same failure) and wraps its result as
    [{ content }] under the request's id.  Arguments that are given but empty
    ([null], [false], [0], the empty string) count as [{}] in the envelope. *)
Theorem call_tool_is_direct_call (g : Globals) (fuel : nat) (body : JsVal)
    (w : World) :
  truthy (field body "jsonrpc") = true ->
  field body "method" = JStr "call_tool" ->
  (get (field body "params") "arguments" = JUndefined
   \/ truthy (get (field body "params") "arguments") = true ->
   handleJsonRpc g fuel body w
   = wrap_content (field body "id")
       (handleToolCall g fuel
          (JObj [("tool", get (field body "params") "name");
                 ("params", get (field body "params") "arguments")]) w))
  /\
  (absent (get (field body "params") "arguments") = true ->
   handleJsonRpc g fuel body w
   = wrap_content (field body "id")
       (handleToolCall g fuel
          (JObj [("tool", get (field body "params") "name");
                 ("params", JObj [])]) w)).
Proof.
  unfold field, absent. intros Hj Hm.
  assert (Hrun : forall a,
    or (get (get (or body (JObj [])) "params") "arguments") (JObj []) = a ->
    handleJsonRpc g fuel body w
    = wrap_content (get (or body (JObj [])) "id")
        (handleToolCall g fuel
           (JObj [("tool", get (get (or body (JObj [])) "params") "name");
                  ("params", a)]) w)).
  { intros a Ha. unfold handleJsonRpc. rewrite Hj, Hm, Ha. simpl.
    unfold bind. destruct (handleToolCall _ _ _ _); reflexivity. }
  split.
  - intros [Ha|Ha].
    + rewrite (Hrun (JObj [])) by (rewrite Ha; reflexivity).
      rewrite Ha. reflexivity.
    + apply Hrun. unfold or at 1. rewrite Ha. reflexivity.
  - intros Ha. apply negb_true_iff in Ha.
    apply Hrun. unfold or at 1. rewrite Ha. reflexivity.
Qed.

(** ** The envelope methods *)

Lemma envelope_exchange (g : Globals) (fuel : nat) (req : IncomingMessage)
    (w : World) (body : JsVal) :
  envelope_route req = true ->
  parseJsonBody req w = Return body w ->
  handler g fuel req w =
    match handleJsonRpc g fuel body w with
    | Return rpc w' => Return (sendJsonRpc (fst rpc) [("result", snd rpc)]) w'
    | Throw e w' => Return (sendJsonRpcError JNull (-32600) (message e)) w'
    | Pending w' => Pending w'
    end.
Proof.
  intros Hroute Hparse.
  rewrite (handler_envelope g fuel req Hroute), jsonRpcExchange_run.
  unfold bind. rewrite Hparse. reflexivity.
Qed.

(** X18.  [initialize] and [list_tools] are answered from the process alone,
    whatever the fuel and the state of the backend: no request is sent, and
    the response carries the static capability descriptor, or the registry as
    [bootstrap] left it, under the id of the request. *)
Theorem static_methods_need_no_backend (g : Globals) (fuel : nat)
    (req : IncomingMessage) (w : World) (body : JsVal) :
  envelope_route req = true ->
  parseJsonBody req w = Return body w ->
  truthy (field body "jsonrpc") = true ->
  (field body "method" = JStr "initialize" ->
   exists resp, handler g fuel req w = Return resp w
                /\ carries resp (envelope_result (field body "id") capabilities))
  /\
  (field body "method" = JStr "list_tools" ->
   exists resp, handler g fuel req w = Return resp w
                /\ carries resp
                     (envelope_result (field body "id")
                        (JObj [("tools", JArr (tools g))]))).
Proof.
  unfold field. intros Hroute Hparse Hj. split; intros Hm;
    rewrite (envelope_exchange g fuel req w body Hroute Hparse);
    unfold handleJsonRpc; rewrite Hj, Hm; simpl;
    eexists; split; reflexivity.
Qed.

(** X19.  An envelope without [jsonrpc] or without [method] is answered with
    the format error.  One whose method is none of [initialize], [list_tools]
    and [call_tool] is answered with an error that names the method, for every
    method that can be written in a message (a string is written as it is); for
    a method that cannot, an object with a member [toString] or an array that
    holds one, the answer carries the runtime's [TypeError] instead.  All three
    have code -32600 and a [null] id, and nothing is sent to the backend. *)
Theorem envelope_protocol_errors (g : Globals) (fuel : nat)
    (req : IncomingMessage) (w : World) (body : JsVal) :
  envelope_route req = true ->
  parseJsonBody req w = Return body w ->
  (absent (field body "jsonrpc") || absent (field body "method") = true ->
   exists resp,
     handler g fuel req w = Return resp w
     /\ carries resp (envelope_error JNull (-32600) "Formato JSON-RPC inválido."))
  /\
  (absent (field body "jsonrpc") || absent (field body "method") = false ->
   is_str (field body "method") "initialize" = false ->
   is_str (field body "method") "list_tools" = false ->
   is_str (field body "method") "call_tool" = false ->
   (forall name, ToString (field body "method") = Some name ->
      exists resp,
        handler g fuel req w = Return resp w
        /\ carries resp
             (envelope_error JNull (-32600)
                ("Método JSON-RPC desconocido: " ++ name)))
   /\
   (ToString (field body "method") = None ->
    exists resp,
      handler g fuel req w = Return resp w
      /\ carries resp
           (envelope_error JNull (-32600)
              "Cannot convert object to primitive value"))).
Proof.
  unfold field, absent. intros Hroute Hparse. split.
  - intros H. rewrite (envelope_exchange g fuel req w body Hroute Hparse).
    unfold handleJsonRpc. rewrite H. eexists. split; reflexivity.
  - intros H H1 H2 H3.
    rewrite (envelope_exchange g fuel req w body Hroute Hparse).
    unfold handleJsonRpc. rewrite H, H1, H2, H3. split.
    + intros name Hname. rewrite Hname. eexists. split; [reflexivity|].
      unfold message, template. rewrite Hname. reflexivity.
    + intros Hname. rewrite Hname. eexists. split; reflexivity.
Qed.

(** ** Routing *)

(** X20.  Only a [POST] can reach the backend: a request with any other
    method is answered at once, whatever its path and the fuel, and the world
    is left as it was. *)
Theorem only_post_reaches_backend (g : Globals) (fuel : nat)
    (req : IncomingMessage) (w : World) :
  req_method req <> "POST" ->
  exists resp, handler g fuel req w = Return resp w.
Proof.
  intros Hm. apply String.eqb_neq in Hm. unfold handler. rewrite Hm.
  rewrite !andb_false_r.
  repeat match goal with
         | |- context [if ?b then _ else _] => destruct b
         end;
    eexists; reflexivity.
Qed.

Lemma one_of_false_cons (s a : string) (l : list string) :
  one_of s (a :: l) = false -> (s =? a)%string = false /\ one_of s l = false.
Proof. unfold one_of. simpl. apply orb_false_elim. Qed.

(** X21.  What no route matches.  A method other than [GET], [POST] and
    [OPTIONS] is answered 405 on every path, the served ones included; a
    [GET] or a [POST] on a path that is not served for that method is answered
    404, also when the path is served for the other method. *)
Theorem unmatched_routes (g : Globals) (fuel : nat) (req : IncomingMessage)
    (w : World) :
  (one_of (req_method req) ["GET"; "POST"; "OPTIONS"] = false ->
   handler g fuel req w = Return methodNotAllowed w
   /\ statusCode methodNotAllowed = 405)
  /\
  (req_method req = "GET" -> one_of (req_url req) get_paths = false ->
   handler g fuel req w = Return notFound w /\ statusCode notFound = 404)
  /\
  (req_method req = "POST" -> one_of (req_url req) post_paths = false ->
   handler g fuel req w = Return notFound w /\ statusCode notFound = 404).
Proof.
  repeat split.
  - apply one_of_false_cons in H. destruct H as [Hg H].
    apply one_of_false_cons in H. destruct H as [Hp H].
    apply one_of_false_cons in H. destruct H as [Ho _].
    unfold handler. rewrite Hg, Hp, Ho. rewrite !andb_false_r. reflexivity.
  - unfold get_paths in H0.
    repeat (apply one_of_false_cons in H0; destruct H0 as [? H0]).
    unfold handler. rewrite H.
    repeat match goal with
           | E : (req_url req =? _)%string = false |- _ => rewrite E; clear E
           end.
    simpl. rewrite !andb_false_r. reflexivity.
  - unfold post_paths in H0.
    repeat (apply one_of_false_cons in H0; destruct H0 as [? H0]).
    unfold handler. rewrite H.
    repeat match goal with
           | E : (req_url req =? _)%string = false |- _ => rewrite E; clear E
           end.
    simpl. rewrite !andb_false_r. reflexivity.
Qed.

(** X22.  Every response of the handler allows any origin, and every one but
    the empty answer to [OPTIONS] is a JSON document whose [Content-Length] is
    the length of its body in bytes. *)
Theorem response_headers (g : Globals) (fuel : nat) (req : IncomingMessage)
    (w w' : World) (resp : ServerResponse) :
  handler g fuel req w = Return resp w' ->
  header "Access-Control-Allow-Origin" (res_headers resp) = Some "*"
  /\ ((req_method req = "OPTIONS" /\ statusCode resp = 204
       /\ res_body resp = EmptyString)
      \/ (header "Content-Type" (res_headers resp) = Some "application/json"
          /\ header "Content-Length" (res_headers resp)
             = Some (decimal (Z.of_nat (String.length (res_body resp)))))).
Proof.
  unfold handler.
  destruct (req_method req =? "OPTIONS")%string eqn:Hopt.
  - intros [= <- _]. apply String.eqb_eq in Hopt.
    split; [reflexivity|]. left. repeat split. exact Hopt.
  - assert (Hjson : forall o : Outcome ServerResponse,
              (forall r w1, o = Return r w1 ->
                 res_headers r = json_headers (res_body r)) ->
              o = Return resp w' ->
              header "Access-Control-Allow-Origin" (res_headers resp) = Some "*"
              /\ ((req_method req = "OPTIONS" /\ statusCode resp = 204
                   /\ res_body resp = EmptyString)
                  \/ (header "Content-Type" (res_headers resp)
                      = Some "application/json"
                      /\ header "Content-Length" (res_headers resp)
                         = Some (decimal (Z.of_nat (String.length (res_body resp))))))).
    { intros o Ho Heq. rewrite (Ho _ _ Heq).
      split; [reflexivity|]. right. split; reflexivity. }
    repeat match goal with
           | |- context [if ?b then _ else _] => destruct b
           end;
      apply Hjson; intros r w1;
      try (intros [= <- _]; reflexivity).
    + rewrite jsonRpcExchange_run.
      destruct (bind _ _ w); intros [= <- _]; reflexivity.
    + rewrite toolCallExchange_run.
      destruct (bind _ _ w); intros [= <- _]; reflexivity.
    + rewrite jsonRpcExchange_run.
      destruct (bind _ _ w); intros [= <- _]; reflexivity.
Qed.

(** ** The request body *)

Lemma length_filler (n : N) : Js.length (filler n) = n.
Proof.
  unfold filler. induction n as [|n IH] using N.peano_ind.
  - reflexivity.
  - rewrite N.iter_succ.
    change (Js.length (String "a" (N.iter n (String "a") EmptyString)))
      with (1 + Js.length (N.iter n (String "a") EmptyString))%N.
    rewrite IH. lia.
Qed.

(** X23.  A [POST] without a body is read as [{}]: the tool-call route answers
    400 with the missing-tool message, an envelope route answers with the
    format error; nothing is sent either way. *)
Theorem empty_body_is_empty_object (g : Globals) (fuel : nat)
    (req : IncomingMessage) (w : World) (parsed : JsonBody) :
  req_body req = BodyEnd EmptyString parsed ->
  (req_method req = "POST" -> req_url req = "/mcp/tool-call" ->
   handler g fuel req w
   = Return (sendJson 400 [("error", JStr (message MissingTool))]) w)
  /\
  (envelope_route req = true ->
   handler g fuel req w
   = Return (sendJsonRpcError JNull (-32600) (message InvalidJsonRpc)) w).
Proof.
  intros Hb. split.
  - intros Hm Hu. rewrite (handler_tool_call g fuel req Hm Hu).
    unfold toolCallExchange, try_catch, bind, parseJsonBody. rewrite Hb.
    reflexivity.
  - intros Hroute. rewrite (handler_envelope g fuel req Hroute).
    unfold jsonRpcExchange, try_catch, bind, parseJsonBody. rewrite Hb.
    reflexivity.
Qed.

(** X24.  A body that cannot be used never reaches the dispatcher.  A body of
    more than 5,000,000 characters is turned down for its size, valid JSON or
    not; a shorter one that is not JSON is turned down with the gateway's own
    message, the parser's being dropped; an error of the stream is passed on.
    The tool-call route answers each with status 400 and nothing is sent. *)
Theorem unusable_body (g : Globals) (fuel : nat) (req : IncomingMessage)
    (w : World) :
  req_method req = "POST" -> req_url req = "/mcp/tool-call" ->
  (forall data parsed,
     req_body req = BodyEnd data parsed ->
     (5000000 < Js.length data)%N ->
     handler g fuel req w
     = Return (sendJson 400 [("error", JStr (message BodyTooLarge))]) w)
  /\
  (forall data m,
     req_body req = BodyEnd data (JsonInvalid m) ->
     data <> EmptyString ->
     (Js.length data <= 5000000)%N ->
     handler g fuel req w
     = Return (sendJson 400 [("error", JStr (message InvalidJsonBody))]) w)
  /\
  (forall m,
     req_body req = BodyError m ->
     handler g fuel req w = Return (sendJson 400 [("error", JStr m)]) w).
Proof.
  intros Hm Hu. rewrite (handler_tool_call g fuel req Hm Hu).
  unfold toolCallExchange, try_catch, bind, parseJsonBody.
  repeat split.
  - intros data parsed Hb Hlen. rewrite Hb.
    apply N.ltb_lt in Hlen. rewrite Hlen. reflexivity.
  - intros data m Hb Hne Hlen. rewrite Hb.
    apply N.ltb_ge in Hlen. rewrite Hlen.
    apply String.eqb_neq in Hne. rewrite Hne. reflexivity.
  - intros m Hb. rewrite Hb. reflexivity.
Qed.

(** ** Startup and an end-to-end call *)

(** X25.  With a base URL and a static token in the environment, [bootstrap]
    cannot fail and does not contact the backend, an email and a password
    being ignored if given: the client holds the token and no cookie.
    Without a static token [bootstrap] depends on [login]: it throws whatever
    [login] throws, and no handler ever runs. *)
Theorem bootstrap_outcomes (env : Env) (w : World) :
  present (DOCMOST_BASE_URL env) = true ->
  (present (DOCMOST_API_TOKEN env) = true ->
   exists g, bootstrap env w = Return g w
             /\ apiToken (client g) = DOCMOST_API_TOKEN env
             /\ authCookie (client g) = None
             /\ readOnly (appConfig g) = parseBoolean (READ_ONLY env))
  /\
  (present (DOCMOST_API_TOKEN env) = false ->
   forall email password,
     DOCMOST_EMAIL env = Some email -> email <> EmptyString ->
     DOCMOST_PASSWORD env = Some password -> password <> EmptyString ->
     forall e w',
       login (DocmostClient.new
                (strip_trailing_slash (str (DOCMOST_BASE_URL env))) None)
             email password w = Throw e w' ->
       bootstrap env w = Throw e w').
Proof.
  intros Hb. split.
  - intros Ht. unfold bootstrap, bind at 1, loadConfig. rewrite Hb, Ht. simpl.
    rewrite Ht. simpl. unfold bind.
    destruct (DOCMOST_EMAIL env) as [e|];
      [destruct (DOCMOST_PASSWORD env) as [p|];
       [destruct (present (Some e) && present (Some p))|]|];
      simpl; eexists; repeat split.
  - intros Ht email password He Hene Hp Hpne e w' Hlogin.
    unfold bootstrap, bind at 1, loadConfig. rewrite Hb, Ht, He, Hp. simpl.
    apply String.eqb_neq in Hene. apply String.eqb_neq in Hpne.
    rewrite Hene, Hpne. simpl. unfold bind.
    destruct (DOCMOST_BASE_URL env) as [url|]; [|discriminate Hb].
    simpl in Hlogin. rewrite Hlogin. reflexivity.
Qed.

(** X26.  A direct [list_pages] call, end to end: when the backend serves
    pages of which the last is the first to announce no next one, the
    tool-call route answers 200 with [{ result: { items, meta } }], the items
    of all pages in order and the meta of the last, having sent one request
    per page. *)
Theorem list_pages_end_to_end (g : Globals) (fuel : nat) (req : IncomingMessage)
    (w : World) (body : JsVal) (u : string)
    (pages : list BackendPage) (last : BackendPage) :
  req_method req = "POST" -> req_url req = "/mcp/tool-call" ->
  parseJsonBody req w = Return body w ->
  field body "tool" = JStr "list_pages" ->
  absent (get (params_of body) "spaceId") = false ->
  new_URL "/api/pages/sidebar-pages" (baseUrl (client g)) = Some u ->
  Forall (fun p => has_next p = true) pages ->
  has_next last = false ->
  (forall i p, nth_error (pages ++ [last]) i = Some p ->
               serves w (List.length (sent w) + i) p) ->
  (List.length pages < fuel)%nat ->
  handler g fuel req w
  = Return (sendJson 200
              [("result",
                JObj [("items", JArr (flat_map bp_items (pages ++ [last])));
                      ("meta", JObj (bp_meta last))])])
      {| network := network w;
         sent := sent w ++ page_requests (client g) u
                             (get (params_of body) "spaceId") 1
                             (S (List.length pages)) |}.
Proof.
  unfold params_of, field, absent.
  intros Hm Hu Hparse Ht Hs Hurl Hall Hlast Hnet Hfuel.
  apply negb_false_iff in Hs.
  assert (Hp : nullish (match get (or body (JObj [])) "params" with
                        | JUndefined => JObj []
                        | p => p
                        end) = false).
  { destruct (match get (or body (JObj [])) "params" with
              | JUndefined => JObj []
              | p => p
              end); try reflexivity; discriminate Hs. }
  rewrite (handler_tool_call g fuel req Hm Hu), toolCallExchange_run.
  unfold bind at 1. rewrite Hparse.
  unfold handleToolCall, member. rewrite Ht, Hp. simpl.
  rewrite andb_false_r. simpl. unfold bind at 1. simpl.
  rewrite (listPages_pages (client g) u _ pages last w fuel Hs Hurl Hall Hlast
             Hnet Hfuel).
  reflexivity.
Qed.

(** ** The rest of the configuration and of the routes *)

Lemma lower_ascii_idempotent (c : ascii) :
  lower_ascii (lower_ascii c) = lower_ascii c.
Proof.
  destruct c as [[] [] [] [] [] [] [] []]; reflexivity.
Qed.

Lemma toLowerCase_idempotent (s : string) :
  toLowerCase (toLowerCase s) = toLowerCase s.
Proof.
  induction s as [|c s IH]; simpl; [reflexivity|].
  rewrite lower_ascii_idempotent, IH. reflexivity.
Qed.

Lemma toLowerCase_length (s : string) :
  String.length (toLowerCase s) = String.length s.
Proof. induction s as [|c s IH]; simpl; [reflexivity|]. rewrite IH. reflexivity. Qed.

(** X27.  The read-only flag is read without regard to letter case, and
    without any trimming: a value is on exactly when its lower-case form is,
    a value of more than four characters is always off, and so is a missing
    one. *)
Theorem parseBoolean_case_insensitive :
  (forall s, parseBoolean (Some s) = parseBoolean (Some (toLowerCase s)))
  /\ (forall s, parseBoolean (Some s) = true -> (String.length s <= 4)%nat)
  /\ parseBoolean None = false.
Proof.
  split; [|split].
  - intros s. unfold parseBoolean. rewrite toLowerCase_idempotent. reflexivity.
  - intros s. unfold parseBoolean. simpl. rewrite orb_false_r.
    rewrite <- (toLowerCase_length s).
    intros H.
    repeat (apply orb_prop in H; destruct H as [H|H]);
      apply String.eqb_eq in H; rewrite H; simpl; lia.
  - reflexivity.
Qed.

(** X28.  The discovery document is served for a [GET] of either well-known
    path, without contacting the backend.  Its two endpoints stand under one
    base, [proto://host], taken from the [x-forwarded-proto] and [host]
    headers; a missing or empty header falls back on [http] and on
    [0.0.0.0] with the configured port. *)
Theorem discovery_document (g : Globals) (fuel : nat) (req : IncomingMessage)
    (w : World) :
  req_method req = "GET" ->
  req_url req = "/.well-known/mcp" \/ req_url req = "/mcp/.well-known/mcp" ->
  handler g fuel req w
  = Return (sendJson 200
              (discovery (header_or "x-forwarded-proto" "http" req ++ "://"
                          ++ header_or "host"
                               ("0.0.0.0:" ++ decimal (port (appConfig g))) req)))
      w.
Proof.
  intros Hm [Hu|Hu]; unfold handler, header_or, discovery;
    rewrite Hm, Hu; reflexivity.
Qed.



End Coverage.

(* ================================================================== *)
(** * The further properties on the scenarios                         *)
(* ================================================================== *)

(** X1 on a wrapped body, on a body whose [data] is [null], and on the HTML
    page announced as JSON. *)
Lemma request_unwraps_data_witness :
  (exists req,
     request (platform := node) with_token "/api/spaces" []
       (always (json_200 (JObj [("data", JArr [JStr "s1"])])))
     = Return (JArr [JStr "s1"])
         (sending (always (json_200 (JObj [("data", JArr [JStr "s1"])]))) req))
  /\
  (exists req,
     request (platform := node) with_token "/api/spaces" []
       (always (json_200 (JObj [("data", JNull)])))
     = Return JNull (sending (always (json_200 (JObj [("data", JNull)]))) req))
  /\
  (exists req,
     request (platform := node) with_token "/api/spaces" []
       (always (html_announced_as_json 200))
     = Throw (JsonSyntaxError "Unexpected token < in JSON at position 0")
         (sending (always (html_announced_as_json 200)) req)).
Proof.
  split; [|split].
  - destruct (request_unwraps_data (platform := node) with_token "/api/spaces"
                "https://docs.example.com/api/spaces" []
                (always (json_200 (JObj [("data", JArr [JStr "s1"])])))
                (json_200 (JObj [("data", JArr [JStr "s1"])]))
                eq_refl eq_refl eq_refl) as [req [Hread _]].
    exists req. exact (Hread (JObj [("data", JArr [JStr "s1"])]) eq_refl eq_refl).
  - destruct (request_unwraps_data (platform := node) with_token "/api/spaces"
                "https://docs.example.com/api/spaces" []
                (always (json_200 (JObj [("data", JNull)])))
                (json_200 (JObj [("data", JNull)]))
                eq_refl eq_refl eq_refl) as [req [Hread _]].
    exists req. exact (Hread (JObj [("data", JNull)]) eq_refl eq_refl).
  - destruct (request_unwraps_data (platform := node) with_token "/api/spaces"
                "https://docs.example.com/api/spaces" []
                (always (html_announced_as_json 200))
                (html_announced_as_json 200)
                eq_refl eq_refl eq_refl) as [req [_ [Hfail _]]].
    exists req. exact (Hfail _ (conj eq_refl eq_refl)).
Defined.

(** X2 on a JSON error body with status 404, on the HTML page with status
    500, and on the HTML page announced as JSON with status 500. *)
Lemma request_failure_status_witness :
  (exists req,
     request (platform := node) with_token "/api/spaces" []
       (always (json_404 (JObj [("message", JStr "Not Found")])))
     = Throw (BackendStatus 404 (detail (JObj [("message", JStr "Not Found")])))
         (sending (always (json_404 (JObj [("message", JStr "Not Found")]))) req))
  /\
  (exists req,
     request (platform := node) with_token "/api/spaces" [] (always html_500)
     = Throw (BackendStatus 500 html_page) (sending (always html_500) req))
  /\
  (exists req,
     request (platform := node) with_token "/api/spaces" []
       (always (html_announced_as_json 500))
     = Throw (JsonSyntaxError "Unexpected token < in JSON at position 0")
         (sending (always (html_announced_as_json 500)) req)).
Proof.
  split; [|split].
  - destruct (request_failure_status (platform := node) with_token
                "/api/spaces" "https://docs.example.com/api/spaces" []
                (always (json_404 (JObj [("message", JStr "Not Found")])))
                (json_404 (JObj [("message", JStr "Not Found")]))
                eq_refl eq_refl eq_refl) as [req [Hread _]].
    exists req.
    exact (proj1 (Hread (JObj [("message", JStr "Not Found")]) eq_refl)).
  - destruct (request_failure_status (platform := node) with_token
                "/api/spaces" "https://docs.example.com/api/spaces" []
                (always html_500) html_500
                eq_refl eq_refl eq_refl) as [req [Hread _]].
    exists req. exact (proj1 (Hread (JStr html_page) eq_refl)).
  - destruct (request_failure_status (platform := node) with_token
                "/api/spaces" "https://docs.example.com/api/spaces" []
                (always (html_announced_as_json 500))
                (html_announced_as_json 500)
                eq_refl eq_refl eq_refl) as [req [_ [Hfail _]]].
    exists req. exact (proj1 (Hfail _ (conj eq_refl eq_refl))).
Defined.


(** X4 on a [list_spaces] call whose parameters are [null] and on a
    [get_page] call. *)
Lemma single_call_requests_witness :
  sent (world_of (handleToolCall (platform := node) writable_globals 0
                    (JObj (tool_call "list_spaces" JNull)) (always html_200)))
  = [post_request with_token "https://docs.example.com/api/spaces"
       (JObj [("page", JNum 1); ("limit", JNum 50)])]
  /\
  sent (world_of (handleToolCall (platform := node) writable_globals 0
                    get_page_call (always html_200)))
  = [post_request with_token "https://docs.example.com/api/pages/info"
       (JObj [("pageId", JStr "p1")])].
Proof.
  split.
  - exact (proj1 (single_call_requests (platform := node) writable_globals 0
                    (JObj (tool_call "list_spaces" JNull)) (always html_200)
                    "https://docs.example.com/api/spaces")
                 eq_refl eq_refl).
  - exact (proj1 (proj2 (single_call_requests (platform := node)
                           writable_globals 0 get_page_call (always html_200)
                           "https://docs.example.com/api/pages/info"))
                 eq_refl eq_refl eq_refl).
Defined.

(** X5 on a [get_page] call against a backend that answers with an error. *)
Lemma no_retry_witness :
  at_most_one_request (always html_500)
    (handleToolCall (platform := node) writable_globals 0 get_page_call
       (always html_500)).
Proof.
  exact (no_retry (platform := node) writable_globals 0 get_page_call
           (always html_500) eq_refl).
Defined.


Lemma bootstrap_read_only :
  bootstrap (platform := node) (env (Some "true")) (always html_200)
  = Return read_only_globals (always html_200).
Proof. vm_compute. reflexivity. Qed.

(** X7 after a read-only [bootstrap]: [update_page] is not advertised and is
    refused; [get_page] is advertised and is never refused. *)
Lemma registry_matches_dispatcher_witness :
  (exists e,
     handleToolCall (platform := node) read_only_globals 0
       (JObj (tool_call "update_page" valid_page)) (always html_200)
     = Throw e (always html_200)
     /\ refusal e = true)
  /\
  (forall e w',
     handleToolCall (platform := node) read_only_globals 0 get_page_call
       (always html_200)
     = Throw e w' ->
     refusal e = false).
Proof.
  split.
  - exact (proj1 (registry_matches_dispatcher (platform := node)
                    (env (Some "true")) (always html_200) (always html_200)
                    read_only_globals bootstrap_read_only 0
                    (JObj (tool_call "update_page" valid_page))
                    (always html_200))
                 eq_refl).
  - exact (proj2 (registry_matches_dispatcher (platform := node)
                    (env (Some "true")) (always html_200) (always html_200)
                    read_only_globals bootstrap_read_only 0 get_page_call
                    (always html_200))
                 eq_refl).
Defined.

Lemma first_page_served :
  forall i p, nth_error [first_page] i = Some p ->
    serves breaks_on_second_page
      (List.length (sent breaks_on_second_page) + i) p.
Proof.
  intros [|i] p; simpl.
  - intros [= <-]. exists (page_response true first_page).
    split; [reflexivity|apply page_response_delivers].
  - destruct i; discriminate.
Qed.

(** X8 on the backend that breaks down on the second page. *)
Lemma listPages_failure_propagates_witness :
  listPages (platform := node) 5 with_token (JStr "s1") breaks_on_second_page
  = Throw (BackendStatus 500 html_page)
      {| network := network breaks_on_second_page;
         sent := sent breaks_on_second_page
                 ++ page_requests with_token
                      "https://docs.example.com/api/pages/sidebar-pages"
                      (JStr "s1") 1 2 |}.
Proof.
  refine (listPages_failure_propagates (platform := node) with_token
            "https://docs.example.com/api/pages/sidebar-pages" (JStr "s1")
            [first_page] (BackendStatus 500 html_page) breaks_on_second_page 5
            eq_refl eq_refl
            (Forall_cons first_page (eq_refl : has_next first_page = true)
               (Forall_nil _))
            first_page_served _ _).
  - right. exists html_500. split; reflexivity.
  - simpl. lia.
Defined.

(** X9 on a backend that answers [null]. *)
Lemma listPages_shapeless_answer_witness :
  listPages (platform := node) 1 with_token (JStr "s1") (always (json_200 JNull))
  = Return (JObj [("items", JArr []); ("meta", JNull)])
      (sending (always (json_200 JNull))
         (post_request with_token
            "https://docs.example.com/api/pages/sidebar-pages"
            (JObj [("spaceId", JStr "s1"); ("page", JNum 1)]))).
Proof.
  exact (listPages_shapeless_answer (platform := node) with_token
           "https://docs.example.com/api/pages/sidebar-pages" (JStr "s1")
           (always (json_200 JNull)) (json_200 JNull) JNull 0
           eq_refl eq_refl eq_refl eq_refl eq_refl eq_refl).
Defined.

(** X10 on a backend whose [items] is an object. *)
Lemma listPages_items_not_iterable_witness :
  listPages (platform := node) 1 with_token (JStr "s1")
    (always (json_200 (JObj [("items", JObj [("a", JNum 1)])])))
  = Throw NotIterable
      (sending (always (json_200 (JObj [("items", JObj [("a", JNum 1)])])))
         (post_request with_token
            "https://docs.example.com/api/pages/sidebar-pages"
            (JObj [("spaceId", JStr "s1"); ("page", JNum 1)]))).
Proof.
  exact (listPages_items_not_iterable (platform := node) with_token
           "https://docs.example.com/api/pages/sidebar-pages" (JStr "s1")
           (always (json_200 (JObj [("items", JObj [("a", JNum 1)])])))
           (json_200 (JObj [("items", JObj [("a", JNum 1)])]))
           (JObj [("items", JObj [("a", JNum 1)])]) 0
           eq_refl eq_refl eq_refl eq_refl eq_refl eq_refl).
Defined.

(** X11 on a payload of two members. *)
Lemma updatePage_merges_payload_witness :
  exists body,
    sent (world_of (updatePage (platform := node) with_token (JStr "p1")
                      (JObj [("title", JStr "New"); ("icon", JStr "x")])
                      (always html_200)))
    = [post_request with_token "https://docs.example.com/api/pages/update"
         (JObj body)]
    /\ lookup "icon" body = Some (JStr "x")
    /\ lookup "slug" body = None.
Proof.
  assert (Hd : distinct_keys [("title", JStr "New"); ("icon", JStr "x")]).
  { unfold distinct_keys. simpl.
    constructor; [|constructor; [|constructor]].
    - intros [H|[]]. discriminate H.
    - intros []. }
  destruct (updatePage_merges_payload (platform := node) with_token (JStr "p1")
              [("title", JStr "New"); ("icon", JStr "x")] (always html_200)
              "https://docs.example.com/api/pages/update" eq_refl eq_refl Hd)
    as [body [Hsent [Hin Hout]]].
  exists body. split; [exact Hsent|]. split.
  - apply Hin. reflexivity.
  - rewrite (Hout "slug" eq_refl). reflexivity.
Defined.

(** X12 on a cookie whose value holds an equals sign: the token is cut. *)
Lemma login_token_segment_witness :
  login (platform := node) without_token "bot@example.com" "hunter2"
    (always padded_cookie)
  = Return ("YWJj",
            {| baseUrl := "https://docs.example.com";
               apiToken := None;
               authCookie := Some "YWJj" |})
      (sending (always padded_cookie)
         (login_request "https://docs.example.com/api/auth/login"
            "bot@example.com" "hunter2")).
Proof.
  refine (login_token_segment (platform := node) without_token
            "bot@example.com" "hunter2"
            "https://docs.example.com/api/auth/login" (always padded_cookie)
            padded_cookie (JObj [("success", JBool true)]) "YWJj=; Path=/"
            _ _ eq_refl eq_refl eq_refl eq_refl eq_refl); discriminate.
Defined.

(** X13 without a password, on a refused login, on a joined header in
    which the token cookie does not come first, and on a refusal whose body
    is the HTML page announced as JSON. *)
Lemma login_failure_modes_witness :
  login (platform := node) without_token "bot@example.com" EmptyString
    (always login_refused)
  = Throw LoginFieldsRequired (always login_refused)
  /\
  login (platform := node) without_token "bot@example.com" "hunter2"
    (always login_refused)
  = Throw (LoginStatus 401 (detail (JObj [("message", JStr "Bad credentials")])))
      (sending (always login_refused)
         (login_request "https://docs.example.com/api/auth/login"
            "bot@example.com" "hunter2"))
  /\
  login (platform := node) without_token "bot@example.com" "hunter2"
    (always joined_cookies)
  = Throw AuthCookieMissing
      (sending (always joined_cookies)
         (login_request "https://docs.example.com/api/auth/login"
            "bot@example.com" "hunter2"))
  /\
  login (platform := node) without_token "bot@example.com" "hunter2"
    (always (html_announced_as_json 401))
  = Throw (JsonSyntaxError "Unexpected token < in JSON at position 0")
      (sending (always (html_announced_as_json 401))
         (login_request "https://docs.example.com/api/auth/login"
            "bot@example.com" "hunter2")).
Proof.
  assert (He : "bot@example.com" <> EmptyString) by discriminate.
  assert (Hp : "hunter2" <> EmptyString) by discriminate.
  split; [|split; [|split]].
  - exact (proj1 (login_failure_modes (platform := node) without_token
                    "bot@example.com" EmptyString (always login_refused))
                 (or_intror eq_refl)).
  - exact (proj1
             (proj1 (proj1 (proj2 (proj2 (login_failure_modes (platform := node)
                                            without_token "bot@example.com"
                                            "hunter2" (always login_refused))
                                         He Hp
                                         "https://docs.example.com/api/auth/login"
                                         login_refused eq_refl eq_refl))
                           (JObj [("message", JStr "Bad credentials")]) eq_refl)
                    eq_refl)).
  - exact (proj1
             (proj2 (proj1 (proj2 (proj2 (login_failure_modes (platform := node)
                                            without_token "bot@example.com"
                                            "hunter2" (always joined_cookies))
                                         He Hp
                                         "https://docs.example.com/api/auth/login"
                                         joined_cookies eq_refl eq_refl))
                           (JObj [("success", JBool true)]) eq_refl)
                    eq_refl eq_refl)).
  - exact (proj1
             (proj1 (proj2 (login_failure_modes (platform := node)
                              without_token "bot@example.com" "hunter2"
                              (always (html_announced_as_json 401)))
                           He Hp "https://docs.example.com/api/auth/login"
                           (html_announced_as_json 401) eq_refl eq_refl)
                    _ (conj eq_refl eq_refl))).
Defined.

Lemma login_scenario :
  login (platform := node) without_token "bot@example.com" "hunter2"
    (always login_response)
  = Return ("abc123", client login_globals)
      (world_of (login (platform := node) without_token "bot@example.com"
                   "hunter2" (always login_response))).
Proof. vm_compute. reflexivity. Qed.

(** X14 after the login of the scenario: a later [post] carries the cookie. *)
Lemma login_then_cookie_witness :
  exists req,
    sent (world_of (post (platform := node) (client login_globals) "/api/spaces"
                      (JObj []) (always html_200)))
    = [req]
    /\ get (init req) "headers"
       = JObj [("Content-Type", JStr "application/json");
               ("Cookie", JStr "authToken=abc123")].
Proof.
  exact (login_then_cookie (platform := node) without_token
           (client login_globals) "bot@example.com" "hunter2" "abc123"
           (always login_response) _ login_scenario
           "/api/spaces" "https://docs.example.com/api/spaces" (JObj [])
           (always html_200) eq_refl).
Defined.

(** X17 on a [get_page] call in the two shapes. *)
Lemma call_tool_is_direct_call_witness :
  handleJsonRpc (platform := node) writable_globals 0 call_tool_envelope
    (always html_200)
  = wrap_content (JNum 3)
      (handleToolCall (platform := node) writable_globals 0 get_page_call
         (always html_200)).
Proof.
  exact (proj1 (call_tool_is_direct_call (platform := node) writable_globals 0
                  call_tool_envelope (always html_200) eq_refl eq_refl)
               (or_intror eq_refl)).
Defined.

(** X18 on a [list_tools] request in read-only mode, without fuel. *)
Lemma static_methods_need_no_backend_witness :
  exists resp,
    handler (platform := node) read_only_globals 0 (post_json "/mcp" list_tools)
      (always html_500)
    = Return resp (always html_500)
    /\ carries resp
         (envelope_result (JNum 1)
            (JObj [("tools", JArr (firstn 4 baseTools))])).
Proof.
  exact (proj2 (static_methods_need_no_backend (platform := node)
                  read_only_globals 0 (post_json "/mcp" list_tools)
                  (always html_500) (JObj list_tools) eq_refl eq_refl eq_refl)
               eq_refl).
Defined.

(** X19 on an envelope without method, on an unknown method and on a method
    that cannot be written as text. *)
Lemma envelope_protocol_errors_witness :
  (exists resp,
     handler (platform := node) writable_globals 0 (post_json "/" no_method)
       (always html_200)
     = Return resp (always html_200)
     /\ carries resp (envelope_error JNull (-32600) "Formato JSON-RPC inválido."))
  /\
  (exists resp,
     handler (platform := node) writable_globals 0 (post_json "/" unknown_method)
       (always html_200)
     = Return resp (always html_200)
     /\ carries resp
          (envelope_error JNull (-32600) "Método JSON-RPC desconocido: nope"))
  /\
  (exists resp,
     handler (platform := node) writable_globals 0
       (post_json "/" unprintable_method) (always html_200)
     = Return resp (always html_200)
     /\ carries resp
          (envelope_error JNull (-32600)
             "Cannot convert object to primitive value")).
Proof.
  split; [|split].
  - exact (proj1 (envelope_protocol_errors (platform := node) writable_globals 0
                    (post_json "/" no_method) (always html_200)
                    (JObj no_method) eq_refl eq_refl)
                 eq_refl).
  - exact (proj1 (proj2 (envelope_protocol_errors (platform := node)
                           writable_globals 0
                           (post_json "/" unknown_method) (always html_200)
                           (JObj unknown_method) eq_refl eq_refl)
                        eq_refl eq_refl eq_refl eq_refl)
                 "nope" eq_refl).
  - exact (proj2 (proj2 (envelope_protocol_errors (platform := node)
                           writable_globals 0
                           (post_json "/" unprintable_method) (always html_200)
                           (JObj unprintable_method) eq_refl eq_refl)
                        eq_refl eq_refl eq_refl eq_refl)
                 eq_refl).
Defined.

(** X20 on a [GET] of the health path. *)
Lemma only_post_reaches_backend_witness :
  exists resp,
    handler (platform := node) writable_globals 0 (bare "GET" "/health" no_body)
      (always html_500)
    = Return resp (always html_500).
Proof.
  refine (only_post_reaches_backend (platform := node) writable_globals 0
            (bare "GET" "/health" no_body) (always html_500) _).
  discriminate.
Defined.

(** X21 on a [DELETE] of the health path, a [GET] of [/mcp] and a [POST] of
    the health path. *)
Lemma unmatched_routes_witness :
  handler (platform := node) writable_globals 0 (bare "DELETE" "/health" no_body)
    (always html_200)
  = Return methodNotAllowed (always html_200)
  /\
  handler (platform := node) writable_globals 0 (bare "GET" "/mcp" no_body)
    (always html_200)
  = Return notFound (always html_200)
  /\
  handler (platform := node) writable_globals 0 (bare "POST" "/health" no_body)
    (always html_200)
  = Return notFound (always html_200).
Proof.
  split; [|split].
  - exact (proj1 (proj1 (unmatched_routes (platform := node) writable_globals 0
                           (bare "DELETE" "/health" no_body) (always html_200))
                        eq_refl)).
  - exact (proj1 (proj1 (proj2 (unmatched_routes (platform := node)
                                  writable_globals 0
                                  (bare "GET" "/mcp" no_body) (always html_200)))
                        eq_refl eq_refl)).
  - exact (proj1 (proj2 (proj2 (unmatched_routes (platform := node)
                                  writable_globals 0
                                  (bare "POST" "/health" no_body)
                                  (always html_200)))
                        eq_refl eq_refl)).
Defined.

(** X22 on the answer to a [GET] of the health path. *)
Lemma response_headers_witness :
  header "Access-Control-Allow-Origin"
    (res_headers (sendJson 200 [("status", JStr "ok")])) = Some "*"
  /\ ((req_method (bare "GET" "/health" no_body) = "OPTIONS"
       /\ statusCode (sendJson 200 [("status", JStr "ok")]) = 204
       /\ res_body (sendJson 200 [("status", JStr "ok")]) = EmptyString)
      \/ (header "Content-Type"
            (res_headers (sendJson 200 [("status", JStr "ok")]))
          = Some "application/json"
          /\ header "Content-Length"
               (res_headers (sendJson 200 [("status", JStr "ok")]))
             = Some (decimal
                       (Z.of_nat
                          (String.length
                             (res_body (sendJson 200 [("status", JStr "ok")]))))))).
Proof.
  exact (response_headers (platform := node) writable_globals 0
           (bare "GET" "/health" no_body) (always html_200) (always html_200)
           (sendJson 200 [("status", JStr "ok")]) eq_refl).
Defined.

(** X23 on a [POST] without body, on the tool-call route and on [/mcp]. *)
Lemma empty_body_is_empty_object_witness :
  handler (platform := node) writable_globals 0
    (bare "POST" "/mcp/tool-call" no_body) (always html_200)
  = Return (sendJson 400 [("error", JStr (message MissingTool))]) (always html_200)
  /\
  handler (platform := node) writable_globals 0 (bare "POST" "/mcp" no_body)
    (always html_200)
  = Return (sendJsonRpcError JNull (-32600) (message InvalidJsonRpc))
      (always html_200).
Proof.
  split.
  - exact (proj1 (empty_body_is_empty_object (platform := node) writable_globals 0
                    (bare "POST" "/mcp/tool-call" no_body) (always html_200)
                    _ eq_refl)
                 eq_refl eq_refl).
  - exact (proj2 (empty_body_is_empty_object (platform := node) writable_globals 0
                    (bare "POST" "/mcp" no_body) (always html_200)
                    _ eq_refl)
                 eq_refl).
Defined.

Lemma oversize_length : (5000000 < Js.length (filler 5000001))%N.
Proof. rewrite length_filler. reflexivity. Qed.

(** X24 on a body of 5,000,001 letters and on a body that is not JSON. *)
Lemma unusable_body_witness :
  handler (platform := node) writable_globals 0
    (bare "POST" "/mcp/tool-call" oversize) (always html_200)
  = Return (sendJson 400 [("error", JStr (message BodyTooLarge))])
      (always html_200)
  /\
  handler (platform := node) writable_globals 0
    (bare "POST" "/mcp/tool-call" not_json) (always html_200)
  = Return (sendJson 400 [("error", JStr (message InvalidJsonBody))])
      (always html_200).
Proof.
  split.
  - exact (proj1 (unusable_body (platform := node) writable_globals 0
                    (bare "POST" "/mcp/tool-call" oversize) (always html_200)
                    eq_refl eq_refl)
                 (filler 5000001) _ eq_refl oversize_length).
  - refine (proj1 (proj2 (unusable_body (platform := node) writable_globals 0
                            (bare "POST" "/mcp/tool-call" not_json)
                            (always html_200) eq_refl eq_refl))
                  "{tool" _ eq_refl _ _).
    + discriminate.
    + vm_compute. discriminate.
Defined.

Lemma login_refused_scenario :
  login (platform := node)
    (DocmostClient.new
       (strip_trailing_slash (str (DOCMOST_BASE_URL env_login))) None)
    "bot@example.com" "hunter2" (always login_refused)
  = Throw (LoginStatus 401 (detail (JObj [("message", JStr "Bad credentials")])))
      (world_of (login (platform := node) without_token "bot@example.com"
                   "hunter2" (always login_refused))).
Proof. vm_compute. reflexivity. Qed.

(** X25 on a configuration with a static token, and on one by email and
    password whose login the backend refuses. *)
Lemma bootstrap_outcomes_witness :
  (exists g,
     bootstrap (platform := node) (env None) (always html_500)
     = Return g (always html_500)
     /\ apiToken (client g) = Some "secret"
     /\ authCookie (client g) = None
     /\ readOnly (appConfig g) = false)
  /\
  bootstrap (platform := node) env_login (always login_refused)
  = Throw (LoginStatus 401 (detail (JObj [("message", JStr "Bad credentials")])))
      (world_of (login (platform := node) without_token "bot@example.com"
                   "hunter2" (always login_refused))).
Proof.
  split.
  - exact (proj1 (bootstrap_outcomes (platform := node) (env None)
                    (always html_500) eq_refl)
                 eq_refl).
  - refine (proj2 (bootstrap_outcomes (platform := node) env_login
                     (always login_refused) eq_refl)
                  eq_refl "bot@example.com" "hunter2" eq_refl _ eq_refl _
                  _ _ login_refused_scenario); discriminate.
Defined.

(** X26 on a direct [list_pages] call against the backend of two pages. *)
Lemma list_pages_end_to_end_witness :
  handler (platform := node) writable_globals 2
    (post_json "/mcp/tool-call" (tool_call "list_pages" (JObj [("spaceId", JStr "s1")])))
    two_pages
  = Return (sendJson 200
              [("result",
                JObj [("items", JArr [JStr "a"; JStr "b"; JStr "c"]);
                      ("meta", JObj [("hasNextPage", JBool false)])])])
      {| network := network two_pages;
         sent := sent two_pages
                 ++ page_requests with_token
                      "https://docs.example.com/api/pages/sidebar-pages"
                      (JStr "s1") 1 2 |}.
Proof.
  exact (list_pages_end_to_end (platform := node) writable_globals 2
           (post_json "/mcp/tool-call"
              (tool_call "list_pages" (JObj [("spaceId", JStr "s1")])))
           two_pages
           (JObj (tool_call "list_pages" (JObj [("spaceId", JStr "s1")])))
           "https://docs.example.com/api/pages/sidebar-pages"
           [first_page] second_page eq_refl eq_refl eq_refl eq_refl eq_refl
           eq_refl
           (Forall_cons first_page (eq_refl : has_next first_page = true)
              (Forall_nil _))
           eq_refl two_pages_served (le_n 2)).
Defined.

(** X28 on a discovery request that came through a proxy. *)
Lemma discovery_document_witness :
  handler (platform := node) writable_globals 0 proxied_discovery (always html_500)
  = Return (sendJson 200 (discovery "https://gw.example.com")) (always html_500).
Proof.
  exact (discovery_document (platform := node) writable_globals 0
           proxied_discovery (always html_500) eq_refl (or_intror eq_refl)).
Defined.

